(** * Cell Ranger ARC module of MultiQC: a shallow embedding

    Source: [multiqc/modules/cellranger_arc/cellranger_arc.py].

    The module scans web-summary files for the line carrying the embedded
    JSON document, parses the report (metric tables, help texts, alarms,
    plots), accumulates the results per sample and hands them to the host
    framework.

    Conventions of the embedding.
    - A Python [str] is a [string]; a character stands for a code point
      below 256.
    - A Python value (what [json.loads] delivers, and the dictionaries the
      module builds from it) is a [pyval].  Numbers are integers: floating
      point payloads are not part of the embedding.
    - A Python [dict] whose order matters is an insertion-ordered
      association list ([od_get], [od_set]); the mappings keyed by sample
      name are [gmap string _].
    - A raised exception is [Err e]; code that mutates [self] passes the
      state explicitly. *)

From Stdlib Require Import Ascii String ZArith Bool.
From stdpp Require Import base option list strings gmap fin_maps pretty.


(** ** Exceptions and the error monad *)

(** The exceptions the module can meet; [ExternalError] stands for any
    other exception of the host or of a helper. *)
Inductive exn : Type :=
  | KeyError
  | IndexError
  | TypeError
  | AttributeError
  | AssertionError
  | JSONDecodeError
  | ModuleNoSamplesFound
  | ExternalError (name : string).

Inductive result (A : Type) : Type :=
  | Ok (a : A)
  | Err (e : exn).
Arguments Ok {A} a.
Arguments Err {A} e.

Global Instance result_ret : MRet result := fun A a => Ok a.

Global Instance result_bind : MBind result := fun A B k m =>
  match m with
  | Ok a => k a
  | Err e => Err e
  end.

Definition is_ok {A : Type} (m : result A) : bool :=
  match m with Ok _ => true | Err _ => false end.

(** ** Python strings *)

Module PyStr.

(** [str.isspace] on one character, for code points below 256. *)
Definition isspace (c : ascii) : bool :=
  let n := N_of_ascii c in
  ((9 <=? n) && (n <=? 13) || (28 <=? n) && (n <=? 32)
   || (n =? 133) || (n =? 160))%N.

Fixpoint lstrip (s : string) : string :=
  match s with
  | EmptyString => EmptyString
  | String c s' => if isspace c then lstrip s' else s
  end.

Fixpoint rstrip (s : string) : string :=
  match s with
  | EmptyString => EmptyString
  | String c s' =>
      match rstrip s' with
      | EmptyString => if isspace c then EmptyString else String c EmptyString
      | r => String c r
      end
  end.

(** [s.strip()] *)
Definition strip (s : string) : string := rstrip (lstrip s).

(** [s.startswith(p)] *)
Definition startswith (s p : string) : bool := String.prefix p s.

Fixpoint drop (n : nat) (s : string) : string :=
  match n, s with
  | O, _ => s
  | S _, EmptyString => EmptyString
  | S n', String _ s' => drop n' s'
  end.

(** [s.replace(old, new)] for a non-empty [old]: every occurrence, found
    from left to right without overlap.  [skip] counts the characters of
    a matched occurrence still to be passed over. *)
Fixpoint replace_from (skip : nat) (old new s : string) : string :=
  match s with
  | EmptyString => EmptyString
  | String c s' =>
      match skip with
      | S k => replace_from k old new s'
      | O =>
          if String.prefix old s
          then new +:+ replace_from (String.length old - 1) old new s'
          else String c (replace_from O old new s')
      end
  end.

Definition replace (s old new : string) : string := replace_from O old new s.

(** [needle in s] on strings. *)
Fixpoint contains (needle s : string) : bool :=
  String.prefix needle s ||
  match s with
  | EmptyString => false
  | String _ s' => contains needle s'
  end.

Fixpoint chars (s : string) : list string :=
  match s with
  | EmptyString => []
  | String c s' => String c EmptyString :: chars s'
  end.

Fixpoint take_while (p : ascii -> bool) (s : string) : string :=
  match s with
  | EmptyString => EmptyString
  | String c s' => if p c then String c (take_while p s') else EmptyString
  end.

End PyStr.

(** ** Insertion-ordered dictionaries

    A Python [dict] keeps its keys in insertion order; assigning to a key
    already present replaces the value and keeps key and position. *)

Section odict.
Context {K V : Type} (eqb : K -> K -> bool).

Fixpoint od_get (k : K) (d : list (K * V)) : option V :=
  match d with
  | [] => None
  | (k', v) :: d' => if eqb k' k then Some v else od_get k d'
  end.

Fixpoint od_set (k : K) (v : V) (d : list (K * V)) : list (K * V) :=
  match d with
  | [] => [(k, v)]
  | (k', v') :: d' =>
      if eqb k' k then (k', v) :: d' else (k', v') :: od_set k v d'
  end.

Definition od_keys (d : list (K * V)) : list K := d.*1.
End odict.

(** A dictionary with [str] keys fixed by the program text. *)
Definition sdict (V : Type) : Type := list (string * V).

Definition sd_getitem {V : Type} (d : sdict V) (k : string) : result V :=
  match od_get String.eqb k d with
  | Some v => Ok v
  | None => Err KeyError
  end.

Definition sd_setitem {V : Type} (d : sdict V) (k : string) (v : V) : sdict V :=
  od_set String.eqb k v d.

(** ** Python values *)

Set Warnings "-register-all".

Inductive pyval : Type :=
  | PNone
  | PBool (b : bool)
  | PInt (n : Z)
  | PStr (s : string)
  | PList (items : list pyval)
  | PDict (entries : list (pyval * pyval)).

Definition pydict : Type := list (pyval * pyval).

Module Py.

Definition hashable (v : pyval) : bool :=
  match v with
  | PList _ | PDict _ => false
  | _ => true
  end.

(** [bool] is a subclass of [int]: [True == 1], also as a key. *)
Definition as_int (v : pyval) : option Z :=
  match v with
  | PBool b => Some (Z.b2z b)
  | PInt n => Some n
  | _ => None
  end.

(** Equality of two hashable values, as [dict] uses it on keys. *)
Definition key_eqb (a b : pyval) : bool :=
  match a, b with
  | PNone, PNone => true
  | PStr s, PStr t => String.eqb s t
  | _, _ =>
      match as_int a, as_int b with
      | Some m, Some n => Z.eqb m n
      | _, _ => false
      end
  end.

(** [v == "literal"] *)
Definition eq_str (v : pyval) (s : string) : bool :=
  match v with
  | PStr t => String.eqb t s
  | _ => false
  end.

(** [seq[i]] on a sequence, negative indices counting from the end. *)
Definition seq_index {A : Type} (l : list A) (i : Z) : result A :=
  let n := Z.of_nat (length l) in
  let j := if (i <? 0)%Z then (i + n)%Z else i in
  if (j <? 0)%Z then Err IndexError
  else match l !! Z.to_nat j with
       | Some x => Ok x
       | None => Err IndexError
       end.

(** [d[k]] on a [dict] *)
Definition dict_getitem (d : pydict) (k : pyval) : result pyval :=
  if hashable k then
    match od_get key_eqb k d with
    | Some v => Ok v
    | None => Err KeyError
    end
  else Err TypeError.

(** [d[k] = v] on a [dict] *)
Definition dict_setitem (d : pydict) (k v : pyval) : result pydict :=
  if hashable k then Ok (od_set key_eqb k v d) else Err TypeError.

(** [obj[key]] *)
Definition getitem (obj key : pyval) : result pyval :=
  match obj with
  | PDict d => dict_getitem d key
  | PList l =>
      match as_int key with
      | Some i => seq_index l i
      | None => Err TypeError
      end
  | PStr s =>
      match as_int key with
      | Some i => c ← seq_index (PyStr.chars s) i; Ok (PStr c)
      | None => Err TypeError
      end
  | _ => Err TypeError
  end.

(** [obj.get(key, default)] *)
Definition get (obj key dflt : pyval) : result pyval :=
  match obj with
  | PDict d =>
      if hashable key then
        match od_get key_eqb key d with
        | Some v => Ok v
        | None => Ok dflt
        end
      else Err TypeError
  | _ => Err AttributeError
  end.

(** ["literal" in obj] *)
Definition contains_str (needle : string) (obj : pyval) : result bool :=
  match obj with
  | PDict d => Ok (bool_decide (is_Some (od_get key_eqb (PStr needle) d)))
  | PList l => Ok (existsb (fun x => eq_str x needle) l)
  | PStr s => Ok (PyStr.contains needle s)
  | _ => Err TypeError
  end.

(** The items a [for] loop over [obj] visits. *)
Definition iter (obj : pyval) : result (list pyval) :=
  match obj with
  | PList l => Ok l
  | PStr s => Ok (PStr <$> PyStr.chars s)
  | PDict d => Ok (od_keys d)
  | _ => Err TypeError
  end.

(** [a + b] *)
Definition add (a b : pyval) : result pyval :=
  match a, b with
  | PList l1, PList l2 => Ok (PList (l1 ++ l2))
  | PStr s1, PStr s2 => Ok (PStr (s1 +:+ s2))
  | _, _ =>
      match as_int a, as_int b with
      | Some m, Some n => Ok (PInt (m + n))
      | _, _ => Err TypeError
      end
  end.

(** [assert b] *)
Definition assert (b : bool) : result unit :=
  if b then Ok tt else Err AssertionError.

End Py.

(** ** The version pattern

    [re.search(r"cellranger-arc-([\d\.]+)", s)]: the leftmost position where
    the literal is followed by at least one digit or dot; group 1 is the
    longest such run.  Below code point 256 the class [\d] is [0-9]. *)

Module Re.

Definition is_version_char (c : ascii) : bool :=
  let n := N_of_ascii c in
  ((48 <=? n) && (n <=? 57) || (n =? 46))%N.

Definition match_here (s : string) : option string :=
  if String.prefix "cellranger-arc-" s then
    match PyStr.take_while is_version_char (PyStr.drop 15 s) with
    | EmptyString => None
    | g => Some g
    end
  else None.

Fixpoint search (s : string) : option string :=
  match s with
  | EmptyString => None
  | String _ s' =>
      match match_here s with
      | Some g => Some g
      | None => search s'
      end
  end.

(** [re.search] raises [TypeError] on an argument that is no string;
    the result is [group(1)] of the match, if any. *)
Definition search_version (v : pyval) : result (option string) :=
  match v with
  | PStr s => Ok (search s)
  | _ => Err TypeError
  end.

End Re.

(** ** Loops in the error monad *)

(** [for x in items: s = body(s, x)], left to right, stopping at the first
    exception. *)
Fixpoint for_each {A S : Type} (body : S -> A -> result S) (items : list A)
    (s : S) : result S :=
  match items with
  | [] => Ok s
  | x :: rest => s' ← body s x; for_each body rest s'
  end.

(** ** What the host framework hands to the module and receives from it *)

(** One entry yielded by [find_log_files(..., filehandles=True)]. *)
Record log_file : Type := {
  fn : string;
  root : string;
  lines : list string;
}.

Inductive log_entry : Type :=
  | LogDebug (msg : string)
  | LogInfo (msg : string).

(** ** The module *)

(** The names of the sections a report must carry, in the order in which
    [parse_html_summary] reads them. *)
Definition table_keys : list string :=
  [ "joint_metrics_table"; "atac_sequencing_table"; "gex_sequencing_table";
    "atac_cells_table"; "gex_cells_table"; "atac_mapping_table";
    "gex_mapping_table"; "atac_targeting_table" ].

Definition helptext_keys : list string :=
  [ "joint_metrics_helptext"; "atac_sequencing_helptext"; "gex_sequencing_helptext";
    "atac_cells_helptext"; "gex_cells_helptext"; "atac_mapping_helptext";
    "gex_mapping_helptext"; "atac_targeting_helptext" ].

Definition plot_keys : list string :=
  [ "atac_tss_enrichment_plot"; "atac_insert_size_plot";
    "gex_seq_saturation_plot"; "gex_genes_per_cell_plot" ].

Definition required_keys : list string := table_keys ++ helptext_keys ++ plot_keys.

Definition plot_kinds : list string := ["tss"; "insert_size"; "saturation"; "genes"].


Section MultiqcModule.

(** The types of the values that the helpers of
    [multiqc.modules.cellranger_arc.utils] return: the metrics of one
    report, the header metadata, and the series of one plot. *)
Variables metrics headers series : Type.

(** [dict()] as header metadata. *)
Variable no_headers : headers.

(** [json.loads] *)
Variable json_loads : string -> result pyval.

(** [BaseMultiqcModule.clean_s_name] *)
Variable clean_s_name : pyval -> log_file -> result string.

(** [BaseMultiqcModule.is_ignore_sample], the predicate behind
    [ignore_samples]. *)
Variable is_ignore_sample : string -> bool.

(** The helpers imported from [utils]. *)
Variable table_data_and_headers : pyval -> pyval -> result (metrics * headers).
Variable extract_plot_data : pyval -> result series.
Variable subset_header : headers -> sdict string -> option string -> headers.
Variable set_hidden_cols : headers -> list string -> headers.

(** The instance attributes of the module together with the two local
    dictionaries of [__init__], and what the base class records
    ([add_software_version], [add_data_source], the logger). *)
Record module_state : Type := {
  data_by_sample : gmap string metrics;
  warnings_by_sample : gmap string pydict;
  warnings_headers : pydict;
  all_headers : headers;
  plots_data_by_sample : sdict (gmap string series);
  software_versions : list (string * string);
  data_sources : list (string * string);
  log : list log_entry;
}.

Definition set_data_by_sample (d : gmap string metrics) (st : module_state) :=
  {| data_by_sample := d;
     warnings_by_sample := warnings_by_sample st;
     warnings_headers := warnings_headers st;
     all_headers := all_headers st;
     plots_data_by_sample := plots_data_by_sample st;
     software_versions := software_versions st;
     data_sources := data_sources st;
     log := log st |}.

Definition set_warnings_by_sample (w : gmap string pydict) (st : module_state) :=
  {| data_by_sample := data_by_sample st;
     warnings_by_sample := w;
     warnings_headers := warnings_headers st;
     all_headers := all_headers st;
     plots_data_by_sample := plots_data_by_sample st;
     software_versions := software_versions st;
     data_sources := data_sources st;
     log := log st |}.

Definition set_warnings_headers (h : pydict) (st : module_state) :=
  {| data_by_sample := data_by_sample st;
     warnings_by_sample := warnings_by_sample st;
     warnings_headers := h;
     all_headers := all_headers st;
     plots_data_by_sample := plots_data_by_sample st;
     software_versions := software_versions st;
     data_sources := data_sources st;
     log := log st |}.

Definition set_all_headers (h : headers) (st : module_state) :=
  {| data_by_sample := data_by_sample st;
     warnings_by_sample := warnings_by_sample st;
     warnings_headers := warnings_headers st;
     all_headers := h;
     plots_data_by_sample := plots_data_by_sample st;
     software_versions := software_versions st;
     data_sources := data_sources st;
     log := log st |}.

Definition set_plots_data_by_sample (p : sdict (gmap string series))
    (st : module_state) :=
  {| data_by_sample := data_by_sample st;
     warnings_by_sample := warnings_by_sample st;
     warnings_headers := warnings_headers st;
     all_headers := all_headers st;
     plots_data_by_sample := p;
     software_versions := software_versions st;
     data_sources := data_sources st;
     log := log st |}.

(** Modelled from the spec: [BaseMultiqcModule.add_software_version] is
    missing from the sources.  [self.add_software_version(version, s_name)]
    records the version for the sample. *)
Definition add_software_version (version s_name : string) (st : module_state) :=
  {| data_by_sample := data_by_sample st;
     warnings_by_sample := warnings_by_sample st;
     warnings_headers := warnings_headers st;
     all_headers := all_headers st;
     plots_data_by_sample := plots_data_by_sample st;
     software_versions := software_versions st ++ [(version, s_name)];
     data_sources := data_sources st;
     log := log st |}.

(** Modelled from the spec: [BaseMultiqcModule.add_data_source] is missing
    from the sources.
    [self.add_data_source(f, s_name, module="cellranger-arc")] records the
    file as the source of the sample. *)
Definition add_data_source (f : log_file) (s_name : string) (st : module_state) :=
  {| data_by_sample := data_by_sample st;
     warnings_by_sample := warnings_by_sample st;
     warnings_headers := warnings_headers st;
     all_headers := all_headers st;
     plots_data_by_sample := plots_data_by_sample st;
     software_versions := software_versions st;
     data_sources := data_sources st ++ [(fn f, s_name)];
     log := log st |}.

Definition emit (e : log_entry) (st : module_state) :=
  {| data_by_sample := data_by_sample st;
     warnings_by_sample := warnings_by_sample st;
     warnings_headers := warnings_headers st;
     all_headers := all_headers st;
     plots_data_by_sample := plots_data_by_sample st;
     software_versions := software_versions st;
     data_sources := data_sources st;
     log := log st ++ [e] |}.

(** *** Summary extractor (lines 59-65)

    [summary] starts as [None]; the first line that, stripped, starts
    with the prefix decides the result, and the loop is left. *)
Fixpoint find_summary (ls : list string) : result pyval :=
  match ls with
  | [] => Ok PNone
  | line :: rest =>
      let line := PyStr.strip line in
      if PyStr.startswith line "const data" then
        let line := PyStr.replace line "const data = " EmptyString in
        json_loads line
      else find_summary rest
  end.

(** *** Report parser (lines 131-182) *)

(** [summary[section][field]] *)
Definition section_field (summary : pyval) (section field : string) : result pyval :=
  t ← Py.getitem summary (PStr section);
  Py.getitem t (PStr field).

(** Lines 139-148: the sum of eight operands, evaluated left to right. *)
Definition data_rows_of (summary : pyval) : result pyval :=
  r1 ← section_field summary "joint_metrics_table" "rows";
  r2 ← section_field summary "atac_sequencing_table" "rows";
  acc ← Py.add r1 r2;
  r3 ← section_field summary "gex_sequencing_table" "rows";
  acc ← Py.add acc r3;
  r4 ← section_field summary "atac_cells_table" "rows";
  acc ← Py.add acc r4;
  r5 ← section_field summary "gex_cells_table" "rows";
  acc ← Py.add acc r5;
  r6 ← section_field summary "atac_mapping_table" "rows";
  acc ← Py.add acc r6;
  r7 ← section_field summary "gex_mapping_table" "rows";
  acc ← Py.add acc r7;
  r8 ← section_field summary "atac_targeting_table" "rows";
  Py.add acc r8.

(** Lines 149-158. *)
Definition help_text_of (summary : pyval) : result pyval :=
  h1 ← section_field summary "joint_metrics_helptext" "data";
  h2 ← section_field summary "atac_sequencing_helptext" "data";
  acc ← Py.add h1 h2;
  h3 ← section_field summary "gex_sequencing_helptext" "data";
  acc ← Py.add acc h3;
  h4 ← section_field summary "atac_cells_helptext" "data";
  acc ← Py.add acc h4;
  h5 ← section_field summary "gex_cells_helptext" "data";
  acc ← Py.add acc h5;
  h6 ← section_field summary "atac_mapping_helptext" "data";
  acc ← Py.add acc h6;
  h7 ← section_field summary "gex_mapping_helptext" "data";
  acc ← Py.add acc h7;
  h8 ← section_field summary "atac_targeting_helptext" "data";
  Py.add acc h8.

(** The header written for one alarm (lines 171-175). *)
Definition warning_header (title message : pyval) : pyval :=
  PDict [ (PStr "title", title);
          (PStr "description", message);
          (PStr "bgcols", PDict [(PStr "FAIL", PStr "#f06807")]) ].

(** One turn of the loop of lines 167-175, on the pair of the local
    [warnings] and [self.warnings_headers]. *)
Definition alarm_step (acc : pydict * pydict) (alarm : pyval)
    : result (pydict * pydict) :=
  has_id ← Py.contains_str "id" alarm;
  if negb has_id then Ok acc
  else
    title ← Py.getitem alarm (PStr "title");
    warnings ← Py.dict_setitem acc.1 title (PStr "FAIL");
    message ← Py.getitem alarm (PStr "message");
    wh ← Py.dict_setitem acc.2 title (warning_header title message);
    Ok (warnings, wh).

(** [extract_plot_data(summary[key])] *)
Definition plot_of (summary : pyval) (key : string) : result series :=
  p ← Py.getitem summary (PStr key);
  extract_plot_data p.

Definition parse_html_summary (self : module_state) (summary : pyval)
    : result (metrics * pydict * sdict series * module_state) :=
  data_rows ← data_rows_of summary;
  help_text ← help_text_of summary;
  '(parsed_data, hdrs) ← table_data_and_headers data_rows help_text;
  let self := set_all_headers hdrs self in
  alarms ← Py.getitem summary (PStr "alarms");
  alarms_list ← Py.get alarms (PStr "alarms") (PList []);
  items ← Py.iter alarms_list;
  '(warnings, wh) ← for_each alarm_step items ([], warnings_headers self);
  let self := set_warnings_headers wh self in
  tss ← plot_of summary "atac_tss_enrichment_plot";
  insert_size ← plot_of summary "atac_insert_size_plot";
  saturation ← plot_of summary "gex_seq_saturation_plot";
  genes ← plot_of summary "gex_genes_per_cell_plot";
  let plots_data_by_id :=
    sd_setitem (sd_setitem (sd_setitem (sd_setitem []
      "tss" tss) "insert_size" insert_size) "saturation" saturation)
      "genes" genes in
  Ok (parsed_data, warnings, plots_data_by_id, self).

(** *** Software version (lines 73-81) *)

(** The body of the [try] up to the test of [version_match]. *)
Definition version_of (summary : pyval) : result (option string) :=
  table ← Py.getitem summary (PStr "joint_pipeline_info_table");
  rows ← Py.getitem table (PStr "rows");
  version_pair ← Py.getitem rows (PInt 2);
  label ← Py.getitem version_pair (PInt 0);
  _ ← Py.assert (Py.eq_str label "Pipeline version");
  value ← Py.getitem version_pair (PInt 1);
  Re.search_version value.

Definition version_debug (s_name : string) : log_entry :=
  LogDebug ("Unable to parse version for sample " +:+ s_name).

(** The [try] statement: [KeyError] and [AssertionError] are handled,
    every other exception leaves it. *)
Definition extract_version (summary : pyval) (s_name : string)
    (st : module_state) : result module_state :=
  match version_of summary with
  | Ok (Some version) => Ok (add_software_version version s_name st)
  | Ok None => Ok st
  | Err KeyError | Err AssertionError => Ok (emit (version_debug s_name) st)
  | Err e => Err e
  end.

(** *** One file (lines 58-90) *)

Definition duplicate_debug (f : log_file) (s_name : string) : log_entry :=
  LogDebug ("Duplicate sample name found in " +:+ fn f
            +:+ "! Overwriting: " +:+ s_name).

(** One turn of the loop of lines 89-90. *)
Definition plots_step (plots_data_by_id : sdict series) (s_name : string)
    (plots : sdict (gmap string series)) (plot_type : string)
    : result (sdict (gmap string series)) :=
  v ← sd_getitem plots_data_by_id plot_type;
  by_sample ← sd_getitem plots plot_type;
  Ok (sd_setitem plots plot_type (<[s_name := v]> by_sample)).

(** Lines 83-88: the sample is recorded, a sample seen before is
    announced first; its warnings are stored when there are any. *)
Definition record_sample (f : log_file) (s_name : string)
    (parsed_data : metrics) (warnings : pydict) (st : module_state)
    : module_state :=
  let st :=
    if bool_decide (is_Some (data_by_sample st !! s_name))
    then emit (duplicate_debug f s_name) st else st in
  let st := add_data_source f s_name st in
  let st := set_data_by_sample (<[s_name := parsed_data]> (data_by_sample st)) st in
  if bool_decide (0 < length warnings)
  then set_warnings_by_sample (<[s_name := warnings]> (warnings_by_sample st)) st
  else st.

(** Lines 89-90. *)
Definition record_plots (plots_data_by_id : sdict series) (s_name : string)
    (st : module_state) : result module_state :=
  plots ← for_each (plots_step plots_data_by_id s_name)
            (od_keys (plots_data_by_sample st)) (plots_data_by_sample st);
  Ok (set_plots_data_by_sample plots st).

Definition process_file (st : module_state) (f : log_file) : result module_state :=
  summary ← find_summary (lines f);
  match summary with
  | PNone => Ok st
  | _ =>
      sample ← Py.getitem summary (PStr "sample");
      id ← Py.getitem sample (PStr "id");
      s_name ← clean_s_name id f;
      '(parsed_data, warnings, plots_data_by_id, st) ← parse_html_summary st summary;
      st ← extract_version summary s_name st;
      record_plots plots_data_by_id s_name
        (record_sample f s_name parsed_data warnings st)
  end.

(** Lines 47-56. *)
Definition init_state : module_state :=
  {| data_by_sample := ∅;
     warnings_by_sample := ∅;
     warnings_headers := [];
     all_headers := no_headers;
     plots_data_by_sample :=
       [("tss", ∅); ("insert_size", ∅); ("saturation", ∅); ("genes", ∅)];
     software_versions := [];
     data_sources := [];
     log := [] |}.

Definition scan_files (files : list log_file) (st : module_state) : result module_state :=
  for_each process_file files st.

(** *** Sample exclusion (lines 92-95) *)

(** Modelled from the spec: [BaseMultiqcModule.ignore_samples] is missing
    from the sources.  It filters a per-sample mapping by the external
    sample-exclusion predicate: the entries whose key the host does not
    exclude are kept. *)
Definition ignore_samples {V : Type} (d : gmap string V) : gmap string V :=
  filter (fun kv => is_ignore_sample kv.1 = false) d.

(** One turn of the loop of lines 94-95. *)
Definition ignore_step (plots : sdict (gmap string series)) (k : string)
    : result (sdict (gmap string series)) :=
  by_sample ← sd_getitem plots k;
  Ok (sd_setitem plots k (ignore_samples by_sample)).

(** *** Sections handed to the report (lines 100-129, 184-382) *)

Inductive plot : Type :=
  | MetricsTable (data : gmap string metrics) (hdrs : headers) (pconfig : sdict string)
  | WarningsTable (data : gmap string pydict) (hdrs : pydict) (pconfig : sdict string)
  | LineGraph (data : gmap string series) (pconfig : sdict string).

Record section : Type := {
  sec_name : string;
  sec_anchor : string;
  sec_description : string;
  sec_helptext : option string;
  sec_plot : plot;
}.

(** What the module hands to the host: the line logged at line 100, the
    data file (line 103), the columns of the general statistics (line 106)
    and the sections (lines 109-129). *)
Record report : Type := {
  found : log_entry;
  data_file : gmap string metrics * string;
  general_stats : gmap string metrics * headers;
  sections : list section;
}.

Definition general_cols : sdict string :=
  [ ("Estimated number of cells", "YlGn");
    ("Fraction of high-quality fragments in cells", "Blues");
    ("Median genes per cell", "GnBu");
    ("Feature linkages detected", "PuBuGn");
    ("Linked genes", "RdYlGn");
    ("Linked peaks", "RdYlBu") ].

(** [general_stats_table]: what reaches [general_stats_addcols]. *)
Definition general_stats_table (data_by_sample : gmap string metrics)
    (data_headers : headers) : gmap string metrics * headers :=
  let general_headers := subset_header data_headers general_cols None in
  (data_by_sample, general_headers).

Definition warnings_section (warnings_by_sample : gmap string pydict)
    (warnings_headers : pydict) : section :=
  {| sec_name := "ARC - Warnings";
     sec_anchor := "cellranger-arc-warnings";
     sec_description := "Warnings encountered during the analysis";
     sec_helptext := None;
     sec_plot := WarningsTable warnings_by_sample warnings_headers
       [ ("namespace", "ARC");
         ("id", "cellranger-arc-warnings-table");
         ("title", "Cellranger ARC: Warnings") ] |}.

Definition seq_target_cols : sdict string :=
  [ ("Sequenced read pairs", "YlGn");
    ("Valid barcodes", "RdPu");
    ("Percent duplicates", "Blues");
    ("Number of peaks", "Greens");
    ("Fraction of genome in peaks", "Purples");
    ("TSS enrichment score", "PuBuGn");
    ("Fraction of high-quality fragments overlapping peaks", "Spectral") ].

Definition cell_mapping_cols : sdict string :=
  [ ("Estimated number of cells", "YlGn");
    ("Mean raw read pairs per cell", "RdPu");
    ("Fraction of high-quality fragments in cells", "Blues");
    ("Fraction of transposition events in peaks in cells", "Greens");
    ("Median high-quality fragments per cell", "Purples");
    ("Confidently mapped read pairs", "PuBuGn");
    ("Non-nuclear read pairs", "Spectral") ].

Definition atac_summary_table (data_by_sample : gmap string metrics)
    (data_headers : headers) : list section :=
  let seq_target_headers := subset_header data_headers seq_target_cols (Some "ATAC") in
  let cell_mapping_headers := subset_header data_headers cell_mapping_cols (Some "ATAC") in
  [ {| sec_name := "ATAC - Summary stats";
       sec_anchor := "cellranger-atac-stats";
       sec_description := "ATAC: Sequencing & Targeting metrics";
       sec_helptext := None;
       sec_plot := MetricsTable data_by_sample seq_target_headers
         [ ("id", "cellranger-atac-stats-table1");
           ("title", "ATAC: Sequencing & Targeting metrics") ] |};
    {| sec_name := "ATAC - Cell & Mapping metrics";
       sec_anchor := "cellranger-atac-cell-mapping";
       sec_description := "ATAC: Cell & Mapping metrics";
       sec_helptext := None;
       sec_plot := MetricsTable data_by_sample cell_mapping_headers
         [ ("id", "cellranger-atac-stats-table2");
           ("title", "ATAC: Cell & Mapping metrics") ] |} ].

Definition atac_plots (plots_data : sdict (gmap string series)) : result (list section) :=
  tss ← sd_getitem plots_data "tss";
  insert_size ← sd_getitem plots_data "insert_size";
  Ok [ {| sec_name := "ATAC - TSS enrichment plot";
          sec_anchor := "atac-tss-plot";
          sec_description := "Transcription Start Site (TSS) Plot";
          sec_helptext := Some "The TSS profile is displayed in the plot. The y-axis scale is normalized by the minimum signal in the window.";
          sec_plot := LineGraph tss
            [ ("id", "mqc_atac_tss_enrichment_plot");
              ("title", "Cell Ranger ARC (ATAC): Enrichment around TSS");
              ("xlab", "Relative Position (bp from TSS)");
              ("ylab", "Relative Enrichment") ] |};
       {| sec_name := "ATAC - Insert Size Distribution";
          sec_anchor := "atac-insert-size-plot";
          sec_description := "Insert Size Distribution Plot";
          sec_helptext := Some "Insert size distribution of transposase accessible fragments sequenced is displayed in the plot.";
          sec_plot := LineGraph insert_size
            [ ("id", "mqc_atac_insert_size_plot");
              ("title", "Cell Ranger ARC (ATAC): Insert Size Distribution");
              ("xlab", "Insert Size");
              ("ylab", "Fragment Count (linear scale)") ] |} ].

Definition gex_cols : sdict string :=
  [ ("Sequenced read pairs", "YlGn");
    ("Estimated number of cells", "RdPu");
    ("Mean raw reads per cell", "Blues");
    ("Total genes detected", "Greens");
    ("Median genes per cell", "Purples");
    ("Fraction of transcriptomic reads in cells", "PuBuGn");
    ("Reads with TSO", "YlOrRd");
    ("Valid barcodes", "Spectral");
    ("Valid UMIs", "RdYlGn");
    ("Median UMI counts per cell", "YlGn");
    ("Percent duplicates", "RdPu");
    ("Q30 bases in barcode", "Blues");
    ("Q30 bases in UMI", "Greens");
    ("Reads mapped to genome", "Purples");
    ("Reads mapped confidently to genome", "PuBuGn");
    ("Reads mapped confidently to transcriptome", "YlOrRd");
    ("Reads mapped confidently to exonic regions", "Spectral");
    ("Reads mapped confidently to intronic regions", "RdYlGn");
    ("Reads mapped confidently to intergenic regions", "YlGn");
    ("Reads mapped antisense to gene", "RdPu") ].

Definition gex_hidden : list string :=
  [ "Percent duplicates";
    "Q30 bases in barcode";
    "Q30 bases in UMI";
    "Reads mapped to genome";
    "Reads mapped confidently to genome";
    "Reads mapped confidently to transcriptome";
    "Reads mapped confidently to exonic regions";
    "Reads mapped confidently to intronic regions";
    "Reads mapped confidently to intergenic regions";
    "Reads mapped antisense to gene" ].

Definition gex_summary_table (data_by_sample : gmap string metrics)
    (data_headers : headers) : list section :=
  let gex_headers := subset_header data_headers gex_cols (Some "GEX") in
  let gex_headers := set_hidden_cols gex_headers gex_hidden in
  [ {| sec_name := "GEX - Summary stats";
       sec_anchor := "cellranger-gex-stats";
       sec_description := "GEX: Gene Expression metrics";
       sec_helptext := None;
       sec_plot := MetricsTable data_by_sample gex_headers
         [ ("id", "cellranger-gex-stats-table");
           ("title", "GEX: Gene Expression metrics") ] |} ].

Definition gex_plots (plots_data : sdict (gmap string series)) : result (list section) :=
  saturation ← sd_getitem plots_data "saturation";
  genes ← sd_getitem plots_data "genes";
  Ok [ {| sec_name := "GEX - Sequencing Saturation";
          sec_anchor := "gex-saturation-plot";
          sec_description := "Sequencing Saturation Plot";
          sec_helptext := Some "This plot shows the Percent Duplicates metric as a function of downsampled sequencing depth (measured in mean read pairs per cell), up to the observed sequencing depth. The Percent Duplicates metric is a measure of the sequencing saturation, and approaches 1.0 (100%) when all converted mRNA transcripts have been sequenced. The slope of the curve near the endpoint can be interpreted as an upper bound to the benefit to be gained from increasing the sequencing depth beyond this point.";
          sec_plot := LineGraph saturation
            [ ("id", "mqc_gex_saturation_plot");
              ("title", "Cell Ranger ARC (GEX): Sequencing Saturation");
              ("xlab", "Mean Read Pairs per Cell");
              ("ylab", "Percent Duplicates") ] |};
       {| sec_name := "GEX - Median Genes per Cell";
          sec_anchor := "gex-genes-plot";
          sec_description := "Median Genes per Cell Plot";
          sec_helptext := Some "Observed median genes per cell as a function of downsampling rate in mean read pairs per cell.The slope of the curve near the endpoint can be interpreted as an upper bound to the benefit to be gained from increasing the sequencing depth beyond this point.";
          sec_plot := LineGraph genes
            [ ("id", "mqc_gex_genes_plot");
              ("title", "Cell Ranger ARC (GEX): Median Genes per Cell");
              ("xlab", "Mean Read Pairs per Cell");
              ("ylab", "Median Genes per Cell") ] |} ].

Definition found_info (n : nat) : log_entry :=
  LogInfo ("Found " +:+ pretty n +:+ " Cell Ranger ARC reports").

(** *** [__init__] (lines 39-129) *)

(** Everything after the scan of the files (lines 92-129). *)
Definition finish (st : module_state) : result report :=
  let data_by_sample := ignore_samples (data_by_sample st) in
  let warnings_by_sample := ignore_samples (warnings_by_sample st) in
  plots ← for_each ignore_step (od_keys (plots_data_by_sample st))
            (plots_data_by_sample st);
  if bool_decide (size data_by_sample = 0) then Err ModuleNoSamplesFound
  else
    let warn :=
      if bool_decide (0 < size warnings_by_sample)
      then [warnings_section warnings_by_sample (warnings_headers st)] else [] in
    let atac := atac_summary_table data_by_sample (all_headers st) in
    let gex := gex_summary_table data_by_sample (all_headers st) in
    lineplots ←
      match plots with
      | [] => Ok []
      | _ => a ← atac_plots plots; g ← gex_plots plots; Ok (a ++ g)
      end;
    Ok {| found := found_info (size data_by_sample);
          data_file := (data_by_sample, "multiqc_cellranger_arc");
          general_stats := general_stats_table data_by_sample (all_headers st);
          sections := warn ++ atac ++ gex ++ lineplots |}.

Definition __init__ (files : list log_file) : result report :=
  st ← scan_files files init_state;
  finish st.

(** *** Reports of the documented shape

    A section that is present is as the upstream tool writes it: a table
    has a list under [rows], a help text a list under [data], the alarms
    block holds a list of objects, each with a title and a message when
    it has an [id], and the helpers of [utils] accept what they are
    given.  Nothing is said about sections that are absent. *)

Definition table_shape (field : string) (entries : pydict) (key : string) : bool :=
  match od_get Py.key_eqb (PStr key) entries with
  | None => true
  | Some (PDict sec) =>
      match od_get Py.key_eqb (PStr field) sec with
      | Some (PList _) => true
      | _ => false
      end
  | Some _ => false
  end.

Definition alarm_shape (alarm : pyval) : bool :=
  match alarm with
  | PDict d =>
      match od_get Py.key_eqb (PStr "id") d with
      | None => true
      | Some _ =>
          match od_get Py.key_eqb (PStr "title") d,
                od_get Py.key_eqb (PStr "message") d with
          | Some t, Some _ => Py.hashable t
          | _, _ => false
          end
      end
  | _ => false
  end.

Definition alarms_shape (entries : pydict) : bool :=
  match od_get Py.key_eqb (PStr "alarms") entries with
  | None => true
  | Some (PDict block) =>
      match od_get Py.key_eqb (PStr "alarms") block with
      | None => true
      | Some (PList items) => forallb alarm_shape items
      | Some _ => false
      end
  | Some _ => false
  end.

Definition plot_shape (entries : pydict) (key : string) : bool :=
  match od_get Py.key_eqb (PStr key) entries with
  | None => true
  | Some p => is_ok (extract_plot_data p)
  end.

Definition normalizer_accepts (summary : pyval) : bool :=
  match data_rows_of summary, help_text_of summary with
  | Ok rows, Ok help => is_ok (table_data_and_headers rows help)
  | _, _ => true
  end.

Definition well_shaped (entries : pydict) : bool :=
  forallb (table_shape "rows" entries) table_keys
  && forallb (table_shape "data" entries) helptext_keys
  && normalizer_accepts (PDict entries)
  && alarms_shape entries
  && forallb (plot_shape entries) plot_keys.

(** *** The samples a report shows *)

Definition plot_samples (p : plot) : gset string :=
  match p with
  | MetricsTable data _ _ => dom data
  | WarningsTable data _ _ => dom data
  | LineGraph data _ => dom data
  end.

(** The mapping a section shows is one of the accumulated mappings with
    the excluded samples taken out, once. *)
Definition filtered_plot (st : module_state) (p : plot) : Prop :=
  match p with
  | MetricsTable data _ _ => data = ignore_samples (data_by_sample st)
  | WarningsTable data _ _ => data = ignore_samples (warnings_by_sample st)
  | LineGraph data _ =>
      ∃ kind by_sample,
        sd_getitem (plots_data_by_sample st) kind = Ok by_sample
        ∧ data = ignore_samples by_sample
  end.

Definition report_samples (r : report) : gset string :=
  dom (data_file r).1 ∪ dom (general_stats r).1
  ∪ ⋃ (plot_samples <$> (sec_plot <$> sections r)).

End MultiqcModule.

Arguments data_by_sample {metrics headers series} _.
Arguments warnings_by_sample {metrics headers series} _.
Arguments warnings_headers {metrics headers series} _.
Arguments all_headers {metrics headers series} _.
Arguments plots_data_by_sample {metrics headers series} _.
Arguments software_versions {metrics headers series} _.
Arguments data_sources {metrics headers series} _.
Arguments log {metrics headers series} _.
Arguments found {metrics headers series} _.
Arguments data_file {metrics headers series} _.
Arguments general_stats {metrics headers series} _.
Arguments sections {metrics headers series} _.
Arguments sec_plot {metrics headers series} _.
Arguments sec_name {metrics headers series} _.
Arguments sec_anchor {metrics headers series} _.
Arguments MetricsTable {metrics headers series} _ _ _.
Arguments WarningsTable {metrics headers series} _ _ _.
Arguments LineGraph {metrics headers series} _ _.
Arguments emit {metrics headers series} _ _.
Arguments add_software_version {metrics headers series} _ _ _.
Arguments extract_version {metrics headers series} _ _ _.
Arguments init_state {metrics headers series} _.
Arguments find_summary _ _ : simpl nomatch.
Arguments parse_html_summary {metrics headers series} _ _ _ _.
Arguments process_file {metrics headers series} _ _ _ _ _ _.
Arguments scan_files {metrics headers series} _ _ _ _ _ _.
Arguments finish {metrics headers series} _ _ _ _.
Arguments __init__ {metrics headers series} _ _ _ _ _ _ _ _ _.
Arguments plots_step {series} _ _ _ _.
Arguments record_sample {metrics headers series} _ _ _ _ _.
Arguments record_plots {metrics headers series} _ _ _.
Arguments ignore_step {series} _ _ _.
Arguments plot_of {series} _ _ _.
Arguments general_stats_table {metrics headers} _ _ _.
Arguments atac_summary_table {metrics headers series} _ _ _.
Arguments gex_summary_table {metrics headers series} _ _ _ _.
Arguments atac_plots {metrics headers series} _.
Arguments gex_plots {metrics headers series} _.
Arguments warnings_section {metrics headers series} _ _.
Arguments report_samples {metrics headers series} _.
Arguments filtered_plot {metrics headers series} _ _ _.
Arguments plot_samples {metrics headers series} _.
Arguments well_shaped {metrics headers series} _ _ _.
Arguments normalizer_accepts {metrics headers} _ _.
Arguments plot_shape {series} _ _ _.
Arguments set_data_by_sample {metrics headers series} _ _.
Arguments set_warnings_by_sample {metrics headers series} _ _.
Arguments set_warnings_headers {metrics headers series} _ _.
Arguments set_all_headers {metrics headers series} _ _.
Arguments set_plots_data_by_sample {metrics headers series} _ _.
Arguments add_data_source {metrics headers series} _ _ _.
Arguments ignore_samples _ {V} _.

(** ** The helpers of [utils], from their description *)

Module Utils.

(** Header metadata of one metric. *)
Record header : Type := {
  title : string;
  description : pyval;
  scale : option string;
  namespace : option string;
  hidden : bool;
}.

Definition with_scale (colour : string) (ns : option string) (h : header) : header :=
  {| title := title h;
     description := description h;
     scale := Some colour;
     namespace := match ns with Some n => Some n | None => namespace h end;
     hidden := hidden h |}.

Definition hide (h : header) : header :=
  {| title := title h;
     description := description h;
     scale := scale h;
     namespace := namespace h;
     hidden := true |}.

(** One [[name, value]] entry of a table or of a help text. *)
Definition entry_of (row : pyval) : result (string * pyval) :=
  match row with
  | PList [PStr name; v] => Ok (name, v)
  | _ => Err TypeError
  end.

Fixpoint entries_of (rows : list pyval) : result (sdict pyval) :=
  match rows with
  | [] => Ok []
  | row :: rest =>
      e ← entry_of row;
      es ← entries_of rest;
      Ok (e :: es)
  end.

Definition entries (v : pyval) : result (sdict pyval) :=
  match v with
  | PList rows => entries_of rows
  | _ => Err TypeError
  end.

(** Modelled from the spec: [utils.table_data_and_headers] is missing
    from the sources.  From the rows and the help texts it produces the
    mapping from metric name to the row's value and the mapping from
    metric name to header metadata (title = name, description = the help
    text of that name); a help text without a row of its name gives no
    header. *)
Definition table_data_and_headers (rows help : pyval)
    : result (sdict pyval * sdict header) :=
  rs ← entries rows;
  hs ← entries help;
  let data := fold_left (fun d e => sd_setitem d e.1 e.2) rs [] in
  let hdrs :=
    fold_left (fun d e =>
      match od_get String.eqb e.1 data with
      | Some _ =>
          sd_setitem d e.1
            {| title := e.1; description := e.2; scale := None;
               namespace := None; hidden := false |}
      | None => d
      end) hs [] in
  Ok (data, hdrs).

(** Modelled from the spec: [utils.subset_header] is missing from the
    sources.  It takes the full header metadata, the caller's ordered
    metric names (each with its colour scale) and an optional namespace
    label, and returns only the headers matching those names, in the
    caller's order. *)
Definition subset_header (data : sdict header) (cols : sdict string)
    (ns : option string) : sdict header :=
  fold_left (fun out col =>
    match od_get String.eqb col.1 data with
    | Some h => sd_setitem out col.1 (with_scale col.2 ns h)
    | None => out
    end) cols [].

(** Modelled from the spec: [utils.set_hidden_cols] is missing from the
    sources.  It marks the named headers as hidden by default and removes
    none. *)
Definition set_hidden_cols (hdrs : sdict header) (names : list string)
    : sdict header :=
  (fun kv : string * header =>
     if bool_decide (kv.1 ∈ names) then (kv.1, hide kv.2) else kv) <$> hdrs.

(** What a line graph is drawn from: one ordered sequence of (x, y)
    pairs, or one such sequence for each named sub-series. *)
Inductive series : Type :=
  | Line (points : list (Z * Z))
  | Lines (named : sdict (list (Z * Z))).

(** One [[x, y]] pair of numbers. *)
Definition point_of (p : pyval) : result (Z * Z) :=
  match p with
  | PList [PInt x; PInt y] => Ok (x, y)
  | _ => Err TypeError
  end.

Fixpoint points_of (ps : list pyval) : result (list (Z * Z)) :=
  match ps with
  | [] => Ok []
  | p :: rest =>
      xy ← point_of p;
      xys ← points_of rest;
      Ok (xy :: xys)
  end.

(** The sub-series of a plot with several lines, each under its name. *)
Fixpoint named_points_of (named : pydict) : result (sdict (list (Z * Z))) :=
  match named with
  | [] => Ok []
  | (PStr name, PList ps) :: rest =>
      xys ← points_of ps;
      others ← named_points_of rest;
      Ok ((name, xys) :: others)
  | _ :: _ => Err TypeError
  end.

(** Modelled from the spec: [utils.extract_plot_data] is missing from the
    sources.  It reshapes one plot object, an array of [[x, y]] pairs or
    an object with one such array for each named sub-series, into the
    ordered (x, y) pairs that the line graph takes; the numbers are
    passed through as they are.  A plot object of any other shape is a
    hard failure. *)
Definition extract_plot_data (plot : pyval) : result series :=
  match plot with
  | PList ps => xys ← points_of ps; Ok (Line xys)
  | PDict named => lines ← named_points_of named; Ok (Lines lines)
  | _ => Err TypeError
  end.

End Utils.

(** ** The four plot kinds *)

(** A dictionary with exactly the four plot kinds as keys, in the order of
    lines 51-56. *)
Definition four_plots {V : Type} (tss insert_size saturation genes : V) : sdict V :=
  [ ("tss", tss); ("insert_size", insert_size);
    ("saturation", saturation); ("genes", genes) ].

(** Each of the four plot mappings has the samples of the metrics mapping
    as its keys. *)
Definition plots_follow_samples {metrics headers series : Type}
    (st : module_state metrics headers series) : Prop :=
  ∃ m1 m2 m3 m4,
    plots_data_by_sample st = four_plots m1 m2 m3 m4
    ∧ Forall (fun m : gmap string series => dom m = dom (data_by_sample st))
        [m1; m2; m3; m4].

(** ** Lines of a web summary *)

(** The test of line 62 on a line as the file yields it. *)
Definition is_data_line (line : string) : bool :=
  PyStr.startswith (PyStr.strip line) "const data".

(** The text handed to [json.loads] at line 64. *)
Definition payload (line : string) : string :=
  PyStr.replace (PyStr.strip line) "const data = " EmptyString.

(** ** The cases of the version step *)

(** [summary["joint_pipeline_info_table"]["rows"][2]] is [vp]. *)
Definition version_pair_is (summary vp : pyval) : Prop :=
  ∃ table rows,
    Py.getitem summary (PStr "joint_pipeline_info_table") = Ok table
    ∧ Py.getitem table (PStr "rows") = Ok rows
    ∧ Py.getitem rows (PInt 2) = Ok vp.

(** One of the two keys on the way to the rows is missing. *)
Definition version_key_missing (summary : pyval) : Prop :=
  Py.getitem summary (PStr "joint_pipeline_info_table") = Err KeyError
  ∨ ∃ table,
      Py.getitem summary (PStr "joint_pipeline_info_table") = Ok table
      ∧ Py.getitem table (PStr "rows") = Err KeyError.

(** The label of the row at index 2 is not the expected one. *)
Definition version_label_mismatch (summary : pyval) : Prop :=
  ∃ vp label,
    version_pair_is summary vp
    ∧ Py.getitem vp (PInt 0) = Ok label
    ∧ Py.eq_str label "Pipeline version" = false.

(** The row at index 2 has the expected label and the string [value]. *)
Definition version_value_is (summary : pyval) (value : string) : Prop :=
  ∃ vp label,
    version_pair_is summary vp
    ∧ Py.getitem vp (PInt 0) = Ok label
    ∧ Py.eq_str label "Pipeline version" = true
    ∧ Py.getitem vp (PInt 1) = Ok (PStr value).

(** ** The warnings of a report, as the specification words them *)

(** The entry has an [id] field. *)
Definition has_id (alarm : pyval) : bool :=
  match Py.contains_str "id" alarm with
  | Ok b => b
  | Err _ => false
  end.

(** The header of a warning entry as the specification words it: the
    title of the alarm, its message as the description, and the fixed
    highlight colour of the value ["FAIL"]. *)
Definition entry_header (title message : pyval) : pyval :=
  PDict [ (PStr "title", title);
          (PStr "description", message);
          (PStr "bgcols", PDict [(PStr "FAIL", PStr "#f06807")]) ].

(** The entry emitted for one alarm: its title with the value ["FAIL"]
    among the warnings, and its header among the warning headers. *)
Definition emit_warning (acc : pydict * pydict) (alarm : pyval) : pydict * pydict :=
  match Py.getitem alarm (PStr "title"), Py.getitem alarm (PStr "message") with
  | Ok title, Ok message =>
      (od_set Py.key_eqb title (PStr "FAIL") acc.1,
       od_set Py.key_eqb title (entry_header title message) acc.2)
  | _, _ => acc
  end.

(** Skip the alarms without [id], emit an entry for each of the others. *)
Definition warning_entries (items : list pyval) (acc : pydict * pydict)
    : pydict * pydict :=
  fold_left emit_warning (List.filter has_id items) acc.

(** ** Example reports *)

Module Fixture.

Definition nl : string := String (ascii_of_nat 10) EmptyString.

Definition row (name value : string) : pyval := PList [PStr name; PStr value].

Definition table (rows : list pyval) : pyval := PDict [(PStr "rows", PList rows)].

Definition helptext (data : list pyval) : pyval := PDict [(PStr "data", PList data)].

Definition alarm (id title message : string) : pyval :=
  PDict [ (PStr "id", PStr id); (PStr "title", PStr title);
          (PStr "message", PStr message) ].

(** An alarm as the upstream tool writes it when it has no identifier. *)
Definition note (title message : string) : pyval :=
  PDict [ (PStr "title", PStr title); (PStr "message", PStr message) ].

Definition pipeline_info (version : string) : list pyval :=
  [ row "Sample ID" "s"; row "Sample description" "none";
    row "Pipeline version" version ].

Definition point (x y : Z) : pyval := PList [PInt x; PInt y].

(** A report with one joint metric and one ATAC sequencing metric. *)
Definition report (id metric value : string) (info alarms : list pyval) : pyval :=
  PDict
    [ (PStr "sample", PDict [(PStr "id", PStr id)]);
      (PStr "joint_pipeline_info_table", table info);
      (PStr "joint_metrics_table", table [row metric value]);
      (PStr "atac_sequencing_table", table [row "Sequenced read pairs" "1000"]);
      (PStr "gex_sequencing_table", table []);
      (PStr "atac_cells_table", table []);
      (PStr "gex_cells_table", table []);
      (PStr "atac_mapping_table", table []);
      (PStr "gex_mapping_table", table []);
      (PStr "atac_targeting_table", table []);
      (PStr "joint_metrics_helptext", helptext [row metric "Help on the metric"]);
      (PStr "atac_sequencing_helptext",
         helptext [row "Sequenced read pairs" "Total number of read pairs"]);
      (PStr "gex_sequencing_helptext", helptext []);
      (PStr "atac_cells_helptext", helptext []);
      (PStr "gex_cells_helptext", helptext []);
      (PStr "atac_mapping_helptext", helptext []);
      (PStr "gex_mapping_helptext", helptext []);
      (PStr "atac_targeting_helptext", helptext []);
      (PStr "alarms", PDict [(PStr "alarms", PList alarms)]);
      (PStr "atac_tss_enrichment_plot", PList [point 0 1]);
      (PStr "atac_insert_size_plot", PList [point 1 2]);
      (PStr "gex_seq_saturation_plot", PList [point 2 3]);
      (PStr "gex_genes_per_cell_plot",
         PDict [(PStr "genes", PList [point 3 4])]) ].

Definition report_A : pyval :=
  report "A" "Linked genes" "10" (pipeline_info "cellranger-arc-2.0.1")
    [ alarm "low_cells" "Low cell count" "Fewer cells than expected";
      note "Information" "Nothing to report" ].

Definition report_B : pyval :=
  report "B" "Linked peaks" "20" (pipeline_info "unknown") [].

(** A second report of sample A, without alarms. *)
Definition report_A_again : pyval :=
  report "A" "Linked peaks" "30" (pipeline_info "cellranger-arc-2.0.2") [].

(** A report whose pipeline table has no rows. *)
Definition report_short : pyval := report "S" "Linked genes" "1" [] [].

Definition entries_of (v : pyval) : pydict :=
  match v with
  | PDict entries => entries
  | _ => []
  end.

(** The first report without its GEX mapping table. *)
Definition incomplete_entries : pydict :=
  List.filter (fun kv => negb (Py.eq_str kv.1 "gex_mapping_table"))
    (entries_of report_A).

Definition report_incomplete : pyval := PDict incomplete_entries.

(** Stands in for [json.loads] on the documents of the examples, which
    are named rather than written out. *)
Definition decode (doc : string) : result pyval :=
  if String.eqb doc "A" then Ok report_A
  else if String.eqb doc "B" then Ok report_B
  else if String.eqb doc "A again" then Ok report_A_again
  else if String.eqb doc "short" then Ok report_short
  else if String.eqb doc "null" then Ok PNone
  else Err JSONDecodeError.

Definition file_of (name doc : string) : log_file :=
  {| fn := name;
     root := "/data";
     lines := [ "<html>" +:+ nl;
                "  const data = " +:+ doc +:+ nl;
                "</html>" +:+ nl ] |}.

Definition file_A : log_file := file_of "a/web_summary.html" "A".
Definition file_B : log_file := file_of "b/web_summary.html" "B".
Definition file_A_again : log_file := file_of "c/web_summary.html" "A again".
Definition file_short : log_file := file_of "s/web_summary.html" "short".
Definition file_plain : log_file :=
  {| fn := "d/web_summary.html"; root := "/data";
     lines := ["<html>" +:+ nl; "</html>" +:+ nl] |}.

Definition clean (id : pyval) (f : log_file) : result string :=
  match id with
  | PStr s => Ok s
  | _ => Err TypeError
  end.

Definition ignored (s_name : string) : bool := String.eqb s_name "B".

Definition state : Type :=
  module_state (sdict pyval) (sdict Utils.header) Utils.series.

Definition start : state := init_state [].

Definition state_of (r : result state) : state :=
  match r with
  | Ok st => st
  | Err _ => start
  end.

Definition parse (self : state) (summary : pyval) :=
  parse_html_summary Utils.table_data_and_headers Utils.extract_plot_data
    self summary.

Definition process (st : state) (f : log_file) : result state :=
  process_file decode clean Utils.table_data_and_headers
    Utils.extract_plot_data st f.

Definition scan (files : list log_file) : result state :=
  scan_files decode clean Utils.table_data_and_headers
    Utils.extract_plot_data files start.

Definition run (files : list log_file) :=
  __init__ [] decode clean ignored Utils.table_data_and_headers
    Utils.extract_plot_data Utils.subset_header Utils.set_hidden_cols files.

End Fixture.

(** ** Notions used in the further properties *)

(** Every character of [s] satisfies [p]. *)
Fixpoint string_all (p : ascii -> bool) (s : string) : bool :=
  match s with
  | EmptyString => true
  | String c s' => p c && string_all p s'
  end.

(** [s] consists of whitespace only. *)
Definition blank (s : string) : bool := string_all PyStr.isspace s.

(** The literal that line 63 removes. *)
Definition data_marker : string := "const data = ".

(** The literal in front of the version in the pattern of line 77. *)
Definition version_marker : string := "cellranger-arc-".

(** A version as the pattern captures it: digits and dots, at least one. *)
Definition version_like (v : string) : bool :=
  string_all Re.is_version_char v && negb (String.eqb v EmptyString).

(** The [id] that a plot is configured with. *)
Definition plot_id {metrics headers series : Type}
    (p : plot metrics headers series) : option string :=
  match p with
  | MetricsTable _ _ pconfig => od_get String.eqb "id" pconfig
  | WarningsTable _ _ pconfig => od_get String.eqb "id" pconfig
  | LineGraph _ pconfig => od_get String.eqb "id" pconfig
  end.

(** The sample names of the recorded data sources. *)
Definition source_samples {metrics headers series : Type}
    (st : module_state metrics headers series) : list string :=
  (data_sources st).*2.

(** The stored warnings fit the rest of the state: a sample with stored
    warnings is a sample of the metrics mapping, its warnings are not
    empty, each has the value [FAIL], and each title has a header. *)
Definition warnings_consistent {metrics headers series : Type}
    (st : module_state metrics headers series) : Prop :=
  ∀ s w,
    warnings_by_sample st !! s = Some w →
    s ∈ dom (data_by_sample st)
    ∧ w ≠ []
    ∧ (∀ kv, kv ∈ w → kv.2 = PStr "FAIL")
    ∧ (∀ k, is_Some (od_get Py.key_eqb k w) →
            is_Some (od_get Py.key_eqb k (warnings_headers st))).

(** The second state has everything the first has: samples, stored
    warnings, warning headers, data sources, versions and log entries. *)
Definition grown_from {metrics headers series : Type}
    (st st' : module_state metrics headers series) : Prop :=
  dom (data_by_sample st) ⊆ dom (data_by_sample st')
  ∧ dom (warnings_by_sample st) ⊆ dom (warnings_by_sample st')
  ∧ od_keys (warnings_headers st) `prefix_of` od_keys (warnings_headers st')
  ∧ data_sources st `prefix_of` data_sources st'
  ∧ software_versions st `prefix_of` software_versions st'
  ∧ log st `prefix_of` log st'.

(** File [f] holds the report [summary], and that report is of sample
    [s]: the first data line of the file decodes to [summary], and the
    cleaned [summary["sample"]["id"]] is [s] (lines 58-69). *)
Definition report_of (json_loads : string -> result pyval)
    (clean_s_name : pyval -> log_file -> result string)
    (f : log_file) (s : string) (summary : pyval) : Prop :=
  find_summary json_loads (lines f) = Ok summary
  ∧ summary ≠ PNone
  ∧ ∃ id, section_field summary "sample" "id" = Ok id
          ∧ clean_s_name id f = Ok s.

(** What [parse_html_summary] hands back to its caller, without the
    module it has updated on the way. *)
Definition returned {metrics headers series : Type}
    (r : result (metrics * pydict * sdict series
                 * module_state metrics headers series))
    : result (metrics * pydict * sdict series) :=
  match r with
  | Ok (v, _) => Ok v
  | Err e => Err e
  end.

(** What is wrong with an alarm that has an [id]: the exception that
    lines 170-175 raise on it, if any. *)
Definition alarm_defect (alarm : pydict) : option exn :=
  match od_get Py.key_eqb (PStr "title") alarm with
  | None => Some KeyError
  | Some title =>
      if Py.hashable title then
        match od_get Py.key_eqb (PStr "message") alarm with
        | None => Some KeyError
        | Some _ => None
        end
      else Some TypeError
  end.

(** Further example documents: a JSON array and a malformed document. *)
Module Fixture2.

Definition decode (doc : string) : result pyval :=
  if String.eqb doc "[1, 2]" then Ok (PList [PInt 1; PInt 2])
  else Fixture.decode doc.

Definition file_array : log_file := Fixture.file_of "e/web_summary.html" "[1, 2]".

Definition file_broken : log_file :=
  {| fn := "f/web_summary.html"; root := "/data";
     lines := [ "const data = {" +:+ Fixture.nl;
                "const data = A" +:+ Fixture.nl ] |}.

Definition scan (files : list log_file) : result Fixture.state :=
  scan_files decode Fixture.clean Utils.table_data_and_headers
    Utils.extract_plot_data files Fixture.start.

(** A report whose row at index 2 of the pipeline table has another
    label. *)
Definition report_mislabelled : pyval :=
  Fixture.report "M" "Linked genes" "7"
    [ Fixture.row "Sample ID" "s"; Fixture.row "Sample description" "none";
      Fixture.row "Something else" "cellranger-arc-2.0.1" ] [].

(** A report whose second alarm has an identifier and no title. *)
Definition report_untitled : pyval :=
  Fixture.report "U" "Linked genes" "5" (Fixture.pipeline_info "unknown")
    [ Fixture.alarm "low_cells" "Low cell count" "Fewer cells than expected";
      PDict [(PStr "id", PStr "x"); (PStr "message", PStr "No title")];
      Fixture.note "Information" "Nothing to report" ].

Definition run (files : list log_file) :=
  __init__ [] decode Fixture.clean Fixture.ignored Utils.table_data_and_headers
    Utils.extract_plot_data Utils.subset_header Utils.set_hidden_cols files.

End Fixture2.

(** * Properties *)

(** ** The error monad and ordered dictionaries *)

Lemma bind_Ok {A B : Type} (m : result A) (k : A -> result B) (b : B) :
  m ≫= k = Ok b ↔ ∃ a, m = Ok a ∧ k a = Ok b.
Proof.
  destruct m as [a|e]; simpl; split.
  - intros H. exists a. split; [reflexivity | exact H].
  - intros (a' & Ha & H). injection Ha as ->. exact H.
  - intros H. discriminate H.
  - intros (a' & Ha & _). discriminate Ha.
Qed.

Lemma Ok_inj {A : Type} (a b : A) : Ok a = Ok b → a = b.
Proof. intros [= ->]. reflexivity. Qed.

Lemma bind_Ok_l {A B : Type} (a : A) (k : A -> result B) : Ok a ≫= k = k a.
Proof. reflexivity. Qed.

(** Split a successful sequence of steps into its first step and the rest. *)
Ltac inv_bind H :=
  let a := fresh "a" in
  let E := fresh "E" in
  apply bind_Ok in H as (a & E & H).

Tactic Notation "bind_inv" hyp(H) "as" ident(a) ident(E) :=
  apply bind_Ok in H as (a & E & H).

Section odict_facts.
Context {K V : Type} (eqb : K -> K -> bool).

Lemma od_get_set_eq (k : K) (v : V) (d : list (K * V)) :
  eqb k k = true → od_get eqb k (od_set eqb k v d) = Some v.
Proof.
  intros Hk. induction d as [|[k0 v0] d IH]; simpl.
  - rewrite Hk. reflexivity.
  - destruct (eqb k0 k) eqn:E; simpl; rewrite E; [reflexivity | exact IH].
Qed.

Lemma od_get_set_cases (k k' : K) (v : V) (d : list (K * V)) :
  od_get eqb k (od_set eqb k' v d) = Some v
  ∨ od_get eqb k (od_set eqb k' v d) = od_get eqb k d.
Proof.
  induction d as [|[k0 v0] d IH]; simpl.
  - destruct (eqb k' k); [left | right]; reflexivity.
  - destruct (eqb k0 k') eqn:E; simpl.
    + destruct (eqb k0 k); [left | right]; reflexivity.
    + destruct (eqb k0 k); [right; reflexivity | exact IH].
Qed.

(** As for a finite map, when [eqb] is symmetric and transitive. *)
Lemma od_get_set (k k' : K) (v : V) (d : list (K * V)) :
  (∀ a b, eqb a b = eqb b a) →
  (∀ a b c, eqb a b = true → eqb b c = true → eqb a c = true) →
  od_get eqb k (od_set eqb k' v d)
  = if eqb k' k then Some v else od_get eqb k d.
Proof.
  intros Hsym Htrans. induction d as [|[k0 v0] d IH]; simpl; [reflexivity |].
  destruct (eqb k0 k') eqn:E0; simpl.
  - destruct (eqb k0 k) eqn:E1.
    + rewrite (Htrans k' k0 k); [reflexivity | rewrite Hsym; exact E0 | exact E1].
    + destruct (eqb k' k) eqn:E2; [| reflexivity].
      rewrite (Htrans k0 k' k E0 E2) in E1. discriminate E1.
  - destruct (eqb k0 k) eqn:E1; [| exact IH].
    destruct (eqb k' k) eqn:E2; [| reflexivity].
    rewrite Hsym in E2. rewrite (Htrans k0 k k' E1 E2) in E0. discriminate E0.
Qed.

Lemma od_keys_set_present (k : K) (v : V) (d : list (K * V)) :
  is_Some (od_get eqb k d) → od_keys (od_set eqb k v d) = od_keys d.
Proof.
  unfold od_keys. induction d as [|[k0 v0] d IH]; simpl.
  - intros [? [=]].
  - destruct (eqb k0 k); simpl; [reflexivity |].
    intros H. f_equal. apply IH, H.
Qed.

Lemma od_get_None_set (k : K) (v : V) (d : list (K * V)) :
  od_get eqb k d = None → od_set eqb k v d = d ++ [(k, v)].
Proof.
  induction d as [|[k0 v0] d IH]; simpl; [reflexivity |].
  destruct (eqb k0 k); [discriminate |].
  intros H. rewrite IH by exact H. reflexivity.
Qed.
End odict_facts.

Lemma od_keys_app {K V : Type} (d1 d2 : list (K * V)) :
  od_keys (d1 ++ d2) = od_keys d1 ++ od_keys d2.
Proof. unfold od_keys. apply fmap_app. Qed.

Lemma sd_get_Some_keys {V : Type} (k : string) (d : sdict V) :
  is_Some (od_get String.eqb k d) ↔ k ∈ od_keys d.
Proof.
  unfold od_keys. induction d as [|[k0 v0] d IH]; simpl.
  - split; [intros [? [=]] | intros H; inversion H].
  - destruct (String.eqb_spec k0 k) as [->|Hne].
    + split; [intros _; left | intros _; eexists; reflexivity].
    + rewrite IH. split; [intros H; right; exact H |].
      intros H. inversion H; subst; [congruence | assumption].
Qed.

(** ** C1: the combined lists *)

(** Take the first section off a list of sections related to their lists. *)
Ltac next_section H r E :=
  apply Forall2_cons_inv_l in H as (r & ? & E & H & ->).

Section combined_lists.
Context {metrics headers series : Type}.
Variable table_data_and_headers : pyval -> pyval -> result (metrics * headers).
Variable extract_plot_data : pyval -> result series.

Lemma add_lists (l1 l2 : list pyval) :
  Py.add (PList l1) (PList l2) = Ok (PList (l1 ++ l2)).
Proof. reflexivity. Qed.

(** C1. When the eight table sections carry the lists [rs] under [rows]
    and the eight help text sections the lists [hs] under [data], the
    report parser combines them in the fixed order joint metrics, ATAC
    sequencing, GEX sequencing, ATAC cells, GEX cells, ATAC mapping, GEX
    mapping, ATAC targeting: the metrics list is the concatenation of
    [rs], the help text list the concatenation of [hs], and these two
    lists are what the parser hands to the normalizer, whose result (or
    exception) becomes the parser's. *)
Theorem C1_parse_concatenates_sections
    (self : module_state metrics headers series) (summary : pyval)
    (rs hs : list (list pyval)) :
  Forall2 (fun key r => section_field summary key "rows" = Ok (PList r))
    table_keys rs →
  Forall2 (fun key h => section_field summary key "data" = Ok (PList h))
    helptext_keys hs →
  data_rows_of summary = Ok (PList (concat rs))
  ∧ help_text_of summary = Ok (PList (concat hs))
  ∧ (∀ parsed_data warnings plots self',
       parse_html_summary table_data_and_headers extract_plot_data self summary
         = Ok (parsed_data, warnings, plots, self') →
       table_data_and_headers (PList (concat rs)) (PList (concat hs))
         = Ok (parsed_data, all_headers self'))
  ∧ (∀ e,
       table_data_and_headers (PList (concat rs)) (PList (concat hs)) = Err e →
       parse_html_summary table_data_and_headers extract_plot_data self summary
         = Err e).
Proof.
  intros Hr Hh. unfold table_keys in Hr. unfold helptext_keys in Hh.
  next_section Hr r1 R1. next_section Hr r2 R2. next_section Hr r3 R3.
  next_section Hr r4 R4. next_section Hr r5 R5. next_section Hr r6 R6.
  next_section Hr r7 R7. next_section Hr r8 R8.
  apply Forall2_nil_inv_l in Hr as ->.
  next_section Hh h1 D1. next_section Hh h2 D2. next_section Hh h3 D3.
  next_section Hh h4 D4. next_section Hh h5 D5. next_section Hh h6 D6.
  next_section Hh h7 D7. next_section Hh h8 D8.
  apply Forall2_nil_inv_l in Hh as ->.
  assert (Hrows : data_rows_of summary
            = Ok (PList (concat [r1; r2; r3; r4; r5; r6; r7; r8]))).
  { unfold data_rows_of. rewrite R1, R2, R3, R4, R5, R6, R7, R8.
    simpl. rewrite app_nil_r, <- !app_assoc. reflexivity. }
  assert (Hhelp : help_text_of summary
            = Ok (PList (concat [h1; h2; h3; h4; h5; h6; h7; h8]))).
  { unfold help_text_of. rewrite D1, D2, D3, D4, D5, D6, D7, D8.
    simpl. rewrite app_nil_r, <- !app_assoc. reflexivity. }
  split; [exact Hrows |]. split; [exact Hhelp |]. split.
  - intros parsed_data warnings plots self' H.
    unfold parse_html_summary in H. rewrite Hrows, Hhelp in H. simpl in H.
    destruct (table_data_and_headers _ _) as [[pd hd]|e] eqn:E; [|discriminate H].
    simpl in H.
    repeat (inv_bind H; try match goal with p : _ * _ |- _ => destruct p end).
    injection H as <- <- <- <-. reflexivity.
  - intros e He. unfold parse_html_summary.
    rewrite Hrows, Hhelp, !bind_Ok_l, He. reflexivity.
Qed.
End combined_lists.

(** A run of the parser on the first example report. *)
Lemma C1_parse_concatenates_sections_witness :
  data_rows_of Fixture.report_A
    = Ok (PList [ Fixture.row "Linked genes" "10";
                  Fixture.row "Sequenced read pairs" "1000" ])
  ∧ help_text_of Fixture.report_A
    = Ok (PList [ Fixture.row "Linked genes" "Help on the metric";
                  Fixture.row "Sequenced read pairs" "Total number of read pairs" ]).
Proof.
  destruct (C1_parse_concatenates_sections Utils.table_data_and_headers
              Utils.extract_plot_data Fixture.start Fixture.report_A
              [ [Fixture.row "Linked genes" "10"];
                [Fixture.row "Sequenced read pairs" "1000"];
                []; []; []; []; []; [] ]
              [ [Fixture.row "Linked genes" "Help on the metric"];
                [Fixture.row "Sequenced read pairs" "Total number of read pairs"];
                []; []; []; []; []; [] ]) as (H1 & H2 & _).
  - repeat constructor.
  - repeat constructor.
  - split; [exact H1 | exact H2].
Defined.

(** ** C2: the summary extractor *)

Section summary_extractor.
Context {metrics headers series : Type}.
Variable json_loads : string -> result pyval.
Variable clean_s_name : pyval -> log_file -> result string.
Variable table_data_and_headers : pyval -> pyval -> result (metrics * headers).
Variable extract_plot_data : pyval -> result series.

Lemma find_summary_cons (line : string) (rest : list string) :
  find_summary json_loads (line :: rest)
  = if is_data_line line then json_loads (payload line)
    else find_summary json_loads rest.
Proof. reflexivity. Qed.

Lemma find_summary_skips (before rest : list string) :
  Forall (fun l => is_data_line l = false) before →
  find_summary json_loads (before ++ rest) = find_summary json_loads rest.
Proof.
  induction 1 as [|l before Hl _ IH]; [reflexivity |].
  rewrite <- app_comm_cons, find_summary_cons, Hl. exact IH.
Qed.

(** C2. Only the first line that, stripped, starts with [const data]
    counts: the extractor removes [const data = ] from it and gives the
    rest to the JSON parser, whatever lines follow.  When no line starts
    so, the extractor finds nothing, and the module passes over the file:
    no exception, and the state is as before. *)
Theorem C2_first_data_line_decides
    (st : module_state metrics headers series) (f : log_file) :
  (∀ before line after,
     lines f = before ++ line :: after →
     Forall (fun l => is_data_line l = false) before →
     is_data_line line = true →
     find_summary json_loads (lines f) = json_loads (payload line)
     ∧ ∀ others,
         find_summary json_loads (before ++ line :: others)
         = find_summary json_loads (lines f))
  ∧ (Forall (fun l => is_data_line l = false) (lines f) →
     find_summary json_loads (lines f) = Ok PNone
     ∧ process_file json_loads clean_s_name table_data_and_headers
         extract_plot_data st f = Ok st).
Proof.
  split.
  - intros before line after Hf Hbefore Hline.
    assert (Hat : ∀ others, find_summary json_loads (before ++ line :: others)
                             = json_loads (payload line)).
    { intros others. rewrite (find_summary_skips before _ Hbefore).
      rewrite find_summary_cons, Hline. reflexivity. }
    rewrite Hf. split; [apply Hat |].
    intros others. rewrite !Hat. reflexivity.
  - intros Hnone.
    assert (Hfind : find_summary json_loads (lines f) = Ok PNone).
    { rewrite <- (app_nil_r (lines f)).
      rewrite (find_summary_skips _ _ Hnone). reflexivity. }
    split; [exact Hfind |].
    unfold process_file. rewrite Hfind. reflexivity.
Qed.
End summary_extractor.

(** The first example file decodes its second line; the file without such
    a line is passed over. *)
Lemma C2_first_data_line_decides_witness :
  find_summary Fixture.decode (lines Fixture.file_A) = Ok Fixture.report_A
  ∧ Fixture.process Fixture.start Fixture.file_plain = Ok Fixture.start.
Proof.
  split.
  - destruct (C2_first_data_line_decides Fixture.decode Fixture.clean
                Utils.table_data_and_headers Utils.extract_plot_data
                Fixture.start Fixture.file_A) as [H _].
    destruct (H [("<html>" +:+ Fixture.nl)%string]
                ("  const data = A" +:+ Fixture.nl)
                [("</html>" +:+ Fixture.nl)%string]) as [H1 _].
    + reflexivity.
    + repeat constructor.
    + reflexivity.
    + exact H1.
  - destruct (C2_first_data_line_decides Fixture.decode Fixture.clean
                Utils.table_data_and_headers Utils.extract_plot_data
                Fixture.start Fixture.file_plain) as [_ H].
    destruct H as [_ H2].
    + repeat constructor.
    + exact H2.
Defined.

(** ** C3: required sections *)

Section required_sections.
Context {metrics headers series : Type}.
Variable json_loads : string -> result pyval.
Variable clean_s_name : pyval -> log_file -> result string.
Variable table_data_and_headers : pyval -> pyval -> result (metrics * headers).
Variable extract_plot_data : pyval -> result series.

Local Abbreviation parse := (parse_html_summary table_data_and_headers extract_plot_data).

Lemma getitem_dict_str (entries : pydict) (k : string) :
  Py.getitem (PDict entries) (PStr k)
  = match od_get Py.key_eqb (PStr k) entries with
    | Some v => Ok v
    | None => Err KeyError
    end.
Proof. reflexivity. Qed.

Lemma section_field_Ok (summary : pyval) (sec field : string) (v : pyval) :
  section_field summary sec field = Ok v →
  ∃ t, Py.getitem summary (PStr sec) = Ok t.
Proof. unfold section_field. intros H. inv_bind H. eauto. Qed.

Lemma plot_of_Ok (summary : pyval) (key : string) (s : series) :
  plot_of extract_plot_data summary key = Ok s →
  ∃ p, Py.getitem summary (PStr key) = Ok p.
Proof. unfold plot_of. intros H. inv_bind H. eauto. Qed.

Lemma data_rows_Ok (summary v : pyval) :
  data_rows_of summary = Ok v →
  Forall (fun k => ∃ t, Py.getitem summary (PStr k) = Ok t) table_keys.
Proof.
  unfold data_rows_of. intros H. repeat inv_bind H.
  repeat constructor; eauto using section_field_Ok.
Qed.

Lemma help_text_Ok (summary v : pyval) :
  help_text_of summary = Ok v →
  Forall (fun k => ∃ t, Py.getitem summary (PStr k) = Ok t) helptext_keys.
Proof.
  unfold help_text_of. intros H. repeat inv_bind H.
  repeat constructor; eauto using section_field_Ok.
Qed.

(** A parse that returns has read every required section. *)
Lemma parse_Ok_reads_required self summary r :
  parse self summary = Ok r →
  Forall (fun k => ∃ t, Py.getitem summary (PStr k) = Ok t) required_keys.
Proof.
  unfold parse_html_summary. intros H.
  bind_inv H as rows Erows. apply data_rows_Ok in Erows.
  bind_inv H as help Ehelp. apply help_text_Ok in Ehelp.
  bind_inv H as tables Etables. destruct tables as [parsed_data hdrs].
  bind_inv H as alarms Ealarms. bind_inv H as alarms_list Elist.
  bind_inv H as items Eitems. bind_inv H as acc Eloop.
  destruct acc as [warnings wh].
  bind_inv H as tss Etss. bind_inv H as insert_size Einsert.
  bind_inv H as saturation Esat. bind_inv H as genes Egenes.
  unfold required_keys. rewrite !Forall_app. split; [exact Erows |].
  split; [exact Ehelp |].
  repeat constructor; eauto using plot_of_Ok.
Qed.

(** What the steps of the parser do on a report of the documented shape. *)

Lemma section_field_shape (entries : pydict) (field key : string) :
  table_shape field entries key = true →
  section_field (PDict entries) key field = Err KeyError
  ∨ ∃ l, section_field (PDict entries) key field = Ok (PList l).
Proof.
  unfold table_shape, section_field. rewrite getitem_dict_str.
  destruct (od_get Py.key_eqb (PStr key) entries) as [[| | | | |sec]|];
    try discriminate; [| intros _; left; reflexivity].
  rewrite bind_Ok_l, getitem_dict_str.
  destruct (od_get Py.key_eqb (PStr field) sec) as [[| | | |l|]|];
    try discriminate.
  intros _. right. exists l. reflexivity.
Qed.

Ltac shape_of H keys key :=
  let S := fresh "S" in
  assert (S : In key keys)
    by (simpl; repeat (first [left; reflexivity | right]));
  apply H in S; apply section_field_shape in S.

Ltac shape_step S :=
  let E := fresh "E" in
  destruct S as [E | [? E]]; rewrite E; clear E;
  [left; reflexivity | rewrite ?bind_Ok_l, ?add_lists, ?bind_Ok_l].

Lemma data_rows_shape (entries : pydict) :
  forallb (table_shape "rows" entries) table_keys = true →
  data_rows_of (PDict entries) = Err KeyError
  ∨ ∃ l, data_rows_of (PDict entries) = Ok (PList l).
Proof.
  rewrite forallb_forall. intros H.
  shape_of H table_keys "joint_metrics_table".
  shape_of H table_keys "atac_sequencing_table".
  shape_of H table_keys "gex_sequencing_table".
  shape_of H table_keys "atac_cells_table".
  shape_of H table_keys "gex_cells_table".
  shape_of H table_keys "atac_mapping_table".
  shape_of H table_keys "gex_mapping_table".
  shape_of H table_keys "atac_targeting_table".
  unfold data_rows_of.
  shape_step S. shape_step S0. shape_step S1. shape_step S2.
  shape_step S3. shape_step S4. shape_step S5. shape_step S6.
  right. eexists. reflexivity.
Qed.

Lemma help_text_shape (entries : pydict) :
  forallb (table_shape "data" entries) helptext_keys = true →
  help_text_of (PDict entries) = Err KeyError
  ∨ ∃ l, help_text_of (PDict entries) = Ok (PList l).
Proof.
  rewrite forallb_forall. intros H.
  shape_of H helptext_keys "joint_metrics_helptext".
  shape_of H helptext_keys "atac_sequencing_helptext".
  shape_of H helptext_keys "gex_sequencing_helptext".
  shape_of H helptext_keys "atac_cells_helptext".
  shape_of H helptext_keys "gex_cells_helptext".
  shape_of H helptext_keys "atac_mapping_helptext".
  shape_of H helptext_keys "gex_mapping_helptext".
  shape_of H helptext_keys "atac_targeting_helptext".
  unfold help_text_of.
  shape_step S. shape_step S0. shape_step S1. shape_step S2.
  shape_step S3. shape_step S4. shape_step S5. shape_step S6.
  right. eexists. reflexivity.
Qed.

Lemma alarms_shape_cases (entries : pydict) :
  alarms_shape entries = true →
  Py.getitem (PDict entries) (PStr "alarms") = Err KeyError
  ∨ ∃ block items,
      Py.getitem (PDict entries) (PStr "alarms") = Ok (PDict block)
      ∧ Py.get (PDict block) (PStr "alarms") (PList []) = Ok (PList items)
      ∧ forallb alarm_shape items = true.
Proof.
  unfold alarms_shape. rewrite getitem_dict_str.
  destruct (od_get Py.key_eqb (PStr "alarms") entries) as [[| | | | |block]|];
    try discriminate; [| intros _; left; reflexivity].
  intros H. right. exists block. unfold Py.get. simpl Py.hashable. cbv iota.
  destruct (od_get Py.key_eqb (PStr "alarms") block) as [[| | | |items|]|];
    try discriminate.
  - exists items. auto.
  - exists []. auto.
Qed.

Lemma alarm_step_shape (acc : pydict * pydict) (alarm : pyval) :
  alarm_shape alarm = true → ∃ acc', alarm_step acc alarm = Ok acc'.
Proof.
  destruct alarm as [| | | | |d]; try discriminate. unfold alarm_shape, alarm_step.
  unfold Py.contains_str. rewrite bind_Ok_l.
  destruct (od_get Py.key_eqb (PStr "id") d) as [i|] eqn:Eid.
  - rewrite bool_decide_eq_true_2 by (eexists; reflexivity). cbv iota beta delta [negb].
    rewrite !getitem_dict_str.
    destruct (od_get Py.key_eqb (PStr "title") d) as [t|]; [|discriminate].
    destruct (od_get Py.key_eqb (PStr "message") d) as [m|]; [|discriminate].
    intros Ht. rewrite bind_Ok_l. unfold Py.dict_setitem. rewrite Ht.
    rewrite !bind_Ok_l. eexists. reflexivity.
  - intros _. rewrite bool_decide_eq_false_2 by (intros [? [=]]).
    eexists. reflexivity.
Qed.

Lemma alarm_loop_shape (items : list pyval) (acc : pydict * pydict) :
  forallb alarm_shape items = true → ∃ acc', for_each alarm_step items acc = Ok acc'.
Proof.
  revert acc. induction items as [|alarm items IH]; intros acc H.
  - eexists. reflexivity.
  - cbn [forallb] in H. apply andb_true_iff in H as [Ha Hitems].
    destruct (alarm_step_shape acc alarm Ha) as [acc1 E].
    cbn [for_each]. rewrite E, bind_Ok_l. apply IH, Hitems.
Qed.

Lemma plot_of_shape (entries : pydict) (key : string) :
  plot_shape extract_plot_data entries key = true →
  plot_of extract_plot_data (PDict entries) key = Err KeyError
  ∨ ∃ s, plot_of extract_plot_data (PDict entries) key = Ok s.
Proof.
  unfold plot_shape, plot_of. rewrite getitem_dict_str.
  destruct (od_get Py.key_eqb (PStr key) entries) as [p|];
    [| intros _; left; reflexivity].
  rewrite bind_Ok_l. destruct (extract_plot_data p) as [s|e]; [|discriminate].
  intros _. right. exists s. reflexivity.
Qed.

Ltac plot_step H key :=
  let S := fresh "S" in
  let E := fresh "E" in
  assert (S : In key plot_keys)
    by (simpl; repeat (first [left; reflexivity | right]));
  apply H in S; apply plot_of_shape in S;
  destruct S as [E | [? E]]; rewrite E; clear E;
  [left; reflexivity | rewrite bind_Ok_l].

(** On a report of the documented shape the parser returns, or raises
    [KeyError]. *)
Lemma parse_shape self (entries : pydict) :
  well_shaped table_data_and_headers extract_plot_data entries = true →
  parse self (PDict entries) = Err KeyError
  ∨ ∃ r, parse self (PDict entries) = Ok r.
Proof.
  unfold well_shaped. rewrite !andb_true_iff.
  intros ((((Ht & Hh) & Hn) & Ha) & Hp).
  unfold parse_html_summary. cbv zeta.
  unfold normalizer_accepts in Hn.
  destruct (data_rows_shape _ Ht) as [E | [rows E]]; rewrite E in *; clear E;
    [left; reflexivity | rewrite bind_Ok_l].
  destruct (help_text_shape _ Hh) as [E | [help E]]; rewrite E in *; clear E;
    [left; reflexivity | rewrite bind_Ok_l].
  destruct (table_data_and_headers (PList rows) (PList help)) as [[pd hd]|e];
    [| discriminate Hn].
  rewrite bind_Ok_l. cbv iota beta.
  destruct (alarms_shape_cases _ Ha) as [E | (block & items & E & Eget & Hitems)];
    rewrite E; clear E; [left; reflexivity | rewrite bind_Ok_l].
  rewrite Eget, bind_Ok_l.
  change (Py.iter (PList items)) with (Ok (A:=list pyval) items). rewrite bind_Ok_l.
  destruct (alarm_loop_shape items
              ([], warnings_headers (set_all_headers hd self)) Hitems)
    as [[warnings wh] Eloop].
  rewrite Eloop, bind_Ok_l. cbv iota beta.
  rewrite forallb_forall in Hp.
  plot_step Hp "atac_tss_enrichment_plot".
  plot_step Hp "atac_insert_size_plot".
  plot_step Hp "gex_seq_saturation_plot".
  plot_step Hp "gex_genes_per_cell_plot".
  right. eexists. reflexivity.
Qed.

(** C3. A report object that lacks one of the eight table keys, the
    eight help text keys or the four plot keys makes the report parser
    fail: it never returns.  On a report whose other sections have the
    documented shape the exception is [KeyError].  Nothing catches it:
    the exception leaves the processing of the file, and with it the
    scan of the files. *)
Theorem C3_missing_section_is_fatal
    (self : module_state metrics headers series) (entries : pydict) (k : string) :
  k ∈ required_keys →
  od_get Py.key_eqb (PStr k) entries = None →
  (∃ e, parse self (PDict entries) = Err e)
  ∧ (well_shaped table_data_and_headers extract_plot_data entries = true →
     parse self (PDict entries) = Err KeyError)
  ∧ (∀ e f rest id s_name,
       parse self (PDict entries) = Err e →
       find_summary json_loads (lines f) = Ok (PDict entries) →
       section_field (PDict entries) "sample" "id" = Ok id →
       clean_s_name id f = Ok s_name →
       scan_files json_loads clean_s_name table_data_and_headers
         extract_plot_data (f :: rest) self = Err e).
Proof.
  intros Hk Hmissing.
  assert (Hnot : ∀ r, parse self (PDict entries) ≠ Ok r).
  { intros r Hr. apply parse_Ok_reads_required in Hr.
    rewrite Forall_forall in Hr. destruct (Hr k Hk) as [t Ht].
    rewrite getitem_dict_str, Hmissing in Ht. discriminate Ht. }
  split; [| split].
  - destruct (parse self (PDict entries)) as [r|e] eqn:E.
    + destruct (Hnot r). reflexivity.
    + exists e. reflexivity.
  - intros Hshape. destruct (parse_shape self entries Hshape) as [E | [r E]].
    + exact E.
    + destruct (Hnot r E).
  - intros e f rest id s_name He Hfind Hid Hclean.
    unfold scan_files. cbn [for_each]. unfold process_file.
    rewrite Hfind, bind_Ok_l. unfold section_field in Hid.
    apply bind_Ok in Hid as (sample & Esample & Eid).
    rewrite Esample, bind_Ok_l, Eid, bind_Ok_l, Hclean, bind_Ok_l, He.
    reflexivity.
Qed.
End required_sections.

(** The first example report without its GEX mapping table. *)
Lemma C3_missing_section_is_fatal_witness :
  Fixture.parse Fixture.start Fixture.report_incomplete = Err KeyError.
Proof.
  destruct (C3_missing_section_is_fatal Fixture.decode Fixture.clean
              Utils.table_data_and_headers Utils.extract_plot_data
              Fixture.start Fixture.incomplete_entries "gex_mapping_table")
    as (_ & H & _).
  - apply list_elem_of_In. simpl. repeat (first [left; reflexivity | right]).
  - reflexivity.
  - apply H. reflexivity.
Defined.

(** ** C4: the software version *)

Section software_version.
Context {metrics headers series : Type}.

Implicit Types st : module_state metrics headers series.

Lemma version_not_recorded st (version s_name : string) st' :
  software_versions st' = software_versions st →
  st' ≠ add_software_version version s_name st.
Proof.
  intros Hsame ->. simpl in Hsame.
  apply (f_equal length) in Hsame. rewrite length_app in Hsame.
  simpl in Hsame. lia.
Qed.

Lemma version_of_Some (summary : pyval) (version : string) :
  version_of summary = Ok (Some version) →
  ∃ value, version_value_is summary value ∧ Re.search value = Some version.
Proof.
  unfold version_of. intros H.
  bind_inv H as table Etable. bind_inv H as rows Erows.
  bind_inv H as vp Epair. bind_inv H as label Elabel.
  bind_inv H as u Eassert. bind_inv H as value Evalue.
  destruct value as [| | |value| |]; try discriminate H.
  injection H as H. exists value. split; [| exact H].
  exists vp, label. split; [exists table, rows; auto |].
  split; [exact Elabel |]. split; [| exact Evalue].
  unfold Py.assert in Eassert.
  destruct (Py.eq_str label "Pipeline version"); [reflexivity | discriminate].
Qed.

Lemma version_of_value (summary : pyval) (value : string) :
  version_value_is summary value →
  version_of summary = Ok (Re.search value).
Proof.
  intros (vp & label & (table & rows & Etable & Erows & Epair)
            & Elabel & Heq & Evalue).
  unfold version_of.
  rewrite Etable, bind_Ok_l, Erows, bind_Ok_l, Epair, bind_Ok_l.
  rewrite Elabel, bind_Ok_l, Heq. unfold Py.assert.
  rewrite bind_Ok_l, Evalue, bind_Ok_l. reflexivity.
Qed.

(** C4, as the code has it.  A missing key on the way to the rows of the
    pipeline table, and a label at row index 2 other than
    [Pipeline version], are handled inside the step: the one message
    [Unable to parse version for sample <name>] is logged at debug level
    and nothing else changes.  When the row has the label and a string
    value, the step raises nothing and logs nothing; it records the
    version exactly when the pattern matches the value.  So a version is
    recorded if and only if the row at index 2 has the label and the
    pattern matches its value. *)
Theorem C4_version_step (summary : pyval) (s_name : string) st :
  (version_key_missing summary ∨ version_label_mismatch summary →
     extract_version summary s_name st
     = Ok (emit (LogDebug ("Unable to parse version for sample " +:+ s_name)) st))
  ∧ (∀ value,
       version_value_is summary value →
       extract_version summary s_name st
       = Ok (match Re.search value with
             | Some version => add_software_version version s_name st
             | None => st
             end))
  ∧ (∀ version,
       extract_version summary s_name st
         = Ok (add_software_version version s_name st)
       ↔ ∃ value, version_value_is summary value
                  ∧ Re.search value = Some version).
Proof.
  split; [| split].
  - intros [[E | (table & Etable & E)]
           | (vp & label & (table & rows & Etable & Erows & Epair)
                & Elabel & Hne)];
      unfold extract_version, version_of.
    + rewrite E. reflexivity.
    + rewrite Etable, bind_Ok_l, E. reflexivity.
    + rewrite Etable, bind_Ok_l, Erows, bind_Ok_l, Epair, bind_Ok_l.
      rewrite Elabel, bind_Ok_l, Hne. reflexivity.
  - intros value Hvalue. unfold extract_version.
    rewrite (version_of_value _ _ Hvalue).
    destruct (Re.search value); reflexivity.
  - intros version. split.
    + unfold extract_version.
      destruct (version_of summary) as [[version'|]|e] eqn:E.
      * intros H. apply Ok_inj in H.
        assert (version' = version) as ->.
        { apply (f_equal software_versions) in H. simpl in H.
          apply app_inv_head in H. congruence. }
        apply version_of_Some, E.
      * intros H. apply Ok_inj in H.
        destruct (version_not_recorded st version s_name st eq_refl H).
      * destruct e; try discriminate; intros H; apply Ok_inj in H;
          destruct (version_not_recorded st version s_name
                      (emit (version_debug s_name) st) eq_refl H).
    + intros (value & Hvalue & Hmatch). unfold extract_version.
      rewrite (version_of_value _ _ Hvalue), Hmatch. reflexivity.
Qed.
End software_version.

(** The version of the first example report is recorded; for a report
    with another label at row index 2 the debug message is logged and no
    version is recorded. *)
Lemma C4_version_step_witness :
  extract_version Fixture.report_A "A" Fixture.start
  = Ok (add_software_version "2.0.1" "A" Fixture.start)
  ∧ extract_version Fixture2.report_mislabelled "M" Fixture.start
    = Ok (emit (LogDebug "Unable to parse version for sample M") Fixture.start).
Proof.
  split.
  - destruct (C4_version_step Fixture.report_A "A" Fixture.start)
      as (_ & H & _).
    apply (H "cellranger-arc-2.0.1").
    do 2 eexists. split; [do 2 eexists; repeat split; reflexivity |].
    repeat split; reflexivity.
  - destruct (C4_version_step Fixture2.report_mislabelled "M" Fixture.start)
      as (H & _).
    apply H. right.
    do 2 eexists. split; [do 2 eexists; repeat split; reflexivity |].
    split; reflexivity.
Defined.

(** C4 fails as it is stated.  The second example report has the label
    [Pipeline version] at row index 2 and a value without a match of the
    pattern: the step returns the module as it was, so nothing is logged
    for it, at debug level or any other. *)
Lemma C4_counterexample :
  version_value_is Fixture.report_B "unknown"
  ∧ Re.search "unknown" = None
  ∧ extract_version Fixture.report_B "B" Fixture.start = Ok Fixture.start
  ∧ log Fixture.start = [].
Proof.
  split; [| repeat split; reflexivity].
  do 2 eexists. split; [do 2 eexists; repeat split; reflexivity |].
  repeat split; reflexivity.
Qed.

(** ** One file, step by step *)

Section one_file.
Context {metrics headers series : Type}.
Variable json_loads : string -> result pyval.
Variable clean_s_name : pyval -> log_file -> result string.
Variable table_data_and_headers : pyval -> pyval -> result (metrics * headers).
Variable extract_plot_data : pyval -> result series.

Implicit Types st : module_state metrics headers series.

(** A file is passed over, or each step of its processing returned. *)
Lemma process_file_Ok st (f : log_file) st' :
  process_file json_loads clean_s_name table_data_and_headers
    extract_plot_data st f = Ok st' →
  (find_summary json_loads (lines f) = Ok PNone ∧ st' = st)
  ∨ ∃ summary id s_name parsed_data warnings plots st0 st1,
      find_summary json_loads (lines f) = Ok summary
      ∧ summary ≠ PNone
      ∧ section_field summary "sample" "id" = Ok id
      ∧ clean_s_name id f = Ok s_name
      ∧ parse_html_summary table_data_and_headers extract_plot_data st summary
          = Ok (parsed_data, warnings, plots, st0)
      ∧ extract_version summary s_name st0 = Ok st1
      ∧ record_plots plots s_name
          (record_sample f s_name parsed_data warnings st1) = Ok st'.
Proof.
  unfold process_file. intros H. bind_inv H as summary Efind.
  assert (Hcases : summary = PNone ∨ summary ≠ PNone)
    by (destruct summary; [left; reflexivity | right; discriminate ..]).
  destruct Hcases as [-> | Hsome].
  { left. injection H as <-. auto. }
  right. exists summary.
  assert (H' :
    (sample ← Py.getitem summary (PStr "sample");
     id ← Py.getitem sample (PStr "id");
     s_name ← clean_s_name id f;
     '(parsed_data, warnings, plots_data_by_id, st0) ←
       parse_html_summary table_data_and_headers extract_plot_data st summary;
     st1 ← extract_version summary s_name st0;
     record_plots plots_data_by_id s_name
       (record_sample f s_name parsed_data warnings st1)) = Ok st').
  { destruct summary; [congruence | exact H ..]. }
  clear H.
  bind_inv H' as sample Esample. bind_inv H' as id Eid.
  bind_inv H' as s_name Ename. bind_inv H' as parsed Eparse.
  destruct parsed as [[[pd w] plots] st0].
  bind_inv H' as st1 Eversion.
  exists id, s_name, pd, w, plots, st0, st1.
  repeat split; try assumption.
  unfold section_field. rewrite Esample, bind_Ok_l. exact Eid.
Qed.

Lemma record_sample_all_headers (f : log_file) (s_name : string)
    (parsed_data : metrics) (warnings : pydict) st :
  all_headers (record_sample f s_name parsed_data warnings st) = all_headers st.
Proof.
  unfold record_sample.
  destruct (bool_decide (is_Some _)), (bool_decide (0 < _)); reflexivity.
Qed.

Lemma record_plots_all_headers (plots : sdict series) (s_name : string) st st' :
  record_plots plots s_name st = Ok st' → all_headers st' = all_headers st.
Proof.
  unfold record_plots. intros H. bind_inv H as p E. injection H as <-.
  reflexivity.
Qed.
End one_file.

(** ** C5: the header registry *)

Section header_registry.
Context {metrics headers series : Type}.
Variable json_loads : string -> result pyval.
Variable clean_s_name : pyval -> log_file -> result string.
Variable table_data_and_headers : pyval -> pyval -> result (metrics * headers).
Variable extract_plot_data : pyval -> result series.

Implicit Types st self : module_state metrics headers series.

Lemma parse_sets_all_headers self summary parsed_data warnings plots self' :
  parse_html_summary table_data_and_headers extract_plot_data self summary
    = Ok (parsed_data, warnings, plots, self') →
  ∃ rows help,
    data_rows_of summary = Ok rows
    ∧ help_text_of summary = Ok help
    ∧ table_data_and_headers rows help = Ok (parsed_data, all_headers self').
Proof.
  unfold parse_html_summary. intros H.
  bind_inv H as rows Erows. bind_inv H as help Ehelp.
  bind_inv H as tables Etables. destruct tables as [pd hdrs].
  bind_inv H as alarms Ealarms. bind_inv H as alarms_list Elist.
  bind_inv H as items Eitems. bind_inv H as acc Eloop.
  destruct acc as [w wh].
  bind_inv H as tss Etss. bind_inv H as insert_size Einsert.
  bind_inv H as saturation Esat. bind_inv H as genes Egenes.
  injection H as <- <- <- <-. exists rows, help. auto.
Qed.

Lemma extract_version_all_headers (summary : pyval) (s_name : string) st st' :
  extract_version summary s_name st = Ok st' → all_headers st' = all_headers st.
Proof.
  unfold extract_version.
  destruct (version_of summary) as [[v|]|e]; [| | destruct e];
    intros [= <-]; reflexivity.
Qed.

(** C5, as the code has it.  When a file with a report has been
    processed, the header registry is exactly the header metadata that
    the normalizer derives from that file's rows and help texts: the
    registry is assigned, not merged, so what it held before (the
    entries of earlier files) plays no part in what it holds after. *)
Theorem C5_registry_replaced_per_file st (f : log_file) (summary : pyval) st' :
  find_summary json_loads (lines f) = Ok summary →
  summary ≠ PNone →
  process_file json_loads clean_s_name table_data_and_headers
    extract_plot_data st f = Ok st' →
  ∃ rows help parsed_data,
    data_rows_of summary = Ok rows
    ∧ help_text_of summary = Ok help
    ∧ table_data_and_headers rows help = Ok (parsed_data, all_headers st').
Proof.
  intros Hfind Hsome H.
  destruct (process_file_Ok _ _ _ _ _ _ _ H)
    as [[Hnone _] | (summary' & id & s_name & pd & w & plots & st0 & st1
                      & Hfind' & _ & _ & _ & Eparse & Eversion & Eplots)].
  { congruence. }
  assert (summary' = summary) as -> by congruence.
  destruct (parse_sets_all_headers _ _ _ _ _ _ Eparse) as (rows & help & E1 & E2 & E3).
  exists rows, help, pd. split; [exact E1 |]. split; [exact E2 |].
  rewrite (record_plots_all_headers _ _ _ _ Eplots), record_sample_all_headers.
  rewrite (extract_version_all_headers _ _ _ _ Eversion). exact E3.
Qed.
End header_registry.

(** After the first example file the registry is what the normalizer makes
    of that file. *)
Lemma C5_registry_replaced_per_file_witness :
  ∃ st',
    Fixture.process Fixture.start Fixture.file_A = Ok st'
    ∧ ∃ rows help parsed_data,
        data_rows_of Fixture.report_A = Ok rows
        ∧ help_text_of Fixture.report_A = Ok help
        ∧ Utils.table_data_and_headers rows help = Ok (parsed_data, all_headers st').
Proof.
  eexists. split.
  - vm_compute. reflexivity.
  - apply (C5_registry_replaced_per_file Fixture.decode Fixture.clean
             Utils.table_data_and_headers Utils.extract_plot_data
             Fixture.start Fixture.file_A Fixture.report_A).
    + reflexivity.
    + discriminate.
    + vm_compute. reflexivity.
Defined.

(** C5 fails as it is stated.  The first file brings the header of
    [Linked genes]; the second file has no metric of that name, and after
    it the registry has no header of that name: the entry of the earlier
    file has not remained. *)
Lemma C5_counterexample :
  ∃ st1 st2,
    Fixture.process Fixture.start Fixture.file_A = Ok st1
    ∧ Fixture.process st1 Fixture.file_B = Ok st2
    ∧ is_Some (od_get String.eqb "Linked genes" (all_headers st1))
    ∧ od_get String.eqb "Linked genes" (all_headers st2) = None.
Proof.
  eexists. eexists. split; [vm_compute; reflexivity |].
  split; [vm_compute; reflexivity |].
  split; [eexists; vm_compute; reflexivity | vm_compute; reflexivity].
Qed.

(** ** C6: warnings *)

Lemma key_eqb_refl (k : pyval) : Py.hashable k = true → Py.key_eqb k k = true.
Proof.
  destruct k as [|b|n|s| |]; simpl; try discriminate; intros _.
  - reflexivity.
  - apply Z.eqb_refl.
  - apply Z.eqb_refl.
  - apply String.eqb_refl.
Qed.

Lemma key_eqb_sym (a b : pyval) : Py.key_eqb a b = Py.key_eqb b a.
Proof.
  destruct a, b; simpl; try reflexivity;
    first [apply Z.eqb_sym | apply String.eqb_sym].
Qed.

Lemma key_eqb_trans (a b c : pyval) :
  Py.key_eqb a b = true → Py.key_eqb b c = true → Py.key_eqb a c = true.
Proof.
  destruct a, b, c; simpl; try discriminate; try reflexivity;
    rewrite ?Z.eqb_eq, ?String.eqb_eq; congruence.
Qed.

Lemma od_set_elem {K V : Type} (eqb : K -> K -> bool) (k : K) (v : V)
    (d : list (K * V)) (kv : K * V) :
  kv ∈ od_set eqb k v d →
  (kv ∈ d ∨ kv.2 = v) ∧ (kv.1 ∈ od_keys d ∨ kv.1 = k).
Proof.
  unfold od_keys. induction d as [|[k0 v0] d IH]; simpl.
  - intros H. apply list_elem_of_singleton in H as ->. auto.
  - destruct (eqb k0 k).
    + intros H. apply elem_of_cons in H as [-> | H].
      * split; [right; reflexivity | left; left].
      * split; left; [right; exact H |].
        right. apply list_elem_of_fmap. exists kv. auto.
    + intros H. apply elem_of_cons in H as [-> | H].
      * split; left; left.
      * destruct (IH H) as [[? | ?] [? | ?]]; split; auto;
          left; right; assumption.
Qed.

Lemma for_each_app {A S : Type} (body : S -> A -> result S) (l1 l2 : list A)
    (s s' : S) :
  for_each body (l1 ++ l2) s = Ok s' →
  ∃ s1, for_each body l1 s = Ok s1 ∧ for_each body l2 s1 = Ok s'.
Proof.
  revert s. induction l1 as [|x l1 IH]; intros s H.
  - exists s. auto.
  - rewrite <- app_comm_cons in H. cbn [for_each] in H. bind_inv H as s0 E.
    destruct (IH _ H) as (s1 & H1 & H2). exists s1. split; [| exact H2].
    cbn [for_each]. rewrite E, bind_Ok_l. exact H1.
Qed.

Section warnings.

(** What one turn of the loop does when it returns. *)
Lemma alarm_step_Ok (acc : pydict * pydict) (alarm : pyval) (acc' : pydict * pydict) :
  alarm_step acc alarm = Ok acc' →
  (has_id alarm = false ∧ acc' = acc)
  ∨ (has_id alarm = true
     ∧ ∃ title message,
         Py.getitem alarm (PStr "title") = Ok title
         ∧ Py.getitem alarm (PStr "message") = Ok message
         ∧ Py.hashable title = true
         ∧ acc' = (od_set Py.key_eqb title (PStr "FAIL") acc.1,
                   od_set Py.key_eqb title (warning_header title message) acc.2)).
Proof.
  unfold alarm_step, has_id. intros H. bind_inv H as b Eb. rewrite Eb.
  destruct b; cbn [negb] in H; cbv iota in H.
  - right. split; [reflexivity |].
    bind_inv H as title Etitle. bind_inv H as w Ew.
    bind_inv H as message Emessage. bind_inv H as wh Ewh.
    injection H as <-. unfold Py.dict_setitem in Ew, Ewh.
    destruct (Py.hashable title) eqn:Hhash; [| discriminate Ew].
    injection Ew as <-. injection Ewh as <-.
    exists title, message. auto.
  - left. injection H as <-. auto.
Qed.

(** The loop with its [continue] does what the specification words as
    "skip the alarms without id, emit an entry for each other". *)
Lemma alarm_loop_refines (items : list pyval) (acc acc' : pydict * pydict) :
  for_each alarm_step items acc = Ok acc' → acc' = warning_entries items acc.
Proof.
  unfold warning_entries. revert acc.
  induction items as [|alarm items IH]; intros acc H.
  - injection H as <-. reflexivity.
  - cbn [for_each] in H. bind_inv H as acc1 E.
    apply alarm_step_Ok in E
      as [[Hid ->] | (Hid & title & message & Et & Em & _ & ->)];
      cbn [List.filter]; rewrite Hid.
    + apply IH, H.
    + cbn [fold_left]. unfold emit_warning at 2. rewrite Et, Em.
      apply IH, H.
Qed.

Lemma alarm_loop_entries (items : list pyval) (acc acc' : pydict * pydict) :
  for_each alarm_step items acc = Ok acc' →
  ∀ kv, kv ∈ acc'.1 →
    (kv ∈ acc.1 ∨ kv.2 = PStr "FAIL")
    ∧ (kv.1 ∈ od_keys acc.1
       ∨ ∃ alarm, alarm ∈ items ∧ has_id alarm = true
                  ∧ Py.getitem alarm (PStr "title") = Ok kv.1).
Proof.
  revert acc. induction items as [|alarm items IH]; intros acc H kv Hkv.
  - injection H as <-. split; left; [exact Hkv |].
    apply list_elem_of_fmap. exists kv. auto.
  - cbn [for_each] in H. bind_inv H as acc1 E.
    destruct (IH _ H kv Hkv) as [Hval Hkey].
    apply alarm_step_Ok in E
      as [[Hid ->] | (Hid & title & message & Et & Em & _ & ->)].
    + split; [exact Hval |].
      destruct Hkey as [? | (a & Ha & ?)]; [left; assumption |].
      right. exists a. split; [right; exact Ha | assumption].
    + cbn [fst snd] in Hval, Hkey. split.
      * destruct Hval as [Hin | ?]; [| right; assumption].
        apply od_set_elem in Hin as [[? | ?] _]; auto.
      * destruct Hkey as [Hin | (a & Ha & ?)].
        -- apply list_elem_of_fmap in Hin as (kv' & -> & Hin).
           apply od_set_elem in Hin as [_ [? | Heq]]; [left; assumption |].
           right. exists alarm. rewrite Heq. split; [left | auto].
        -- right. exists a. split; [right; exact Ha | assumption].
Qed.

Lemma alarm_loop_keeps_warning (items : list pyval) (acc acc' : pydict * pydict)
    (title : pyval) :
  for_each alarm_step items acc = Ok acc' →
  od_get Py.key_eqb title acc.1 = Some (PStr "FAIL") →
  od_get Py.key_eqb title acc'.1 = Some (PStr "FAIL").
Proof.
  revert acc. induction items as [|alarm items IH]; intros acc H Hget.
  - injection H as <-. exact Hget.
  - cbn [for_each] in H. bind_inv H as acc1 E. apply (IH _ H).
    apply alarm_step_Ok in E
      as [[Hid ->] | (Hid & t & m & Et & Em & _ & ->)]; [exact Hget |].
    cbn [fst].
    destruct (od_get_set_cases Py.key_eqb title t (PStr "FAIL") acc.1)
      as [-> | ->]; [reflexivity | exact Hget].
Qed.

Lemma alarm_loop_header (items : list pyval) (acc acc' : pydict * pydict)
    (title h : pyval) :
  for_each alarm_step items acc = Ok acc' →
  od_get Py.key_eqb title acc.2 = Some h →
  ∃ h', od_get Py.key_eqb title acc'.2 = Some h'
        ∧ (h' = h
           ∨ ∃ later t m,
               later ∈ items ∧ has_id later = true
               ∧ Py.getitem later (PStr "title") = Ok t
               ∧ Py.key_eqb t title = true
               ∧ Py.getitem later (PStr "message") = Ok m
               ∧ h' = warning_header t m).
Proof.
  revert acc h. induction items as [|alarm items IH]; intros acc h H Hget.
  - injection H as <-. exists h. auto.
  - cbn [for_each] in H. bind_inv H as acc1 E.
    assert (Hstep : ∃ h1, od_get Py.key_eqb title acc1.2 = Some h1
              ∧ (h1 = h ∨ ∃ t m, has_id alarm = true
                   ∧ Py.getitem alarm (PStr "title") = Ok t
                   ∧ Py.key_eqb t title = true
                   ∧ Py.getitem alarm (PStr "message") = Ok m
                   ∧ h1 = warning_header t m)).
    { apply alarm_step_Ok in E
        as [[Hid ->] | (Hid & t & m & Et & Em & _ & ->)]; [eauto |].
      cbn [snd]. rewrite (od_get_set _ _ _ _ _ key_eqb_sym key_eqb_trans).
      destruct (Py.key_eqb t title) eqn:Ekey; [| eauto].
      eexists. split; [reflexivity |]. right. exists t, m. auto. }
    destruct Hstep as (h1 & H1 & Hlater).
    destruct (IH _ h1 H H1) as (h' & Hh' & Hcases). exists h'.
    split; [exact Hh' |].
    destruct Hcases as [-> | (later & t & m & Hin & ?)].
    + destruct Hlater as [-> | (t & m & ? & ? & ? & ? & ->)];
        [left; reflexivity |].
      right. exists alarm, t, m. split; [left | auto].
    + right. exists later, t, m. split; [right; exact Hin | assumption].
Qed.
End warnings.

Section warnings_of_a_report.
Context {metrics headers series : Type}.
Variable table_data_and_headers : pyval -> pyval -> result (metrics * headers).
Variable extract_plot_data : pyval -> result series.

(** C6. When the parser returns, the alarms block of the report is an
    object; [items] is what the loop visits, the value under [alarms] in
    that block or the empty list when the key is absent.  The warnings
    and the warning headers are those of the specification: the alarms
    without [id] skipped, an entry emitted for each other.  Each alarm
    with an [id] has its title among the warnings with the value
    [FAIL], and under its title the header
    [{title, description: message, bgcols: {FAIL: #f06807}}]: its own,
    or that of a later alarm with an [id] and the same title, which has
    overwritten it.  Every entry of the warnings has the value [FAIL]
    and the title of an alarm with an [id].  When the alarms block has
    no [alarms] key and the tables and plots of the report are accepted,
    the parser returns with no warnings and the warning headers as they
    were. *)
Theorem C6_warning_entries
    (self : module_state metrics headers series) (summary : pyval) :
  (∀ parsed_data warnings plots self',
     parse_html_summary table_data_and_headers extract_plot_data self summary
       = Ok (parsed_data, warnings, plots, self') →
     ∃ block items,
       Py.getitem summary (PStr "alarms") = Ok (PDict block)
       ∧ Py.iter (default (PList []) (od_get Py.key_eqb (PStr "alarms") block))
         = Ok items
       ∧ (warnings, warnings_headers self')
         = warning_entries items ([], warnings_headers self)
       ∧ (∀ before alarm after,
            items = before ++ alarm :: after →
            has_id alarm = true →
            ∃ title message,
              Py.getitem alarm (PStr "title") = Ok title
              ∧ Py.getitem alarm (PStr "message") = Ok message
              ∧ od_get Py.key_eqb title warnings = Some (PStr "FAIL")
              ∧ ∃ h,
                  od_get Py.key_eqb title (warnings_headers self') = Some h
                  ∧ (h = PDict [ (PStr "title", title);
                                 (PStr "description", message);
                                 (PStr "bgcols",
                                    PDict [(PStr "FAIL", PStr "#f06807")]) ]
                     ∨ ∃ later t m,
                         later ∈ after ∧ has_id later = true
                         ∧ Py.getitem later (PStr "title") = Ok t
                         ∧ Py.key_eqb t title = true
                         ∧ Py.getitem later (PStr "message") = Ok m
                         ∧ h = PDict [ (PStr "title", t);
                                       (PStr "description", m);
                                       (PStr "bgcols",
                                          PDict [(PStr "FAIL", PStr "#f06807")]) ]))
       ∧ (∀ kv,
            kv ∈ warnings →
            kv.2 = PStr "FAIL"
            ∧ ∃ alarm,
                alarm ∈ items ∧ has_id alarm = true
                ∧ Py.getitem alarm (PStr "title") = Ok kv.1))
  ∧ (∀ block rows help parsed_data hdrs tss insert_size saturation genes,
       Py.getitem summary (PStr "alarms") = Ok (PDict block) →
       od_get Py.key_eqb (PStr "alarms") block = None →
       data_rows_of summary = Ok rows →
       help_text_of summary = Ok help →
       table_data_and_headers rows help = Ok (parsed_data, hdrs) →
       plot_of extract_plot_data summary "atac_tss_enrichment_plot" = Ok tss →
       plot_of extract_plot_data summary "atac_insert_size_plot" = Ok insert_size →
       plot_of extract_plot_data summary "gex_seq_saturation_plot" = Ok saturation →
       plot_of extract_plot_data summary "gex_genes_per_cell_plot" = Ok genes →
       ∃ self',
         parse_html_summary table_data_and_headers extract_plot_data self summary
         = Ok (parsed_data, [], four_plots tss insert_size saturation genes, self')
         ∧ warnings_headers self' = warnings_headers self).
Proof.
  split.
  - intros parsed_data warnings plots self'.
    unfold parse_html_summary. intros H.
    bind_inv H as rows Erows. bind_inv H as help Ehelp.
    bind_inv H as tables Etables. destruct tables as [pd hdrs].
    bind_inv H as alarms Ealarms. bind_inv H as alarms_list Elist.
    bind_inv H as items Eitems. bind_inv H as acc Eloop.
    destruct acc as [w wh].
    bind_inv H as tss Etss. bind_inv H as insert_size Einsert.
    bind_inv H as saturation Esat. bind_inv H as genes Egenes.
    injection H as <- <- <- <-. cbn [warnings_headers set_warnings_headers].
    cbn [warnings_headers set_all_headers] in Eloop.
    destruct alarms as [| | | | |block]; try discriminate Elist.
    exists block, items. split; [exact Ealarms |]. split.
    { unfold Py.get in Elist. cbn [Py.hashable] in Elist.
      destruct (od_get Py.key_eqb (PStr "alarms") block);
        injection Elist as <-; exact Eitems. }
    split; [apply alarm_loop_refines, Eloop |]. split.
    + intros before alarm after -> Hid.
      apply for_each_app in Eloop as (acc1 & _ & Eloop).
      cbn [for_each] in Eloop. bind_inv Eloop as acc2 Estep.
      apply alarm_step_Ok in Estep
        as [[Hno _] | (_ & title & message & Et & Em & Hhash & ->)];
        [congruence |].
      exists title, message. split; [exact Et |]. split; [exact Em |]. split.
      * apply (alarm_loop_keeps_warning _ _ _ title Eloop). cbn [fst].
        apply od_get_set_eq, key_eqb_refl, Hhash.
      * apply (alarm_loop_header _ _ _ title
                 (warning_header title message) Eloop). cbn [snd].
        apply od_get_set_eq, key_eqb_refl, Hhash.
    + intros kv Hkv.
      destruct (alarm_loop_entries _ _ _ Eloop kv Hkv) as [Hval Hkey].
      cbn [fst od_keys fmap list_fmap] in Hval, Hkey. split.
      * destruct Hval as [Hin | ?]; [inversion Hin | assumption].
      * destruct Hkey as [Hin | ?]; [inversion Hin | assumption].
  - intros block rows help parsed_data hdrs tss insert_size saturation genes
      Halarms Hnone Hrows Hhelp Htables Htss Hinsert Hsat Hgenes.
    unfold parse_html_summary.
    rewrite Hrows, bind_Ok_l, Hhelp, bind_Ok_l, Htables, bind_Ok_l.
    rewrite Halarms, bind_Ok_l. unfold Py.get. cbn [Py.hashable].
    rewrite Hnone, bind_Ok_l. cbn [Py.iter]. rewrite bind_Ok_l.
    cbn [for_each]. rewrite bind_Ok_l.
    rewrite Htss, bind_Ok_l, Hinsert, bind_Ok_l, Hsat, bind_Ok_l.
    rewrite Hgenes, bind_Ok_l.
    eexists. split; reflexivity.
Qed.
End warnings_of_a_report.

(** The first example report has one alarm with an [id] and one without:
    the first gives the one warning and its header, the second nothing. *)
Lemma C6_warning_entries_witness :
  ∃ self',
    Fixture.parse Fixture.start Fixture.report_A
    = Ok ([ ("Linked genes", PStr "10"); ("Sequenced read pairs", PStr "1000") ],
          [ (PStr "Low cell count", PStr "FAIL") ],
          [ ("tss", Utils.Line [(0, 1)%Z]);
            ("insert_size", Utils.Line [(1, 2)%Z]);
            ("saturation", Utils.Line [(2, 3)%Z]);
            ("genes", Utils.Lines [("genes", [(3, 4)%Z])]) ],
          self')
    ∧ ([ (PStr "Low cell count", PStr "FAIL") ], warnings_headers self')
      = warning_entries
          [ Fixture.alarm "low_cells" "Low cell count" "Fewer cells than expected";
            Fixture.note "Information" "Nothing to report" ]
          ([], [])
    ∧ warnings_headers self'
      = [ (PStr "Low cell count",
           PDict [ (PStr "title", PStr "Low cell count");
                   (PStr "description", PStr "Fewer cells than expected");
                   (PStr "bgcols", PDict [(PStr "FAIL", PStr "#f06807")]) ]) ].
Proof.
  eexists. split; [vm_compute; reflexivity |].
  destruct (proj1 (C6_warning_entries Utils.table_data_and_headers
                     Utils.extract_plot_data Fixture.start Fixture.report_A)
              _ _ _ _ eq_refl) as (block & items & Hblock & Hitems & H & _).
  injection Hblock as <-. injection Hitems as <-.
  split; [exact H |].
  apply (f_equal snd) in H. exact H.
Defined.

(** ** The accumulated mappings, file by file *)

Section accumulation.
Context {metrics headers series : Type}.
Variable json_loads : string -> result pyval.
Variable clean_s_name : pyval -> log_file -> result string.
Variable table_data_and_headers : pyval -> pyval -> result (metrics * headers).
Variable extract_plot_data : pyval -> result series.

Implicit Types st self : module_state metrics headers series.

Lemma four_plots_keys {V : Type} (p : sdict V) :
  od_keys p = plot_kinds → ∃ m1 m2 m3 m4, p = four_plots m1 m2 m3 m4.
Proof.
  unfold od_keys, plot_kinds.
  destruct p as [|[k1 m1] [|[k2 m2] [|[k3 m3] [|[k4 m4] [|]]]]]; try discriminate.
  intros [= -> -> -> ->]. exists m1, m2, m3, m4. reflexivity.
Qed.

(** The parser touches the two header registries only, and returns the
    series of the four plot kinds. *)
Lemma parse_frame self summary parsed_data warnings plots self' :
  parse_html_summary table_data_and_headers extract_plot_data self summary
    = Ok (parsed_data, warnings, plots, self') →
  data_by_sample self' = data_by_sample self
  ∧ warnings_by_sample self' = warnings_by_sample self
  ∧ plots_data_by_sample self' = plots_data_by_sample self
  ∧ log self' = log self
  ∧ ∃ v1 v2 v3 v4, plots = four_plots v1 v2 v3 v4.
Proof.
  unfold parse_html_summary. intros H.
  bind_inv H as rows Erows. bind_inv H as help Ehelp.
  bind_inv H as tables Etables. destruct tables as [pd hdrs].
  bind_inv H as alarms Ealarms. bind_inv H as alarms_list Elist.
  bind_inv H as items Eitems. bind_inv H as acc Eloop.
  destruct acc as [w wh].
  bind_inv H as tss Etss. bind_inv H as insert_size Einsert.
  bind_inv H as saturation Esat. bind_inv H as genes Egenes.
  injection H as <- <- <- <-. repeat split.
  exists tss, insert_size, saturation, genes. reflexivity.
Qed.

(** The version step leaves the accumulated mappings alone and writes at
    most one debug message. *)
Lemma extract_version_frame (summary : pyval) (s_name : string) st st' :
  extract_version summary s_name st = Ok st' →
  data_by_sample st' = data_by_sample st
  ∧ warnings_by_sample st' = warnings_by_sample st
  ∧ plots_data_by_sample st' = plots_data_by_sample st
  ∧ (log st' = log st ∨ log st' = log st ++ [version_debug s_name]).
Proof.
  unfold extract_version.
  destruct (version_of summary) as [[v|]|e]; [| | destruct e];
    intros [= <-]; repeat split; auto.
Qed.

Lemma record_plots_four (v1 v2 v3 v4 : series) (m1 m2 m3 m4 : gmap string series)
    (s_name : string) st :
  plots_data_by_sample st = four_plots m1 m2 m3 m4 →
  record_plots (four_plots v1 v2 v3 v4) s_name st
  = Ok (set_plots_data_by_sample
          (four_plots (<[s_name := v1]> m1) (<[s_name := v2]> m2)
             (<[s_name := v3]> m3) (<[s_name := v4]> m4)) st).
Proof. unfold record_plots. intros ->. reflexivity. Qed.

(** What a file with a report does to the accumulated mappings. *)
Lemma process_file_step st (f : log_file) st' (m1 m2 m3 m4 : gmap string series) :
  process_file json_loads clean_s_name table_data_and_headers
    extract_plot_data st f = Ok st' →
  plots_data_by_sample st = four_plots m1 m2 m3 m4 →
  (find_summary json_loads (lines f) = Ok PNone ∧ st' = st)
  ∨ ∃ summary id s_name parsed_data warnings v1 v2 v3 v4 self',
      find_summary json_loads (lines f) = Ok summary
      ∧ section_field summary "sample" "id" = Ok id
      ∧ clean_s_name id f = Ok s_name
      ∧ parse_html_summary table_data_and_headers extract_plot_data st summary
          = Ok (parsed_data, warnings, four_plots v1 v2 v3 v4, self')
      ∧ data_by_sample st' = <[s_name := parsed_data]> (data_by_sample st)
      ∧ warnings_by_sample st'
        = (if bool_decide (0 < length warnings)
           then <[s_name := warnings]> (warnings_by_sample st)
           else warnings_by_sample st)
      ∧ plots_data_by_sample st'
        = four_plots (<[s_name := v1]> m1) (<[s_name := v2]> m2)
            (<[s_name := v3]> m3) (<[s_name := v4]> m4)
      ∧ (is_Some (data_by_sample st !! s_name) →
         duplicate_debug f s_name ∈ log st').
Proof.
  intros H Hplots.
  destruct (process_file_Ok _ _ _ _ _ _ _ H)
    as [? | (summary & id & s_name & pd & w & plots & st0 & st1
              & Hfind & _ & Hid & Hclean & Eparse & Eversion & Eplots)];
    [left; assumption | right].
  destruct (parse_frame _ _ _ _ _ _ Eparse)
    as (Hd0 & Hw0 & Hp0 & Hl0 & v1 & v2 & v3 & v4 & ->).
  destruct (extract_version_frame _ _ _ _ Eversion) as (Hd1 & Hw1 & Hp1 & Hl1).
  exists summary, id, s_name, pd, w, v1, v2, v3, v4, st0.
  split; [exact Hfind |]. split; [exact Hid |]. split; [exact Hclean |].
  split; [exact Eparse |].
  rewrite (record_plots_four v1 v2 v3 v4 m1 m2 m3 m4) in Eplots.
  2:{ unfold record_sample.
      destruct (bool_decide (is_Some _)), (bool_decide (0 < _)); simpl;
        congruence. }
  injection Eplots as <-.
  unfold record_sample. rewrite Hd1, Hd0.
  destruct (bool_decide (is_Some (data_by_sample st !! s_name))) eqn:Hdup;
    destruct (bool_decide (0 < length w)); simpl;
    rewrite ?Hd1, ?Hd0, ?Hw1, ?Hw0; repeat split; try reflexivity.
  all: try (intros _; apply elem_of_app; right; left).
  all: intros Hsome; rewrite bool_decide_eq_false in Hdup; contradiction.
Qed.
End accumulation.

(** ** C10: the plot mappings and the metrics mapping *)

Section plot_mappings.
Context {metrics headers series : Type}.
Variable no_headers : headers.
Variable json_loads : string -> result pyval.
Variable clean_s_name : pyval -> log_file -> result string.
Variable table_data_and_headers : pyval -> pyval -> result (metrics * headers).
Variable extract_plot_data : pyval -> result series.

Implicit Types st : module_state metrics headers series.

Local Abbreviation process :=
  (process_file json_loads clean_s_name table_data_and_headers extract_plot_data).
Local Abbreviation scan :=
  (scan_files json_loads clean_s_name table_data_and_headers extract_plot_data).

Lemma four_plots_getitem {V : Type} (m1 m2 m3 m4 : V) (kind : string) :
  kind ∈ plot_kinds →
  ∃ m, sd_getitem (four_plots m1 m2 m3 m4) kind = Ok m ∧ m ∈ [m1; m2; m3; m4].
Proof.
  unfold plot_kinds. intros H.
  repeat (apply elem_of_cons in H as [-> | H]);
    [exists m1 | exists m2 | exists m3 | exists m4 | inversion H];
    (split; [reflexivity |]); repeat constructor.
Qed.

Lemma process_keeps_plots_in_step st (f : log_file) st' :
  plots_follow_samples st → process st f = Ok st' → plots_follow_samples st'.
Proof.
  intros (m1 & m2 & m3 & m4 & Hplots & Hdom) H.
  destruct (process_file_step _ _ _ _ _ _ _ _ _ _ _ H Hplots)
    as [[_ ->] | (summary & id & s_name & pd & w & v1 & v2 & v3 & v4 & self'
                   & _ & _ & _ & _ & Hd & _ & Hp & _)].
  - exists m1, m2, m3, m4. auto.
  - eexists _, _, _, _. split; [exact Hp |]. rewrite Hd.
    rewrite !Forall_cons in Hdom. destruct Hdom as (D1 & D2 & D3 & D4 & _).
    repeat constructor; rewrite !dom_insert_L; congruence.
Qed.

Lemma scan_keeps_plots_in_step (files : list log_file) st st' :
  plots_follow_samples st → scan files st = Ok st' → plots_follow_samples st'.
Proof.
  unfold scan_files. revert st. induction files as [|f files IH]; intros st Hst H.
  - injection H as <-. exact Hst.
  - cbn [for_each] in H. bind_inv H as st1 E.
    apply (IH st1); [| exact H].
    apply (process_keeps_plots_in_step st f); assumption.
Qed.

Lemma init_state_plots_in_step :
  plots_follow_samples (init_state (metrics:=metrics) (series:=series) no_headers).
Proof.
  exists ∅, ∅, ∅, ∅. split; [reflexivity |]. repeat constructor.
Qed.

(** A file whose report is read, named, parsed and versioned is
    processed to the end: with the four plot mappings in place, storing
    the sample cannot fail. *)
Lemma process_file_returns st (f : log_file) (summary id : pyval)
    (s_name : string) (parsed_data : metrics) (warnings : pydict)
    (plots : sdict series) self' st1 (m1 m2 m3 m4 : gmap string series) :
  plots_data_by_sample st = four_plots m1 m2 m3 m4 →
  find_summary json_loads (lines f) = Ok summary →
  summary ≠ PNone →
  section_field summary "sample" "id" = Ok id →
  clean_s_name id f = Ok s_name →
  parse_html_summary table_data_and_headers extract_plot_data st summary
    = Ok (parsed_data, warnings, plots, self') →
  extract_version summary s_name self' = Ok st1 →
  ∃ st', process st f = Ok st'.
Proof.
  intros Hplots Hfind Hsome Hid Hclean Eparse Eversion.
  destruct (parse_frame _ _ _ _ _ _ _ _ Eparse)
    as (_ & _ & Hp0 & _ & v1 & v2 & v3 & v4 & ->).
  destruct (extract_version_frame _ _ _ _ Eversion) as (_ & _ & Hp1 & _).
  assert (Hstored :
    ∃ st', record_plots (four_plots v1 v2 v3 v4) s_name
             (record_sample f s_name parsed_data warnings st1) = Ok st').
  { rewrite (record_plots_four v1 v2 v3 v4 m1 m2 m3 m4); [eauto |].
    unfold record_sample.
    destruct (bool_decide (is_Some _)), (bool_decide (0 < _)); simpl;
      congruence. }
  destruct Hstored as (st' & Hstored). exists st'.
  unfold section_field in Hid. bind_inv Hid as sample Esample.
  unfold process_file. rewrite Hfind, bind_Ok_l.
  destruct summary; [congruence | ..];
    rewrite Esample, bind_Ok_l, Hid, bind_Ok_l, Hclean, bind_Ok_l;
    rewrite Eparse, bind_Ok_l; cbv beta iota;
    rewrite Eversion, bind_Ok_l; exact Hstored.
Qed.

(** C10. After the scan of any files the four plot mappings are there and
    each has exactly the keys of the metrics mapping.  A further file
    whose report is read and parsed, under the name [s_name] that the
    host's cleaning gives for [summary["sample"]["id"]], and whose
    version step returns, is processed to the end: the metrics mapping
    has the parsed metrics under [s_name], each of the four plot mappings
    has the series of its kind under [s_name], and the key sets agree
    again.  Whenever a further file is processed, it was passed over or
    the name inserted into the five mappings is that cleaned sample name
    of the file. *)
Theorem C10_plot_mappings_follow_samples (files : list log_file) (f : log_file)
    st :
  scan files (init_state no_headers) = Ok st →
  (∀ kind, kind ∈ plot_kinds →
     ∃ m, sd_getitem (plots_data_by_sample st) kind = Ok m
          ∧ dom m = dom (data_by_sample st))
  ∧ (∀ summary id s_name parsed_data warnings plots self' st1,
       find_summary json_loads (lines f) = Ok summary →
       summary ≠ PNone →
       section_field summary "sample" "id" = Ok id →
       clean_s_name id f = Ok s_name →
       parse_html_summary table_data_and_headers extract_plot_data st summary
         = Ok (parsed_data, warnings, plots, self') →
       extract_version summary s_name self' = Ok st1 →
       ∃ st',
         process st f = Ok st'
         ∧ data_by_sample st' = <[s_name := parsed_data]> (data_by_sample st)
         ∧ (∀ kind, kind ∈ plot_kinds →
              ∃ m v,
                sd_getitem (plots_data_by_sample st) kind = Ok m
                ∧ sd_getitem plots kind = Ok v
                ∧ sd_getitem (plots_data_by_sample st') kind
                  = Ok (<[s_name := v]> m))
         ∧ (∀ kind, kind ∈ plot_kinds →
              ∃ m', sd_getitem (plots_data_by_sample st') kind = Ok m'
                    ∧ dom m' = dom (data_by_sample st')))
  ∧ (∀ st',
       process st f = Ok st' →
       ((find_summary json_loads (lines f) = Ok PNone ∧ st' = st)
        ∨ ∃ summary id s_name,
            find_summary json_loads (lines f) = Ok summary
            ∧ section_field summary "sample" "id" = Ok id
            ∧ clean_s_name id f = Ok s_name
            ∧ dom (data_by_sample st') = {[s_name]} ∪ dom (data_by_sample st)
            ∧ ∀ kind, kind ∈ plot_kinds →
                ∃ m m',
                  sd_getitem (plots_data_by_sample st) kind = Ok m
                  ∧ sd_getitem (plots_data_by_sample st') kind = Ok m'
                  ∧ dom m' = {[s_name]} ∪ dom m)
       ∧ (∀ kind, kind ∈ plot_kinds →
            ∃ m', sd_getitem (plots_data_by_sample st') kind = Ok m'
                  ∧ dom m' = dom (data_by_sample st'))).
Proof.
  intros Hscan.
  assert (Hst : plots_follow_samples st)
    by (apply (scan_keeps_plots_in_step files _ _ init_state_plots_in_step Hscan)).
  assert (Hkinds : ∀ s : module_state metrics headers series,
            plots_follow_samples s →
            ∀ kind, kind ∈ plot_kinds →
              ∃ m, sd_getitem (plots_data_by_sample s) kind = Ok m
                   ∧ dom m = dom (data_by_sample s)).
  { intros s (m1 & m2 & m3 & m4 & Hp & Hdom) kind Hkind. rewrite Hp.
    destruct (four_plots_getitem m1 m2 m3 m4 kind Hkind) as (m & Hm & Hin).
    exists m. split; [exact Hm |].
    rewrite Forall_forall in Hdom. apply Hdom, Hin. }
  split; [apply Hkinds, Hst |].
  pose proof Hst as (m1 & m2 & m3 & m4 & Hplots & _).
  split.
  - intros summary id s_name parsed_data warnings plots self' st1
      Hfind Hsome Hid Hclean Eparse Eversion.
    destruct (process_file_returns st f summary id s_name parsed_data warnings
                plots self' st1 m1 m2 m3 m4 Hplots Hfind Hsome Hid Hclean
                Eparse Eversion) as (st' & Hf).
    exists st'. split; [exact Hf |].
    destruct (process_file_step _ _ _ _ _ _ _ _ _ _ _ Hf Hplots)
      as [[Hnone _]
         | (summary' & id' & s_name' & pd & w & v1 & v2 & v3 & v4 & self''
             & Hfind' & Hid' & Hclean' & Eparse' & Hd & _ & Hp & _)];
      [congruence |].
    assert (summary' = summary) as -> by congruence.
    assert (id' = id) as -> by congruence.
    assert (s_name' = s_name) as -> by congruence.
    rewrite Eparse in Eparse'. injection Eparse' as <- <- -> <-.
    split; [exact Hd |]. split.
    + intros kind Hkind. rewrite Hplots, Hp. unfold plot_kinds in Hkind.
      repeat (apply elem_of_cons in Hkind as [-> | Hkind]);
        [exists m1, v1 | exists m2, v2 | exists m3, v3 | exists m4, v4
        | inversion Hkind];
        repeat split; reflexivity.
    + apply Hkinds. apply (process_keeps_plots_in_step st f); assumption.
  - intros st' Hf.
    assert (Hst' : plots_follow_samples st')
      by (apply (process_keeps_plots_in_step st f); assumption).
    split; [| apply Hkinds, Hst'].
    destruct (process_file_step _ _ _ _ _ _ _ _ _ _ _ Hf Hplots)
      as [? | (summary & id & s_name & pd & w & v1 & v2 & v3 & v4 & self'
                & Hfind & Hid & Hclean & _ & Hd & _ & Hp & _)];
      [left; assumption | right].
    exists summary, id, s_name.
    split; [exact Hfind |]. split; [exact Hid |]. split; [exact Hclean |].
    split; [rewrite Hd; apply dom_insert_L |].
    intros kind Hkind. rewrite Hplots, Hp. unfold plot_kinds in Hkind.
    repeat (apply elem_of_cons in Hkind as [-> | Hkind]);
      [exists m1 | exists m2 | exists m3 | exists m4 | inversion Hkind];
      eexists; (split; [reflexivity |]); (split; [reflexivity |]);
      apply dom_insert_L.
Qed.
End plot_mappings.

(** The scan of the first example file and then the second, whose sample
    name [B] joins [A] in the metrics mapping and in each plot mapping. *)
Lemma C10_plot_mappings_follow_samples_witness :
  ∃ st st',
    Fixture.scan [Fixture.file_A] = Ok st
    ∧ Fixture.process st Fixture.file_B = Ok st'
    ∧ dom (data_by_sample st') = {["B"]} ∪ dom (data_by_sample st)
    ∧ ∀ kind, kind ∈ plot_kinds →
        ∃ m', sd_getitem (plots_data_by_sample st') kind = Ok m'
              ∧ dom m' = dom (data_by_sample st').
Proof.
  eexists. eexists. split; [vm_compute; reflexivity |].
  split; [vm_compute; reflexivity |].
  split; [vm_compute; reflexivity |].
  refine (proj2 (proj2 (proj2 (C10_plot_mappings_follow_samples []
           Fixture.decode Fixture.clean Utils.table_data_and_headers
           Utils.extract_plot_data [Fixture.file_A] Fixture.file_B _ _)) _ _)).
  - vm_compute. reflexivity.
  - vm_compute. reflexivity.
Defined.

(** ** C7: sample exclusion and the empty run *)

Section exclusion.
Context {metrics headers series : Type}.
Variable no_headers : headers.
Variable json_loads : string -> result pyval.
Variable clean_s_name : pyval -> log_file -> result string.
Variable is_ignore_sample : string -> bool.
Variable table_data_and_headers : pyval -> pyval -> result (metrics * headers).
Variable extract_plot_data : pyval -> result series.
Variable subset_header : headers -> sdict string -> option string -> headers.
Variable set_hidden_cols : headers -> list string -> headers.

Implicit Types st : module_state metrics headers series.

Local Abbreviation scan :=
  (scan_files json_loads clean_s_name table_data_and_headers extract_plot_data).
Local Abbreviation run :=
  (__init__ no_headers json_loads clean_s_name is_ignore_sample
     table_data_and_headers extract_plot_data subset_header set_hidden_cols).
Local Abbreviation ignore := (ignore_samples is_ignore_sample).

Lemma ignore_samples_dom {V : Type} (d : gmap string V) (s : string) :
  s ∈ dom (ignore d) ↔ s ∈ dom d ∧ is_ignore_sample s = false.
Proof.
  unfold ignore_samples. rewrite !elem_of_dom. unfold is_Some. split.
  - intros (v & Hv). apply map_lookup_filter_Some in Hv as [Hv Hs]. eauto.
  - intros ((v & Hv) & Hs). exists v. apply map_lookup_filter_Some. auto.
Qed.

Lemma ignore_loop_four (m1 m2 m3 m4 : gmap string series) :
  for_each (ignore_step is_ignore_sample) (od_keys (four_plots m1 m2 m3 m4))
    (four_plots m1 m2 m3 m4)
  = Ok (four_plots (ignore m1) (ignore m2) (ignore m3) (ignore m4)).
Proof. reflexivity. Qed.

Lemma filtered_plot_samples st (p : plot metrics headers series) (s : string) :
  filtered_plot is_ignore_sample st p → s ∈ plot_samples p →
  is_ignore_sample s = false.
Proof.
  destruct p as [d h c | d h c | d c]; simpl.
  - intros -> H. apply ignore_samples_dom in H as [_ H]. exact H.
  - intros -> H. apply ignore_samples_dom in H as [_ H]. exact H.
  - intros (kind & m & _ & ->) H. apply ignore_samples_dom in H as [_ H]. exact H.
Qed.

(** C7. After the scan the accumulated mappings are filtered by the
    exclusion predicate of the host.  When no sample is left in the
    metrics mapping the run ends with [ModuleNoSamplesFound].  When one is
    left the run returns its report: the data file and the general
    statistics carry the filtered metrics mapping, every section shows one
    of the accumulated mappings filtered once, and no excluded sample is
    among the samples of the report. *)
Theorem C7_exclusion_and_empty_run (files : list log_file) st :
  scan files (init_state no_headers) = Ok st →
  (size (ignore (data_by_sample st)) = 0 → run files = Err ModuleNoSamplesFound)
  ∧ (0 < size (ignore (data_by_sample st)) →
     ∃ rep,
       run files = Ok rep
       ∧ (data_file rep).1 = ignore (data_by_sample st)
       ∧ (general_stats rep).1 = ignore (data_by_sample st)
       ∧ Forall (fun sec => filtered_plot is_ignore_sample st (sec_plot sec))
           (sections rep)
       ∧ (∀ s, s ∈ report_samples rep → is_ignore_sample s = false)).
Proof.
  intros Hscan.
  destruct (scan_keeps_plots_in_step json_loads clean_s_name
              table_data_and_headers extract_plot_data files _ _
              (init_state_plots_in_step no_headers) Hscan)
    as (m1 & m2 & m3 & m4 & Hplots & _).
  unfold __init__. rewrite Hscan, bind_Ok_l. unfold finish.
  rewrite Hplots, ignore_loop_four, bind_Ok_l.
  split.
  - intros Hsize. rewrite bool_decide_eq_true_2 by exact Hsize. reflexivity.
  - intros Hsize. rewrite bool_decide_eq_false_2 by lia.
    eexists. split; [reflexivity |]. cbn [data_file general_stats sections fst].
    split; [reflexivity |]. split; [reflexivity |].
    match goal with |- ?A ∧ _ => assert (Hsec : A) end.
    { rewrite !Forall_app. split; [| split; [| split; [| split]]].
      - destruct (bool_decide _); repeat constructor.
      - repeat constructor.
      - repeat constructor.
      - repeat constructor; cbn [sec_plot filtered_plot]; rewrite Hplots;
          [exists "tss", m1 | exists "insert_size", m2]; split; reflexivity.
      - repeat constructor; cbn [sec_plot filtered_plot]; rewrite Hplots;
          [exists "saturation", m3 | exists "genes", m4]; split; reflexivity. }
    split; [exact Hsec |].
    intros s. unfold report_samples. cbn [data_file general_stats sections fst].
    rewrite !elem_of_union, elem_of_union_list.
    intros [[Hs | Hs] | (X & HX & Hs)].
    + apply ignore_samples_dom in Hs as [_ Hs]. exact Hs.
    + apply ignore_samples_dom in Hs as [_ Hs]. exact Hs.
    + apply list_elem_of_fmap in HX as (p & -> & Hp).
      apply list_elem_of_fmap in Hp as (sec & -> & Hin).
      rewrite Forall_forall in Hsec.
      apply (filtered_plot_samples st (sec_plot sec) s (Hsec sec Hin) Hs).
Qed.
End exclusion.

(** Two example files, the sample of the second excluded by the host. *)
Lemma C7_exclusion_and_empty_run_witness :
  ∃ rep,
    Fixture.run [Fixture.file_A; Fixture.file_B] = Ok rep
    ∧ ∀ s, s ∈ report_samples rep → Fixture.ignored s = false.
Proof.
  destruct (C7_exclusion_and_empty_run [] Fixture.decode Fixture.clean
              Fixture.ignored Utils.table_data_and_headers
              Utils.extract_plot_data Utils.subset_header Utils.set_hidden_cols
              [Fixture.file_A; Fixture.file_B]
              (Fixture.state_of (Fixture.scan [Fixture.file_A; Fixture.file_B])))
    as [_ H].
  - vm_compute. reflexivity.
  - destruct H as (rep & Hrun & _ & _ & _ & Hs).
    + vm_compute. lia.
    + exists rep. split; [exact Hrun | exact Hs].
Defined.

(** ** C8: two files of one sample *)

(** C8, at two files of sample [A]: the first report has an alarm with an
    [id], the second has no alarm.  Processing the second file raises
    nothing and logs the duplicate; the metrics and the four plot entries
    of [A] are those of the second file, and [A] has one entry in each
    mapping.  The warnings of [A], however, are still those of the first
    file, although the second report has none. *)
Theorem C8_earlier_warnings_survive :
  ∃ st1 st2 parsed_data plots self',
    Fixture.process Fixture.start Fixture.file_A = Ok st1
    ∧ Fixture.process st1 Fixture.file_A_again = Ok st2
    ∧ Fixture.parse st1 Fixture.report_A_again = Ok (parsed_data, [], plots, self')
    ∧ duplicate_debug Fixture.file_A_again "A" ∈ log st2
    ∧ data_by_sample st2 !! "A" = Some parsed_data
    ∧ dom (data_by_sample st2) = {["A"]}
    ∧ warnings_by_sample st1 !! "A" = Some [(PStr "Low cell count", PStr "FAIL")]
    ∧ warnings_by_sample st2 !! "A" = Some [(PStr "Low cell count", PStr "FAIL")].
Proof.
  eexists. eexists. eexists. eexists. eexists.
  split; [vm_compute; reflexivity |].
  split; [vm_compute; reflexivity |].
  split; [vm_compute; reflexivity |].
  split; [apply elem_of_cons; left; vm_compute; reflexivity |].
  split; [vm_compute; reflexivity |].
  split; [vm_compute; reflexivity |].
  split; vm_compute; reflexivity.
Qed.

(** ** C9: subsetting the headers *)

Section subsetting.
Context {metrics : Type}.

Implicit Types data : sdict Utils.header.
Implicit Types cols : sdict string.

(** The loop of [subset_header], started from any dictionary [out]: it
    appends the names [added]. *)
Lemma subset_header_fold data cols (ns : option string) (out : sdict Utils.header) :
  ∃ added,
    od_keys (fold_left (fun out col =>
      match od_get String.eqb col.1 data with
      | Some h => sd_setitem out col.1 (Utils.with_scale col.2 ns h)
      | None => out
      end) cols out) = od_keys out ++ added
    ∧ sublist added (od_keys cols)
    ∧ ∀ name, name ∈ added ↔
        name ∈ od_keys cols ∧ name ∈ od_keys data ∧ name ∉ od_keys out.
Proof.
  revert out. induction cols as [|[n c] cols IH]; intros out.
  - exists []. cbn [fold_left]. rewrite app_nil_r.
    split; [reflexivity |]. split; [constructor |].
    intros name. split; [intros H; inversion H | intros [H _]; inversion H].
  - cbn [fold_left fst snd].
    change (od_keys ((n, c) :: cols)) with (n :: od_keys cols).
    destruct (od_get String.eqb n data) as [h|] eqn:Edata.
    + assert (Hdata : n ∈ od_keys data)
        by (apply sd_get_Some_keys; rewrite Edata; eauto).
      destruct (od_get String.eqb n out) as [h0|] eqn:Eout.
      * assert (Hout : n ∈ od_keys out)
          by (apply sd_get_Some_keys; rewrite Eout; eauto).
        destruct (IH (sd_setitem out n (Utils.with_scale c ns h)))
          as (added & Hkeys & Hsub & Hmem).
        unfold sd_setitem in Hkeys, Hmem.
        rewrite od_keys_set_present in Hkeys, Hmem by (rewrite Eout; eauto).
        exists added. split; [exact Hkeys |].
        split; [apply sublist_cons, Hsub |].
        intros name. rewrite Hmem, elem_of_cons. split; [tauto |].
        intros ([-> | ?] & ? & ?); [contradiction | tauto].
      * assert (Hout : n ∉ od_keys out).
        { intros H. apply sd_get_Some_keys in H. rewrite Eout in H.
          destruct H as [? [=]]. }
        assert (Eset : sd_setitem out n (Utils.with_scale c ns h)
                       = out ++ [(n, Utils.with_scale c ns h)])
          by (apply od_get_None_set, Eout).
        rewrite Eset.
        destruct (IH (out ++ [(n, Utils.with_scale c ns h)]))
          as (added & Hkeys & Hsub & Hmem).
        rewrite od_keys_app in Hkeys, Hmem.
        change (od_keys [(n, Utils.with_scale c ns h)]) with [n] in Hkeys, Hmem.
        exists (n :: added). split; [| split].
        -- rewrite Hkeys, <- app_assoc. reflexivity.
        -- apply sublist_skip, Hsub.
        -- intros name. rewrite !elem_of_cons, Hmem, elem_of_app,
             list_elem_of_singleton.
           destruct (decide (name = n)) as [-> | Hne]; [tauto |]. tauto.
    + assert (Hdata : n ∉ od_keys data).
      { intros H. apply sd_get_Some_keys in H. rewrite Edata in H.
        destruct H as [? [=]]. }
      destruct (IH out) as (added & Hkeys & Hsub & Hmem).
      exists added. split; [exact Hkeys |].
      split; [apply sublist_cons, Hsub |].
      intros name. rewrite Hmem, elem_of_cons. split; [tauto |].
      intros ([-> | ?] & ? & ?); [contradiction | tauto].
Qed.

(** C9.  The names of the headers that subsetting returns are exactly the
    requested names that the pool of headers has, so no name comes from
    outside the pool; and they stand in the order of the requested list,
    of which they are a sublist.  This holds in particular for the columns
    of the general statistics. *)
Theorem C9_subset_header_names data cols (ns : option string)
    (data_by_sample : gmap string metrics) :
  (∀ name, name ∈ od_keys (Utils.subset_header data cols ns) ↔
     name ∈ od_keys cols ∧ name ∈ od_keys data)
  ∧ sublist (od_keys (Utils.subset_header data cols ns)) (od_keys cols)
  ∧ sublist
      (od_keys (general_stats_table Utils.subset_header data_by_sample data).2)
      (od_keys general_cols)
  ∧ (∀ name,
       name ∈ od_keys (general_stats_table Utils.subset_header data_by_sample data).2 →
       name ∈ od_keys data).
Proof.
  assert (Hgen : ∀ cols' ns',
    (∀ name, name ∈ od_keys (Utils.subset_header data cols' ns') ↔
       name ∈ od_keys cols' ∧ name ∈ od_keys data)
    ∧ sublist (od_keys (Utils.subset_header data cols' ns')) (od_keys cols')).
  { intros cols' ns'. unfold Utils.subset_header.
    destruct (subset_header_fold data cols' ns' []) as (added & -> & Hsub & Hmem).
    cbn [od_keys fmap list_fmap app]. split; [| exact Hsub].
    intros name. rewrite Hmem. split; [tauto |].
    intros [? ?]. repeat split; try assumption. intros Hnil. inversion Hnil. }
  destruct (Hgen cols ns) as [H1 H2].
  destruct (Hgen general_cols None) as [H3 H4].
  split; [exact H1 |]. split; [exact H2 |]. split; [exact H4 |].
  intros name H. apply H3 in H as [_ H]. exact H.
Qed.
End subsetting.


(** * Further properties of the module *)

(** ** Strings: stripping, the prefix, the version pattern *)

Lemma append_cons (x : ascii) (a b : string) :
  String x a +:+ b = String x (a +:+ b).
Proof. reflexivity. Qed.

Lemma append_assoc (a b c : string) : (a +:+ b) +:+ c = a +:+ (b +:+ c).
Proof.
  induction a as [|x a IH]; [reflexivity |].
  rewrite !append_cons, IH. reflexivity.
Qed.

Lemma prefix_app (a s : string) : String.prefix a (a +:+ s) = true.
Proof.
  induction a as [|x a IH]; [destruct s; reflexivity |].
  rewrite append_cons. cbn [String.prefix].
  destruct (ascii_dec x x); [exact IH | congruence].
Qed.

Lemma prefix_split (a s : string) :
  String.prefix a s = true → s = a +:+ PyStr.drop (String.length a) s.
Proof.
  revert s. induction a as [|x a IH]; intros s; [reflexivity |].
  destruct s as [|y s]; [discriminate |]. cbn [String.prefix].
  destruct (ascii_dec x y) as [-> | ?]; [| discriminate].
  intros H. cbn [String.length PyStr.drop]. rewrite append_cons, <- (IH s H).
  reflexivity.
Qed.

Lemma lstrip_blank_app (ws s : string) :
  blank ws = true → PyStr.lstrip (ws +:+ s) = PyStr.lstrip s.
Proof.
  unfold blank. induction ws as [|c ws IH]; [reflexivity |].
  cbn [string_all]. intros H. apply andb_true_iff in H as [Hc Hws].
  rewrite append_cons. cbn [PyStr.lstrip]. rewrite Hc. apply IH, Hws.
Qed.

Lemma rstrip_blank (ws : string) : blank ws = true → PyStr.rstrip ws = EmptyString.
Proof.
  unfold blank. induction ws as [|c ws IH]; [reflexivity |].
  cbn [string_all PyStr.rstrip]. intros H.
  apply andb_true_iff in H as [Hc Hws]. rewrite (IH Hws), Hc. reflexivity.
Qed.

Lemma rstrip_app_blank (s ws : string) :
  blank ws = true → PyStr.rstrip (s +:+ ws) = PyStr.rstrip s.
Proof.
  intros H. induction s as [|c s IH]; [apply rstrip_blank, H |].
  rewrite append_cons. cbn [PyStr.rstrip]. rewrite IH. reflexivity.
Qed.

Lemma rstrip_app_fixed (a b : string) :
  PyStr.rstrip b = b → b ≠ EmptyString → PyStr.rstrip (a +:+ b) = a +:+ b.
Proof.
  intros Hb Hne. induction a as [|c a IH]; [exact Hb |].
  rewrite append_cons. cbn [PyStr.rstrip]. rewrite IH.
  destruct (a +:+ b) eqn:E; [| reflexivity].
  destruct a; [contradiction | discriminate].
Qed.

Lemma replace_absent (old new s : string) :
  PyStr.contains old s = false → PyStr.replace s old new = s.
Proof.
  unfold PyStr.replace. induction s as [|c s IH]; [reflexivity |].
  cbn [PyStr.contains PyStr.replace_from]. intros H.
  apply orb_false_iff in H as [Hp Hs]. rewrite Hp, (IH Hs). reflexivity.
Qed.

Lemma replace_from_skip (old new p s : string) :
  PyStr.replace_from (String.length p) old new (p +:+ s)
  = PyStr.replace_from 0 old new s.
Proof.
  induction p as [|c p IH]; [reflexivity |].
  rewrite append_cons. cbn [String.length PyStr.replace_from]. exact IH.
Qed.

Lemma replace_app_old (c : ascii) (old new s : string) :
  PyStr.replace (String c old +:+ s) (String c old) new
  = new +:+ PyStr.replace s (String c old) new.
Proof.
  unfold PyStr.replace.
  assert (Hp : String.prefix (String c old) (String c old +:+ s) = true)
    by apply prefix_app.
  rewrite append_cons in Hp |- *. cbn [PyStr.replace_from]. rewrite Hp.
  cbn [String.length]. rewrite Nat.sub_1_r. cbn [Nat.pred].
  rewrite replace_from_skip. reflexivity.
Qed.

Lemma take_while_all (p : ascii -> bool) (s : string) :
  string_all p (PyStr.take_while p s) = true.
Proof.
  induction s as [|c s IH]; [reflexivity |]. cbn [PyStr.take_while].
  destruct (p c) eqn:E; cbn [string_all]; [rewrite E; exact IH | reflexivity].
Qed.

Lemma take_while_prefix (p : ascii -> bool) (s : string) :
  ∃ rest, s = PyStr.take_while p s +:+ rest.
Proof.
  induction s as [|c s [rest IH]]; [exists EmptyString; reflexivity |].
  cbn [PyStr.take_while]. destruct (p c).
  - exists rest. rewrite append_cons, <- IH. reflexivity.
  - exists (String c s). reflexivity.
Qed.

Lemma take_while_app (p : ascii -> bool) (v rest : string) :
  string_all p v = true → PyStr.take_while p rest = EmptyString →
  PyStr.take_while p (v +:+ rest) = v.
Proof.
  intros Hv Hrest. induction v as [|c v IH]; [exact Hrest |].
  cbn [string_all] in Hv. apply andb_true_iff in Hv as [Hc Hv].
  rewrite append_cons. cbn [PyStr.take_while]. rewrite Hc, (IH Hv).
  reflexivity.
Qed.

Lemma contains_prefix (needle s : string) :
  String.prefix needle s = true → PyStr.contains needle s = true.
Proof. intros H. destruct s; cbn [PyStr.contains]; rewrite H; reflexivity. Qed.

Lemma match_here_sound (s g : string) :
  Re.match_here s = Some g →
  version_like g = true ∧ String.prefix (version_marker +:+ g) s = true.
Proof.
  unfold Re.match_here. destruct (String.prefix "cellranger-arc-" s) eqn:Hp;
    [| discriminate].
  apply prefix_split in Hp. cbn [String.length] in Hp.
  pose proof (take_while_all Re.is_version_char (PyStr.drop 15 s)) as Hall.
  destruct (take_while_prefix Re.is_version_char (PyStr.drop 15 s)) as [rest Hrest].
  destruct (PyStr.take_while Re.is_version_char (PyStr.drop 15 s)) as [|c g'] eqn:E;
    [discriminate |].
  intros [= <-]. split.
  - unfold version_like. rewrite Hall. reflexivity.
  - rewrite Hp, Hrest. unfold version_marker. rewrite <- append_assoc.
    apply prefix_app.
Qed.

Lemma search_sound (s g : string) :
  Re.search s = Some g →
  version_like g = true ∧ PyStr.contains (version_marker +:+ g) s = true.
Proof.
  induction s as [|c s IH]; [discriminate |].
  cbn [Re.search]. destruct (Re.match_here (String c s)) as [g'|] eqn:E.
  - intros [= <-]. apply match_here_sound in E as [Hlike Hp].
    split; [exact Hlike | apply contains_prefix, Hp].
  - intros H. destruct (IH H) as [Hlike Hc]. split; [exact Hlike |].
    cbn [PyStr.contains]. rewrite Hc. apply orb_true_r.
Qed.

Lemma search_marker (v rest : string) :
  version_like v = true →
  PyStr.take_while Re.is_version_char rest = EmptyString →
  Re.search (version_marker +:+ v +:+ rest) = Some v.
Proof.
  unfold version_like. intros Hv Hrest.
  apply andb_true_iff in Hv as [Hall Hne].
  change (Re.search (version_marker +:+ v +:+ rest))
    with (match Re.match_here (version_marker +:+ v +:+ rest) with
          | Some g => Some g
          | None => Re.search (PyStr.drop 1 (version_marker +:+ v +:+ rest))
          end).
  unfold Re.match_here.
  change (String.prefix "cellranger-arc-" (version_marker +:+ v +:+ rest))
    with (String.prefix version_marker (version_marker +:+ v +:+ rest)).
  rewrite prefix_app.
  change (PyStr.drop 15 (version_marker +:+ v +:+ rest)) with (v +:+ rest).
  rewrite (take_while_app _ _ _ Hall Hrest).
  destruct v; [discriminate Hne | reflexivity].
Qed.

(** ** The data line *)

(** X1. A line made of whitespace, the prefix [const data = ], a document
    and whitespace again is a data line whose payload is the document
    itself, so the extractor hands exactly the document to the JSON
    parser, provided the document is not empty, does not end in
    whitespace and does not contain the prefix.  Lines 61-64. *)
Theorem X1_data_line_round_trip (json_loads : string -> result pyval)
    (ws1 doc ws2 : string) (before after : list string) :
  blank ws1 = true →
  blank ws2 = true →
  doc ≠ EmptyString →
  PyStr.rstrip doc = doc →
  PyStr.contains data_marker doc = false →
  Forall (fun l => is_data_line l = false) before →
  is_data_line (ws1 +:+ data_marker +:+ doc +:+ ws2) = true
  ∧ payload (ws1 +:+ data_marker +:+ doc +:+ ws2) = doc
  ∧ find_summary json_loads
      (before ++ (ws1 +:+ data_marker +:+ doc +:+ ws2) :: after)
    = json_loads doc.
Proof.
  intros H1 H2 Hne Hr Hc Hbefore.
  assert (Hstrip : PyStr.strip (ws1 +:+ data_marker +:+ doc +:+ ws2)
                   = data_marker +:+ doc).
  { unfold PyStr.strip. rewrite (lstrip_blank_app _ _ H1).
    change (PyStr.lstrip (data_marker +:+ doc +:+ ws2))
      with (data_marker +:+ doc +:+ ws2).
    rewrite <- append_assoc, (rstrip_app_blank _ _ H2).
    apply rstrip_app_fixed; assumption. }
  assert (Hline : is_data_line (ws1 +:+ data_marker +:+ doc +:+ ws2) = true).
  { unfold is_data_line. rewrite Hstrip. reflexivity. }
  assert (Hpay : payload (ws1 +:+ data_marker +:+ doc +:+ ws2) = doc).
  { unfold payload. rewrite Hstrip.
    change (PyStr.replace (data_marker +:+ doc) "const data = " EmptyString
            = doc)
      with (PyStr.replace (String "c" "onst data = " +:+ doc)
              (String "c" "onst data = ") EmptyString = doc).
    rewrite replace_app_old. apply (replace_absent data_marker), Hc. }
  split; [exact Hline |]. split; [exact Hpay |].
  rewrite (find_summary_skips json_loads before _ Hbefore).
  rewrite find_summary_cons, Hline, Hpay. reflexivity.
Qed.

Lemma X1_data_line_round_trip_witness :
  find_summary Fixture.decode
    [ "<html>" +:+ Fixture.nl; "  const data = A" +:+ Fixture.nl ]
  = Fixture.decode "A".
Proof.
  refine (proj2 (proj2 (X1_data_line_round_trip Fixture.decode "  " "A"
            Fixture.nl ["<html>" +:+ Fixture.nl] [] _ _ _ _ _ _)));
    try reflexivity.
  - discriminate.
  - repeat constructor.
Defined.

(** X2. A line that holds the prefix and then nothing but whitespace is
    still a data line, but stripping has taken the space after the equals
    sign, so nothing is removed and the JSON parser receives the text
    [const data =].  Lines 61-64. *)
Theorem X2_data_line_without_document (json_loads : string -> result pyval)
    (ws1 ws2 : string) (after : list string) :
  blank ws1 = true →
  blank ws2 = true →
  is_data_line (ws1 +:+ data_marker +:+ ws2) = true
  ∧ payload (ws1 +:+ data_marker +:+ ws2) = "const data ="
  ∧ find_summary json_loads ((ws1 +:+ data_marker +:+ ws2) :: after)
    = json_loads "const data =".
Proof.
  intros H1 H2.
  assert (Hstrip : PyStr.strip (ws1 +:+ data_marker +:+ ws2) = "const data =").
  { unfold PyStr.strip. rewrite (lstrip_blank_app _ _ H1).
    change (PyStr.lstrip (data_marker +:+ ws2)) with (data_marker +:+ ws2).
    change (data_marker +:+ ws2) with ("const data =" +:+ (" " +:+ ws2)).
    rewrite rstrip_app_blank; [reflexivity |].
    unfold blank. cbn [string_all String.append]. exact H2. }
  assert (Hline : is_data_line (ws1 +:+ data_marker +:+ ws2) = true).
  { unfold is_data_line. rewrite Hstrip. reflexivity. }
  assert (Hpay : payload (ws1 +:+ data_marker +:+ ws2) = "const data =").
  { unfold payload. rewrite Hstrip. reflexivity. }
  split; [exact Hline |]. split; [exact Hpay |].
  rewrite find_summary_cons, Hline, Hpay. reflexivity.
Qed.

Lemma X2_data_line_without_document_witness :
  find_summary Fixture.decode [ "const data = " +:+ Fixture.nl ]
  = Err JSONDecodeError.
Proof.
  refine (proj2 (proj2 (X2_data_line_without_document Fixture.decode
            EmptyString Fixture.nl [] _ _))); reflexivity.
Defined.

(** ** The version step *)

Section version_properties.
Context {metrics headers series : Type}.
Implicit Types st : module_state metrics headers series.

(** X3. When the row at index 2 of the pipeline table has the label
    [Pipeline version] and a value that starts with [cellranger-arc-],
    continues with digits and dots and then with something else or
    nothing, the version step records exactly those digits and dots for
    the sample.  Lines 74-79. *)
Theorem X3_version_round_trip (summary : pyval) (v rest s_name : string) st :
  version_value_is summary (version_marker +:+ v +:+ rest) →
  version_like v = true →
  PyStr.take_while Re.is_version_char rest = EmptyString →
  extract_version summary s_name st = Ok (add_software_version v s_name st).
Proof.
  intros Hvalue Hv Hrest. unfold extract_version.
  rewrite (version_of_value _ _ Hvalue), (search_marker _ _ Hv Hrest).
  reflexivity.
Qed.

Lemma seq_index_short {A : Type} (l : list A) (i : nat) :
  length l ≤ i → Py.seq_index l (Z.of_nat i) = Err IndexError.
Proof.
  intros H. unfold Py.seq_index.
  destruct (Z.of_nat i <? 0)%Z eqn:E; [apply Z.ltb_lt in E; lia |].
  rewrite E, Nat2Z.id, (lookup_ge_None_2 l i H). reflexivity.
Qed.

(** X4. When the pipeline table has fewer than three rows, the version
    step raises [IndexError]; the [try] does not handle it, so the
    processing of the file ends with it although the report was parsed.
    Lines 73-81. *)
Theorem X4_short_pipeline_table
    (json_loads : string -> result pyval)
    (clean_s_name : pyval -> log_file -> result string)
    (table_data_and_headers : pyval -> pyval -> result (metrics * headers))
    (extract_plot_data : pyval -> result series)
    (f : log_file) (summary table id : pyval) (rows : list pyval)
    (s_name : string) st r :
  Py.getitem summary (PStr "joint_pipeline_info_table") = Ok table →
  Py.getitem table (PStr "rows") = Ok (PList rows) →
  length rows ≤ 2 →
  find_summary json_loads (lines f) = Ok summary →
  section_field summary "sample" "id" = Ok id →
  clean_s_name id f = Ok s_name →
  parse_html_summary table_data_and_headers extract_plot_data st summary = Ok r →
  (∀ st0, extract_version summary s_name st0 = Err IndexError)
  ∧ process_file json_loads clean_s_name table_data_and_headers
      extract_plot_data st f = Err IndexError.
Proof.
  intros Etable Erows Hlen Hfind Hid Hclean Hparse.
  assert (Hversion : ∀ st0 : module_state metrics headers series,
            extract_version summary s_name st0 = Err IndexError).
  { intros st0. unfold extract_version, version_of.
    rewrite Etable, bind_Ok_l, Erows, bind_Ok_l.
    change (Py.getitem (PList rows) (PInt 2))
      with (Py.seq_index rows (Z.of_nat 2)).
    rewrite (seq_index_short rows 2 Hlen). reflexivity. }
  split; [exact Hversion |].
  unfold process_file. rewrite Hfind, bind_Ok_l.
  unfold section_field in Hid. apply bind_Ok in Hid as (sample & Esample & Eid).
  destruct r as [[[pd w] plots] st0].
  destruct summary; try discriminate Etable;
    rewrite Esample, bind_Ok_l, Eid, bind_Ok_l, Hclean, bind_Ok_l, Hparse,
      bind_Ok_l; cbv iota beta; rewrite Hversion; reflexivity.
Qed.
End version_properties.

Lemma X3_version_round_trip_witness :
  extract_version Fixture.report_A "A" Fixture.start
  = Ok (add_software_version "2.0.1" "A" Fixture.start).
Proof.
  apply (X3_version_round_trip Fixture.report_A "2.0.1" EmptyString).
  - do 2 eexists. split; [do 2 eexists; repeat split; reflexivity |].
    repeat split; reflexivity.
  - reflexivity.
  - reflexivity.
Defined.

Lemma X4_short_pipeline_table_witness :
  Fixture.process Fixture.start Fixture.file_short = Err IndexError.
Proof.
  eapply proj2, (X4_short_pipeline_table Fixture.decode Fixture.clean
            Utils.table_data_and_headers Utils.extract_plot_data
            Fixture.file_short Fixture.report_short
            (Fixture.table []) (PStr "S") [] "S" Fixture.start).
  - reflexivity.
  - reflexivity.
  - simpl. lia.
  - reflexivity.
  - reflexivity.
  - reflexivity.
  - vm_compute. reflexivity.
Defined.

(** ** Files without a report, and files that end the run *)

Lemma for_each_app_Ok {A S : Type} (body : S -> A -> result S) (l1 l2 : list A)
    (s s1 : S) :
  for_each body l1 s = Ok s1 →
  for_each body (l1 ++ l2) s = for_each body l2 s1.
Proof.
  revert s. induction l1 as [|x l1 IH]; intros s H.
  - injection H as <-. reflexivity.
  - rewrite <- app_comm_cons. cbn [for_each] in H |- *. bind_inv H as s0 E.
    rewrite E, bind_Ok_l. apply IH, H.
Qed.

Section fatal_and_skipped.
Context {metrics headers series : Type}.
Variable no_headers : headers.
Variable json_loads : string -> result pyval.
Variable clean_s_name : pyval -> log_file -> result string.
Variable is_ignore_sample : string -> bool.
Variable table_data_and_headers : pyval -> pyval -> result (metrics * headers).
Variable extract_plot_data : pyval -> result series.
Variable subset_header : headers -> sdict string -> option string -> headers.
Variable set_hidden_cols : headers -> list string -> headers.

Implicit Types st : module_state metrics headers series.

Local Abbreviation process :=
  (process_file json_loads clean_s_name table_data_and_headers extract_plot_data).
Local Abbreviation scan :=
  (scan_files json_loads clean_s_name table_data_and_headers extract_plot_data).
Local Abbreviation run :=
  (__init__ no_headers json_loads clean_s_name is_ignore_sample
     table_data_and_headers extract_plot_data subset_header set_hidden_cols).

(** X5. A data line whose document decodes to something that is neither
    an object nor [null] (an array, a string, a number, a boolean) ends the
    run with [TypeError]: reading the sample fails before anything is
    recorded, and the files after it are not processed.  Lines 64-69. *)
Theorem X5_document_is_no_object (before rest : list log_file) (f : log_file)
    (summary : pyval) st st1 :
  scan before st = Ok st1 →
  find_summary json_loads (lines f) = Ok summary →
  summary ≠ PNone →
  (∀ entries, summary ≠ PDict entries) →
  process st1 f = Err TypeError
  ∧ scan (before ++ f :: rest) st = Err TypeError.
Proof.
  intros Hbefore Hfind Hnone Hdict.
  assert (Hf : process st1 f = Err TypeError).
  { unfold process_file. rewrite Hfind, bind_Ok_l.
    destruct summary as [| | | | |entries]; try reflexivity;
      [congruence | destruct (Hdict entries eq_refl)]. }
  split; [exact Hf |].
  unfold scan_files in *. rewrite (for_each_app_Ok _ _ _ _ _ Hbefore).
  cbn [for_each]. rewrite Hf. reflexivity.
Qed.

(** X6. When every file is without a report (no data line, or a data
    line whose document is [null]), the scan changes nothing and the run
    ends with [ModuleNoSamplesFound], whatever the host excludes; this
    includes the run on no file at all.  Lines 58-67 and 92-98. *)
Theorem X6_no_report_no_samples (files : list log_file) st :
  Forall (fun f => find_summary json_loads (lines f) = Ok PNone) files →
  scan files st = Ok st
  ∧ run files = Err ModuleNoSamplesFound.
Proof.
  intros Hfiles.
  assert (Hscan : ∀ st0 : module_state metrics headers series,
            scan files st0 = Ok st0).
  { intros st0. unfold scan_files.
    induction Hfiles as [|f files Hf _ IH]; [reflexivity |].
    assert (Hskip : process st0 f = Ok st0)
      by (unfold process_file; rewrite Hf; reflexivity).
    cbn [for_each]. rewrite Hskip, bind_Ok_l. exact IH. }
  split; [apply Hscan |].
  unfold __init__. rewrite Hscan, bind_Ok_l. unfold finish.
  change (plots_data_by_sample (init_state no_headers))
    with (four_plots (V:=gmap string series) ∅ ∅ ∅ ∅).
  rewrite ignore_loop_four, bind_Ok_l.
  rewrite bool_decide_eq_true_2; [reflexivity |].
  unfold ignore_samples. cbn [data_by_sample init_state].
  rewrite map_filter_empty. apply map_size_empty.
Qed.

(** X7. When the document of the first data line of a file does not
    decode, the exception of the JSON parser ends the run: later data
    lines of the file are not tried, nothing catches the exception, and
    the files after it are not processed.  Lines 60-65. *)
Theorem X7_decode_error_is_fatal (before rest : list log_file) (f : log_file)
    (pre post : list string) (line : string) (e : exn) st st1 :
  scan before st = Ok st1 →
  lines f = pre ++ line :: post →
  Forall (fun l => is_data_line l = false) pre →
  is_data_line line = true →
  json_loads (payload line) = Err e →
  process st1 f = Err e
  ∧ scan (before ++ f :: rest) st = Err e.
Proof.
  intros Hbefore Hlines Hpre Hline He.
  assert (Hf : process st1 f = Err e).
  { unfold process_file.
    rewrite Hlines, (find_summary_skips json_loads pre _ Hpre).
    rewrite find_summary_cons, Hline, He. reflexivity. }
  split; [exact Hf |].
  unfold scan_files in *. rewrite (for_each_app_Ok _ _ _ _ _ Hbefore).
  cbn [for_each]. rewrite Hf. reflexivity.
Qed.
End fatal_and_skipped.

Lemma X5_document_is_no_object_witness :
  Fixture2.scan [Fixture.file_A; Fixture2.file_array; Fixture.file_B]
  = Err TypeError.
Proof.
  eapply proj2, (X5_document_is_no_object Fixture2.decode Fixture.clean
            Utils.table_data_and_headers Utils.extract_plot_data
            [Fixture.file_A] [Fixture.file_B] Fixture2.file_array
            (PList [PInt 1; PInt 2]) Fixture.start).
  - vm_compute. reflexivity.
  - reflexivity.
  - discriminate.
  - discriminate.
Defined.

Lemma X6_no_report_no_samples_witness :
  Fixture.run [Fixture.file_plain; Fixture.file_of "n/web_summary.html" "null"]
  = Err ModuleNoSamplesFound.
Proof.
  eapply proj2, (X6_no_report_no_samples [] Fixture.decode Fixture.clean
            Fixture.ignored Utils.table_data_and_headers
            Utils.extract_plot_data Utils.subset_header Utils.set_hidden_cols
            _ Fixture.start).
  repeat constructor.
Defined.

Lemma X7_decode_error_is_fatal_witness :
  Fixture2.scan [Fixture.file_A; Fixture2.file_broken; Fixture.file_B]
  = Err JSONDecodeError.
Proof.
  eapply proj2, (X7_decode_error_is_fatal Fixture2.decode Fixture.clean
            Utils.table_data_and_headers Utils.extract_plot_data
            [Fixture.file_A] [Fixture.file_B] Fixture2.file_broken
            [] ["const data = A" +:+ Fixture.nl]
            ("const data = {" +:+ Fixture.nl) JSONDecodeError Fixture.start).
  - vm_compute. reflexivity.
  - reflexivity.
  - constructor.
  - reflexivity.
  - reflexivity.
Defined.

(** ** What a scan keeps true *)

Lemma od_keys_set_grows {K V : Type} (eqb : K -> K -> bool) (k : K) (v : V)
    (d : list (K * V)) :
  od_keys d `prefix_of` od_keys (od_set eqb k v d).
Proof.
  unfold od_keys. induction d as [|[k0 v0] d IH]; simpl.
  - apply prefix_nil.
  - destruct (eqb k0 k); simpl; [reflexivity |]. apply prefix_cons, IH.
Qed.

Lemma od_get_set_Some (k k' : pyval) (v : pyval) (d : pydict) :
  is_Some (od_get Py.key_eqb k d) →
  is_Some (od_get Py.key_eqb k (od_set Py.key_eqb k' v d)).
Proof.
  rewrite (od_get_set _ _ _ _ _ key_eqb_sym key_eqb_trans).
  destruct (Py.key_eqb k' k); eauto.
Qed.

(** The alarm loop: a title with a warning has a header, and headers are
    only added. *)
Lemma alarm_loop_headers (items : list pyval) (acc acc' : pydict * pydict) :
  for_each alarm_step items acc = Ok acc' →
  (∀ k, is_Some (od_get Py.key_eqb k acc.1) → is_Some (od_get Py.key_eqb k acc.2)) →
  (∀ k, is_Some (od_get Py.key_eqb k acc'.1) → is_Some (od_get Py.key_eqb k acc'.2))
  ∧ (∀ k, is_Some (od_get Py.key_eqb k acc.2) → is_Some (od_get Py.key_eqb k acc'.2))
  ∧ od_keys acc.2 `prefix_of` od_keys acc'.2.
Proof.
  revert acc. induction items as [|alarm items IH]; intros acc H Hacc.
  - injection H as <-. repeat split; auto.
  - cbn [for_each] in H. bind_inv H as acc1 E.
    apply alarm_step_Ok in E
      as [[Hid ->] | (Hid & t & m & Et & Em & Hhash & ->)];
      [apply IH; assumption |].
    destruct (IH _ H) as (H1 & H2 & H3).
    + cbn [fst snd]. intros k.
      rewrite !(od_get_set _ _ _ _ _ key_eqb_sym key_eqb_trans).
      destruct (Py.key_eqb t k); [eauto | apply Hacc].
    + cbn [fst snd] in H2, H3. split; [exact H1 |]. split.
      * intros k Hk. apply H2, od_get_set_Some, Hk.
      * etransitivity; [| exact H3]. apply od_keys_set_grows.
Qed.

Section scan_invariants.
Context {metrics headers series : Type}.
Variable no_headers : headers.
Variable json_loads : string -> result pyval.
Variable clean_s_name : pyval -> log_file -> result string.
Variable table_data_and_headers : pyval -> pyval -> result (metrics * headers).
Variable extract_plot_data : pyval -> result series.

Implicit Types st self : module_state metrics headers series.

Local Abbreviation parse :=
  (parse_html_summary table_data_and_headers extract_plot_data).
Local Abbreviation process :=
  (process_file json_loads clean_s_name table_data_and_headers extract_plot_data).
Local Abbreviation scan :=
  (scan_files json_loads clean_s_name table_data_and_headers extract_plot_data).

(** What the parser returns and leaves behind, as far as warnings go. *)
Lemma parse_warnings self summary parsed_data warnings plots self' :
  parse self summary = Ok (parsed_data, warnings, plots, self') →
  software_versions self' = software_versions self
  ∧ data_sources self' = data_sources self
  ∧ (∀ kv, kv ∈ warnings → kv.2 = PStr "FAIL")
  ∧ (∀ k, is_Some (od_get Py.key_eqb k warnings) →
          is_Some (od_get Py.key_eqb k (warnings_headers self')))
  ∧ (∀ k, is_Some (od_get Py.key_eqb k (warnings_headers self)) →
          is_Some (od_get Py.key_eqb k (warnings_headers self')))
  ∧ od_keys (warnings_headers self) `prefix_of` od_keys (warnings_headers self').
Proof.
  unfold parse_html_summary. intros H.
  bind_inv H as rows Erows. bind_inv H as help Ehelp.
  bind_inv H as tables Etables. destruct tables as [pd hdrs].
  bind_inv H as alarms Ealarms. bind_inv H as alarms_list Elist.
  bind_inv H as items Eitems. bind_inv H as acc Eloop.
  destruct acc as [w wh].
  bind_inv H as tss Etss. bind_inv H as insert_size Einsert.
  bind_inv H as saturation Esat. bind_inv H as genes Egenes.
  injection H as <- <- <- <-.
  cbn [warnings_headers set_warnings_headers set_all_headers software_versions
         data_sources] in *.
  split; [reflexivity |]. split; [reflexivity |].
  destruct (alarm_loop_headers _ _ _ Eloop) as (H1 & H2 & H3).
  { cbn [fst]. intros k [? [=]]. }
  split; [| auto].
  intros kv Hkv. destruct (alarm_loop_entries _ _ _ Eloop kv Hkv) as [[Hin | ?] _];
    [inversion Hin | assumption].
Qed.

(** What the version step does to the state. *)
Lemma extract_version_fields (summary : pyval) (s_name : string) st st' :
  extract_version summary s_name st = Ok st' →
  data_by_sample st' = data_by_sample st
  ∧ warnings_by_sample st' = warnings_by_sample st
  ∧ warnings_headers st' = warnings_headers st
  ∧ data_sources st' = data_sources st
  ∧ (software_versions st' = software_versions st
     ∨ ∃ v, version_like v = true
            ∧ software_versions st' = software_versions st ++ [(v, s_name)])
  ∧ log st `prefix_of` log st'.
Proof.
  unfold extract_version.
  destruct (version_of summary) as [[v|]|e] eqn:E; [| | destruct e];
    intros [= <-]; repeat split; auto;
    try (apply prefix_app_r; reflexivity).
  right. exists v. split; [| reflexivity].
  apply version_of_Some in E as (value & _ & Hsearch).
  apply search_sound in Hsearch as [Hlike _]. exact Hlike.
Qed.

(** What a file does to the state, field by field. *)
Lemma process_file_fields st (f : log_file) st' :
  process st f = Ok st' →
  (find_summary json_loads (lines f) = Ok PNone ∧ st' = st)
  ∨ ∃ summary s_name parsed_data warnings plots self',
      find_summary json_loads (lines f) = Ok summary
      ∧ parse st summary = Ok (parsed_data, warnings, plots, self')
      ∧ data_by_sample st' = <[s_name := parsed_data]> (data_by_sample st)
      ∧ warnings_by_sample st'
        = (if bool_decide (0 < length warnings)
           then <[s_name := warnings]> (warnings_by_sample st)
           else warnings_by_sample st)
      ∧ warnings_headers st' = warnings_headers self'
      ∧ data_sources st' = data_sources st ++ [(fn f, s_name)]
      ∧ (software_versions st' = software_versions st
         ∨ ∃ v, version_like v = true
                ∧ software_versions st' = software_versions st ++ [(v, s_name)])
      ∧ log st `prefix_of` log st'.
Proof.
  intros H.
  destruct (process_file_Ok _ _ _ _ _ _ _ H)
    as [? | (summary & id & s_name & pd & w & plots & st0 & st1
              & Hfind & _ & Hid & Hclean & Eparse & Eversion & Eplots)];
    [left; assumption | right].
  exists summary, s_name, pd, w, plots, st0.
  split; [exact Hfind |]. split; [exact Eparse |].
  destruct (parse_frame _ _ _ _ _ _ _ _ Eparse) as (Hd0 & Hw0 & _ & Hl0 & _).
  destruct (parse_warnings _ _ _ _ _ _ Eparse) as (Hv0 & Hs0 & _).
  destruct (extract_version_fields _ _ _ _ Eversion)
    as (Hd1 & Hw1 & Hh1 & Hs1 & Hv1 & Hl1).
  unfold record_plots in Eplots. bind_inv Eplots as p Ep.
  injection Eplots as <-. unfold record_sample.
  rewrite Hd1, Hd0.
  destruct (bool_decide (is_Some (data_by_sample st !! s_name)));
    destruct (bool_decide (0 < length w)); simpl;
    rewrite ?Hd1, ?Hd0, ?Hw1, ?Hw0, ?Hh1, ?Hs1, ?Hs0;
    (repeat split; try reflexivity);
    try (rewrite <- Hv0; exact Hv1);
    rewrite <- Hl0; try exact Hl1;
    (etransitivity; [exact Hl1 | apply prefix_app_r; reflexivity]).
Qed.

(** A property that the start has and every file keeps holds after the
    scan. *)
Lemma scan_invariant (P : module_state metrics headers series → Prop)
    (files : list log_file) st st' :
  (∀ st0 f st1, P st0 → process st0 f = Ok st1 → P st1) →
  P st → scan files st = Ok st' → P st'.
Proof.
  intros Hstep. unfold scan_files. revert st.
  induction files as [|f files IH]; intros st Hst H.
  - injection H as <-. exact Hst.
  - cbn [for_each] in H. bind_inv H as st1 E.
    apply (IH st1); [apply (Hstep st f); assumption | exact H].
Qed.
End scan_invariants.

Section what_a_scan_keeps.
Context {metrics headers series : Type}.
Variable no_headers : headers.
Variable json_loads : string -> result pyval.
Variable clean_s_name : pyval -> log_file -> result string.
Variable table_data_and_headers : pyval -> pyval -> result (metrics * headers).
Variable extract_plot_data : pyval -> result series.

Implicit Types st : module_state metrics headers series.

Local Abbreviation process :=
  (process_file json_loads clean_s_name table_data_and_headers extract_plot_data).
Local Abbreviation scan :=
  (scan_files json_loads clean_s_name table_data_and_headers extract_plot_data).

Lemma process_keeps_warnings_consistent st (f : log_file) st' :
  warnings_consistent st → process st f = Ok st' → warnings_consistent st'.
Proof.
  intros Hst H.
  destruct (process_file_fields _ _ _ _ _ _ _ H)
    as [[_ ->] | (summary & s_name & pd & w & plots & self' & _ & Eparse
                   & Hd & Hw & Hh & _)]; [exact Hst |].
  destruct (parse_warnings _ _ _ _ _ _ _ _ Eparse)
    as (_ & _ & Hfail & Hnew & Hold & _).
  assert (Hkept : ∀ s w0, warnings_by_sample st !! s = Some w0 →
            s ∈ dom (data_by_sample st')
            ∧ w0 ≠ []
            ∧ (∀ kv, kv ∈ w0 → kv.2 = PStr "FAIL")
            ∧ (∀ k, is_Some (od_get Py.key_eqb k w0) →
                    is_Some (od_get Py.key_eqb k (warnings_headers st')))).
  { intros s w0 Hs. destruct (Hst s w0 Hs) as (H1 & H2 & H3 & H4).
    split; [rewrite Hd, dom_insert_L; apply elem_of_union; right; exact H1 |].
    split; [exact H2 |]. split; [exact H3 |].
    intros k Hk. rewrite Hh. apply Hold, H4, Hk. }
  intros s w0 Hs. rewrite Hw in Hs.
  destruct (bool_decide (0 < length w)) eqn:Hlen; [| apply Hkept, Hs].
  destruct (decide (s = s_name)) as [-> | Hne].
  - rewrite lookup_insert_eq in Hs. injection Hs as <-.
    split; [rewrite Hd, dom_insert_L; apply elem_of_union; left;
            apply elem_of_singleton; reflexivity |]. split.
    + apply bool_decide_eq_true in Hlen. intros ->. simpl in Hlen. lia.
    + split; [exact Hfail |]. intros k Hk. rewrite Hh. apply Hnew, Hk.
  - rewrite lookup_insert_ne in Hs by congruence. apply Hkept, Hs.
Qed.

(** X8. After a scan, every sample with stored warnings is a sample of
    the metrics mapping; its stored warnings are not empty; each of them
    has the value [FAIL]; and each title has a header among the warning
    headers, so the warnings table has a header for every column.  Lines
    86-88 and 166-175. *)
Theorem X8_stored_warnings_are_consistent (files : list log_file) st :
  scan files (init_state no_headers) = Ok st → warnings_consistent st.
Proof.
  apply (scan_invariant json_loads clean_s_name table_data_and_headers
           extract_plot_data warnings_consistent).
  - apply process_keeps_warnings_consistent.
  - intros s w Hs. cbn [warnings_by_sample init_state] in Hs.
    rewrite lookup_empty in Hs. discriminate Hs.
Qed.

(** X9. After a scan, the samples of the metrics mapping are exactly the
    samples for which a data source was recorded, and there are at most as
    many samples as recorded sources: a file whose sample was seen before
    adds a source but no sample.  Lines 83-86. *)
Theorem X9_samples_are_the_recorded_sources (files : list log_file) st :
  scan files (init_state no_headers) = Ok st →
  dom (data_by_sample st) = list_to_set (source_samples st)
  ∧ size (data_by_sample st) ≤ length (data_sources st).
Proof.
  apply (scan_invariant json_loads clean_s_name table_data_and_headers
           extract_plot_data
           (fun st => dom (data_by_sample st) = list_to_set (source_samples st)
                      ∧ size (data_by_sample st) ≤ length (data_sources st))).
  - intros st0 f st1 [Hdom Hsize] H.
    destruct (process_file_fields _ _ _ _ _ _ _ H)
      as [[_ ->] | (summary & s_name & pd & w & plots & self' & _ & _
                     & Hd & _ & _ & Hs & _)]; [auto |].
    unfold source_samples. rewrite Hd, Hs. split.
    + rewrite dom_insert_L, Hdom, fmap_app, list_to_set_app_L.
      unfold source_samples. cbn [fmap list_fmap snd list_to_set].
      rewrite (right_id_L ∅ (∪)). apply (comm_L (∪)).
    + rewrite length_app. cbn [length].
      pose proof (map_size_insert s_name pd (data_by_sample st0)) as Hins.
      destruct (data_by_sample st0 !! s_name); simpl in Hins; lia.
  - split; [| cbn [data_by_sample data_sources init_state]; rewrite map_size_empty; lia].
    unfold source_samples. cbn [data_by_sample data_sources init_state].
    rewrite dom_empty_L. reflexivity.
Qed.

(** X10. After a scan, every recorded software version is a non-empty
    run of digits and dots, and it is recorded for a sample of the metrics
    mapping.  Lines 73-79 and 86. *)
Theorem X10_recorded_versions (files : list log_file) st (v s : string) :
  scan files (init_state no_headers) = Ok st →
  (v, s) ∈ software_versions st →
  version_like v = true ∧ s ∈ dom (data_by_sample st).
Proof.
  intros Hscan. revert v s.
  apply (scan_invariant json_loads clean_s_name table_data_and_headers
           extract_plot_data
           (fun st => ∀ v s, (v, s) ∈ software_versions st →
                        version_like v = true ∧ s ∈ dom (data_by_sample st))
           files (init_state no_headers) st); [| | exact Hscan].
  - intros st0 f st1 Hst0 H.
    destruct (process_file_fields _ _ _ _ _ _ _ H)
      as [[_ ->] | (summary & s_name & pd & w & plots & self' & _ & _
                     & Hd & _ & _ & _ & Hv & _)]; [exact Hst0 |].
    intros v s Hin. rewrite Hd, dom_insert_L.
    destruct Hv as [Hv | (v' & Hlike & Hv)]; rewrite Hv in Hin.
    + destruct (Hst0 v s Hin).
      split; [assumption | apply elem_of_union; right; assumption].
    + apply elem_of_app in Hin as [Hin | Hin].
      * destruct (Hst0 v s Hin).
        split; [assumption | apply elem_of_union; right; assumption].
      * apply list_elem_of_singleton in Hin. injection Hin as -> ->.
        split; [exact Hlike |].
        apply elem_of_union. left. apply elem_of_singleton. reflexivity.
  - intros v s Hin. inversion Hin.
Qed.

Lemma process_grows st (f : log_file) st' :
  process st f = Ok st' → grown_from st st'.
Proof.
  intros H.
  destruct (process_file_fields _ _ _ _ _ _ _ H)
    as [[_ ->] | (summary & s_name & pd & w & plots & self' & _ & Eparse
                   & Hd & Hw & Hh & Hs & Hv & Hl)];
    [repeat split; reflexivity |].
  destruct (parse_warnings _ _ _ _ _ _ _ _ Eparse) as (_ & _ & _ & _ & _ & Hkeys).
  repeat split.
  - rewrite Hd, dom_insert_L. apply union_subseteq_r.
  - rewrite Hw. destruct (bool_decide _); [| reflexivity].
    rewrite dom_insert_L. apply union_subseteq_r.
  - rewrite Hh. exact Hkeys.
  - rewrite Hs. apply prefix_app_r. reflexivity.
  - destruct Hv as [-> | (v & _ & ->)]; [reflexivity |].
    apply prefix_app_r. reflexivity.
  - exact Hl.
Qed.

(** X11. A scan only adds: from whatever state it starts, the state it
    ends in has every sample and every stored warnings entry of the start,
    and its warning headers, data sources, software versions and log begin
    with those of the start.  Nothing recorded is ever removed.  Lines
    58-90. *)
Theorem X11_scan_only_adds (files : list log_file) st st' :
  scan files st = Ok st' → grown_from st st'.
Proof.
  apply (scan_invariant json_loads clean_s_name table_data_and_headers
           extract_plot_data (grown_from st)).
  - intros st0 f st1 (A1 & A2 & A3 & A4 & A5 & A6) H.
    destruct (process_grows _ _ _ H) as (B1 & B2 & B3 & B4 & B5 & B6).
    repeat split; etransitivity; eassumption.
  - repeat split; reflexivity.
Qed.
End what_a_scan_keeps.

Lemma X8_stored_warnings_are_consistent_witness :
  warnings_consistent
    (Fixture.state_of
       (Fixture.scan [Fixture.file_A; Fixture.file_B; Fixture.file_A_again])).
Proof.
  apply (X8_stored_warnings_are_consistent [] Fixture.decode Fixture.clean
           Utils.table_data_and_headers Utils.extract_plot_data
           [Fixture.file_A; Fixture.file_B; Fixture.file_A_again]).
  vm_compute. reflexivity.
Defined.

Lemma X9_samples_are_the_recorded_sources_witness :
  size (data_by_sample
          (Fixture.state_of
             (Fixture.scan [Fixture.file_A; Fixture.file_B; Fixture.file_A_again])))
  ≤ length (data_sources
              (Fixture.state_of
                 (Fixture.scan [Fixture.file_A; Fixture.file_B; Fixture.file_A_again]))).
Proof.
  eapply proj2, (X9_samples_are_the_recorded_sources [] Fixture.decode
           Fixture.clean Utils.table_data_and_headers Utils.extract_plot_data
           [Fixture.file_A; Fixture.file_B; Fixture.file_A_again]).
  vm_compute. reflexivity.
Defined.

Lemma X10_recorded_versions_witness :
  version_like "2.0.2" = true
  ∧ "A" ∈ dom (data_by_sample
                 (Fixture.state_of
                    (Fixture.scan [Fixture.file_A; Fixture.file_A_again]))).
Proof.
  apply (X10_recorded_versions [] Fixture.decode Fixture.clean
           Utils.table_data_and_headers Utils.extract_plot_data
           [Fixture.file_A; Fixture.file_A_again]).
  - vm_compute. reflexivity.
  - vm_compute. right. left.
Defined.

Lemma X11_scan_only_adds_witness :
  grown_from
    (Fixture.state_of (Fixture.scan [Fixture.file_A]))
    (Fixture.state_of (Fixture.scan [Fixture.file_A; Fixture.file_B])).
Proof.
  apply (X11_scan_only_adds Fixture.decode Fixture.clean
           Utils.table_data_and_headers Utils.extract_plot_data
           [Fixture.file_B]).
  vm_compute. reflexivity.
Defined.

(** ** The report *)

Section the_report.
Context {metrics headers series : Type}.
Variable no_headers : headers.
Variable json_loads : string -> result pyval.
Variable clean_s_name : pyval -> log_file -> result string.
Variable is_ignore_sample : string -> bool.
Variable table_data_and_headers : pyval -> pyval -> result (metrics * headers).
Variable extract_plot_data : pyval -> result series.
Variable subset_header : headers -> sdict string -> option string -> headers.
Variable set_hidden_cols : headers -> list string -> headers.

Implicit Types st : module_state metrics headers series.

Local Abbreviation scan :=
  (scan_files json_loads clean_s_name table_data_and_headers extract_plot_data).
Local Abbreviation run :=
  (__init__ no_headers json_loads clean_s_name is_ignore_sample
     table_data_and_headers extract_plot_data subset_header set_hidden_cols).
Local Abbreviation ignore := (ignore_samples is_ignore_sample).

Lemma ignore_samples_same_dom {V W : Type} (m : gmap string V) (d : gmap string W) :
  dom m = dom d → dom (ignore m) = dom (ignore d).
Proof.
  intros H. apply set_eq. intros s.
  rewrite !(ignore_samples_dom is_ignore_sample), H. reflexivity.
Qed.

(** The report of a run whose scan ended in [st], spelled out. *)
Lemma run_report (files : list log_file) st rep :
  scan files (init_state no_headers) = Ok st →
  run files = Ok rep →
  ∃ m1 m2 m3 m4 a g,
    plots_data_by_sample st = four_plots m1 m2 m3 m4
    ∧ Forall (fun m : gmap string series => dom m = dom (data_by_sample st))
        [m1; m2; m3; m4]
    ∧ atac_plots (metrics:=metrics) (headers:=headers)
        (four_plots (ignore m1) (ignore m2) (ignore m3) (ignore m4)) = Ok a
    ∧ gex_plots (metrics:=metrics) (headers:=headers)
        (four_plots (ignore m1) (ignore m2) (ignore m3) (ignore m4)) = Ok g
    ∧ rep = {| found := found_info (size (ignore (data_by_sample st)));
               data_file := (ignore (data_by_sample st), "multiqc_cellranger_arc");
               general_stats :=
                 general_stats_table subset_header (ignore (data_by_sample st))
                   (all_headers st);
               sections :=
                 (if bool_decide (0 < size (ignore (warnings_by_sample st)))
                  then [warnings_section (ignore (warnings_by_sample st))
                          (warnings_headers st)]
                  else [])
                 ++ atac_summary_table subset_header
                      (ignore (data_by_sample st)) (all_headers st)
                 ++ gex_summary_table subset_header set_hidden_cols
                      (ignore (data_by_sample st)) (all_headers st)
                 ++ a ++ g |}.
Proof.
  intros Hscan Hrun.
  destruct (scan_keeps_plots_in_step json_loads clean_s_name
              table_data_and_headers extract_plot_data files _ _
              (init_state_plots_in_step no_headers) Hscan)
    as (m1 & m2 & m3 & m4 & Hplots & Hdom).
  exists m1, m2, m3, m4.
  unfold __init__ in Hrun. rewrite Hscan, bind_Ok_l in Hrun.
  unfold finish in Hrun.
  rewrite Hplots, ignore_loop_four, bind_Ok_l in Hrun.
  destruct (bool_decide (size (ignore (data_by_sample st)) = 0));
    [discriminate Hrun |].
  eexists _, _. split; [exact Hplots |]. split; [exact Hdom |].
  split; [reflexivity |]. split; [reflexivity |].
  injection Hrun as <-. reflexivity.
Qed.

(** X12. In the report of a run, the data file, the general statistics,
    the three metric tables and the four line graphs all show the same
    samples: those of the scan that the host does not exclude.  The
    warnings table, when there is one, shows some of them.  Lines 92-129. *)
Theorem X12_report_shows_one_sample_set (files : list log_file) st rep :
  scan files (init_state no_headers) = Ok st →
  run files = Ok rep →
  (∀ s, s ∈ dom (data_file rep).1 ↔
        s ∈ dom (data_by_sample st) ∧ is_ignore_sample s = false)
  ∧ dom (general_stats rep).1 = dom (data_file rep).1
  ∧ Forall (fun sec =>
      match sec_plot sec with
      | WarningsTable data _ _ => dom data ⊆ dom (data_file rep).1
      | p => plot_samples p = dom (data_file rep).1
      end) (sections rep).
Proof.
  intros Hscan Hrun.
  assert (Hwarn : warnings_consistent st).
  { revert Hscan.
    apply (scan_invariant json_loads clean_s_name table_data_and_headers
             extract_plot_data warnings_consistent).
    - apply process_keeps_warnings_consistent.
    - intros s w Hs. cbn [warnings_by_sample init_state] in Hs.
      rewrite lookup_empty in Hs. discriminate Hs. }
  destruct (run_report files st rep Hscan Hrun)
    as (m1 & m2 & m3 & m4 & a & g & Hplots & Hdom & Ha & Hg & ->).
  injection Ha as <-. injection Hg as <-.
  cbn [data_file general_stats sections fst general_stats_table].
  split; [intros s; apply ignore_samples_dom |]. split; [reflexivity |].
  rewrite !Forall_cons in Hdom. destruct Hdom as (D1 & D2 & D3 & D4 & _).
  rewrite !Forall_app. split; [| split; [| split; [| split]]].
  - destruct (bool_decide _); [| constructor].
    repeat constructor. cbn [sec_plot warnings_section].
    intros s Hs. apply ignore_samples_dom in Hs as [Hs Hnot].
    apply ignore_samples_dom. split; [| exact Hnot].
    apply elem_of_dom in Hs as [w Hw]. apply (Hwarn s w Hw).
  - repeat constructor.
  - repeat constructor.
  - repeat constructor; cbn [sec_plot plot_samples];
      apply ignore_samples_same_dom; assumption.
  - repeat constructor; cbn [sec_plot plot_samples];
      apply ignore_samples_same_dom; assumption.
Qed.

(** X13. The report of a run has its sections in a fixed order: the
    warnings table first, exactly when a sample that the host does not
    exclude has stored warnings, then the two ATAC tables, the GEX table
    and the four line graphs.  The anchors of the sections are pairwise
    distinct, and so are the ids of their plots.  Lines 109-129 and
    200-382. *)
Theorem X13_sections_of_the_report (files : list log_file) st rep :
  scan files (init_state no_headers) = Ok st →
  run files = Ok rep →
  (∃ warn,
     sec_name <$> sections rep
     = warn ++ [ "ATAC - Summary stats"; "ATAC - Cell & Mapping metrics";
                 "GEX - Summary stats"; "ATAC - TSS enrichment plot";
                 "ATAC - Insert Size Distribution";
                 "GEX - Sequencing Saturation"; "GEX - Median Genes per Cell" ]
     ∧ ((warn = ["ARC - Warnings"]
         ∧ ∃ s w, warnings_by_sample st !! s = Some w
                  ∧ is_ignore_sample s = false)
        ∨ (warn = []
           ∧ ∀ s, is_Some (warnings_by_sample st !! s) →
                  is_ignore_sample s = true)))
  ∧ NoDup (sec_anchor <$> sections rep)
  ∧ ∃ ids, (fun sec => plot_id (sec_plot sec)) <$> sections rep = Some <$> ids
           ∧ NoDup ids.
Proof.
  intros Hscan Hrun.
  destruct (run_report files st rep Hscan Hrun)
    as (m1 & m2 & m3 & m4 & a & g & _ & _ & Ha & Hg & ->).
  injection Ha as <-. injection Hg as <-. cbn [sections].
  destruct (bool_decide (0 < size (ignore (warnings_by_sample st)))) eqn:Hsize.
  - split; [| split].
    + exists ["ARC - Warnings"]. split; [reflexivity |]. left.
      split; [reflexivity |].
      apply bool_decide_eq_true in Hsize.
      assert (Hne : ignore (warnings_by_sample st) ≠ ∅).
      { intros Hempty. rewrite Hempty, map_size_empty in Hsize. lia. }
      apply map_choose in Hne as (s & w & Hsw).
      unfold ignore_samples in Hsw.
      apply map_lookup_filter_Some in Hsw as [Hsw Hs]. eauto.
    + apply (bool_decide_unpack _). vm_compute. exact I.
    + exists [ "cellranger-arc-warnings-table";
              "cellranger-atac-stats-table1"; "cellranger-atac-stats-table2";
              "cellranger-gex-stats-table"; "mqc_atac_tss_enrichment_plot";
              "mqc_atac_insert_size_plot"; "mqc_gex_saturation_plot";
              "mqc_gex_genes_plot" ].
      split; [reflexivity |].
      apply (bool_decide_unpack _). vm_compute. exact I.
  - split; [| split].
    + exists []. split; [reflexivity |]. right. split; [reflexivity |].
      apply bool_decide_eq_false in Hsize.
      intros s [w Hw]. destruct (is_ignore_sample s) eqn:Hs; [reflexivity |].
      exfalso. apply Hsize.
      assert (Hin : ignore (warnings_by_sample st) !! s = Some w)
        by (apply map_lookup_filter_Some; auto).
      destruct (decide (size (ignore (warnings_by_sample st)) = 0)) as [H0 |]; [| lia].
      apply map_size_empty_iff in H0. rewrite H0, lookup_empty in Hin.
      discriminate Hin.
    + apply (bool_decide_unpack _). vm_compute. exact I.
    + exists [ "cellranger-atac-stats-table1"; "cellranger-atac-stats-table2";
              "cellranger-gex-stats-table"; "mqc_atac_tss_enrichment_plot";
              "mqc_atac_insert_size_plot"; "mqc_gex_saturation_plot";
              "mqc_gex_genes_plot" ].
      split; [reflexivity |].
      apply (bool_decide_unpack _). vm_compute. exact I.
Qed.
End the_report.

Lemma X12_report_shows_one_sample_set_witness :
  ∃ rep,
    Fixture.run [Fixture.file_A; Fixture.file_B] = Ok rep
    ∧ dom (general_stats rep).1 = dom (data_file rep).1.
Proof.
  eexists. split; [vm_compute; reflexivity |].
  eapply proj1, proj2, (X12_report_shows_one_sample_set [] Fixture.decode
           Fixture.clean Fixture.ignored Utils.table_data_and_headers
           Utils.extract_plot_data Utils.subset_header Utils.set_hidden_cols
           [Fixture.file_A; Fixture.file_B]).
  - vm_compute. reflexivity.
  - vm_compute. reflexivity.
Defined.

Lemma X13_sections_of_the_report_witness :
  ∃ rep,
    Fixture.run [Fixture.file_A; Fixture.file_B] = Ok rep
    ∧ NoDup (sec_anchor <$> sections rep).
Proof.
  eexists. split; [vm_compute; reflexivity |].
  eapply proj1, proj2, (X13_sections_of_the_report [] Fixture.decode
           Fixture.clean Fixture.ignored Utils.table_data_and_headers
           Utils.extract_plot_data Utils.subset_header Utils.set_hidden_cols
           [Fixture.file_A; Fixture.file_B]).
  - vm_compute. reflexivity.
  - vm_compute. reflexivity.
Defined.

(** ** Which report a sample shows *)

Section last_report.
Context {metrics headers series : Type}.
Variable json_loads : string -> result pyval.
Variable clean_s_name : pyval -> log_file -> result string.
Variable table_data_and_headers : pyval -> pyval -> result (metrics * headers).
Variable extract_plot_data : pyval -> result series.

Implicit Types st : module_state metrics headers series.

Local Abbreviation process :=
  (process_file json_loads clean_s_name table_data_and_headers extract_plot_data).
Local Abbreviation scan :=
  (scan_files json_loads clean_s_name table_data_and_headers extract_plot_data).
Local Abbreviation holds := (report_of json_loads clean_s_name).

Lemma report_of_sample (f : log_file) (s s' : string) (summary summary' : pyval) :
  holds f s summary → holds f s' summary' → s = s'.
Proof.
  intros (Hf & _ & id & Hid & Hc) (Hf' & _ & id' & Hid' & Hc').
  assert (summary' = summary) as -> by congruence.
  assert (id' = id) as -> by congruence.
  congruence.
Qed.

(** The metrics mapping after one file. *)
Lemma process_file_data st (f : log_file) st' :
  process st f = Ok st' →
  (find_summary json_loads (lines f) = Ok PNone ∧ st' = st)
  ∨ ∃ summary s rows help parsed_data hdrs,
      holds f s summary
      ∧ data_rows_of summary = Ok rows
      ∧ help_text_of summary = Ok help
      ∧ table_data_and_headers rows help = Ok (parsed_data, hdrs)
      ∧ data_by_sample st' = <[s := parsed_data]> (data_by_sample st).
Proof.
  intros H.
  destruct (process_file_Ok _ _ _ _ _ _ _ H)
    as [? | (summary & id & s & pd & w & plots & st0 & st1
              & Hfind & Hsome & Hid & Hclean & Eparse & Eversion & Eplots)];
    [left; assumption | right].
  destruct (parse_sets_all_headers _ _ _ _ _ _ _ _ Eparse)
    as (rows & help & E1 & E2 & E3).
  exists summary, s, rows, help, pd, (all_headers st0).
  split; [split; [exact Hfind | split; [exact Hsome | eauto]] |].
  split; [exact E1 |]. split; [exact E2 |]. split; [exact E3 |].
  destruct (parse_frame _ _ _ _ _ _ _ _ Eparse) as (Hd0 & _).
  destruct (extract_version_frame _ _ _ _ Eversion) as (Hd1 & _).
  unfold record_plots in Eplots. bind_inv Eplots as p Ep.
  injection Eplots as <-. unfold record_sample.
  destruct (bool_decide (is_Some _)), (bool_decide (0 < _)); simpl;
    rewrite Hd1, Hd0; reflexivity.
Qed.

Lemma scan_last_report (files : list log_file) st0 st (s : string) (m : metrics) :
  scan files st0 = Ok st →
  data_by_sample st !! s = Some m →
  (data_by_sample st0 !! s = Some m
   ∧ Forall (fun g => ∀ summary, ¬ holds g s summary) files)
  ∨ ∃ before f after summary rows help hdrs,
      files = before ++ f :: after
      ∧ holds f s summary
      ∧ data_rows_of summary = Ok rows
      ∧ help_text_of summary = Ok help
      ∧ table_data_and_headers rows help = Ok (m, hdrs)
      ∧ Forall (fun g => ∀ summary', ¬ holds g s summary') after.
Proof.
  unfold scan_files. revert st0.
  induction files as [|f files IH]; intros st0 H Hm.
  - injection H as <-. left. split; [exact Hm | constructor].
  - cbn [for_each] in H. bind_inv H as st1 E.
    destruct (IH st1 H Hm)
      as [[Hm1 Hnone]
         | (before & f' & after & summary & rows & help & hdrs
            & -> & Hholds & E1 & E2 & E3 & Hafter)].
    + destruct (process_file_data _ _ _ E)
        as [[Hfind ->]
           | (summary & s' & rows & help & pd & hdrs
              & Hholds & E1 & E2 & E3 & Hdata)].
      * left. split; [exact Hm1 |]. constructor; [| exact Hnone].
        intros summary (Hf & Hsome & _). congruence.
      * rewrite Hdata in Hm1. destruct (decide (s' = s)) as [-> | Hne].
        -- rewrite lookup_insert_eq in Hm1. injection Hm1 as ->.
           right. exists [], f, files, summary, rows, help, hdrs. auto 10.
        -- rewrite lookup_insert_ne in Hm1 by exact Hne.
           left. split; [exact Hm1 |]. constructor; [| exact Hnone].
           intros summary' Hholds'. apply Hne.
           apply (report_of_sample f s' s summary summary'); assumption.
    + right. exists (f :: before), f', after, summary, rows, help, hdrs.
      auto 10.
Qed.

(** X14. The metrics that a sample has after a scan are those of the
    last file, in the order of the scan, whose report is of that sample:
    the table normalizer gives them for the rows and help texts of that
    one report, and no later file holds a report of the sample.  Earlier
    reports of the sample leave no trace in its metrics.  The start of
    the scan is any module in which the sample has no metrics.
    Lines 58-86. *)
Theorem X14_last_report_of_a_sample_wins (files : list log_file) st0 st
    (s : string) (m : metrics) :
  scan files st0 = Ok st →
  data_by_sample st0 !! s = None →
  data_by_sample st !! s = Some m →
  ∃ before f after summary rows help hdrs,
    files = before ++ f :: after
    ∧ holds f s summary
    ∧ data_rows_of summary = Ok rows
    ∧ help_text_of summary = Ok help
    ∧ table_data_and_headers rows help = Ok (m, hdrs)
    ∧ Forall (fun g => ∀ summary', ¬ holds g s summary') after.
Proof.
  intros Hscan Hnew Hm.
  destruct (scan_last_report files st0 st s m Hscan Hm) as [[Hold _] | H].
  - congruence.
  - exact H.
Qed.
End last_report.

Lemma X14_last_report_of_a_sample_wins_witness :
  ∃ m before after rows help hdrs,
    [Fixture.file_A; Fixture.file_B; Fixture.file_A_again]
    = before ++ Fixture.file_A_again :: after
    ∧ data_rows_of Fixture.report_A_again = Ok rows
    ∧ help_text_of Fixture.report_A_again = Ok help
    ∧ Utils.table_data_and_headers rows help = Ok (m, hdrs).
Proof.
  destruct (X14_last_report_of_a_sample_wins Fixture.decode Fixture.clean
              Utils.table_data_and_headers Utils.extract_plot_data
              [Fixture.file_A; Fixture.file_B; Fixture.file_A_again]
              Fixture.start
              (Fixture.state_of
                 (Fixture.scan
                    [Fixture.file_A; Fixture.file_B; Fixture.file_A_again]))
              "A"
              (default []
                 (data_by_sample
                    (Fixture.state_of
                       (Fixture.scan
                          [Fixture.file_A; Fixture.file_B; Fixture.file_A_again]))
                  !! "A")))
    as (before & f & after & summary & rows & help & hdrs
        & Hfiles & Hholds & E1 & E2 & E3 & Hafter).
  - vm_compute. reflexivity.
  - vm_compute. reflexivity.
  - vm_compute. reflexivity.
  - assert (Hf : f = Fixture.file_A_again).
    { destruct before as [|a [|b [|c before]]]; simpl in Hfiles.
      - exfalso. injection Hfiles as Ha Hb. subst f after.
        inversion Hafter as [|g gs _ Hrest]; subst.
        inversion Hrest as [|g gs Hno _]; subst.
        apply (Hno Fixture.report_A_again). vm_compute.
        split; [reflexivity |]. split; [discriminate |].
        eexists. split; reflexivity.
      - exfalso. injection Hfiles as Ha Hb Hc. subst f.
        destruct Hholds as (Hfind & _ & id & Hid & Hclean).
        vm_compute in Hfind. injection Hfind as <-.
        vm_compute in Hid. injection Hid as <-.
        vm_compute in Hclean. discriminate Hclean.
      - injection Hfiles as Ha Hb Hc Hd. congruence.
      - injection Hfiles as Ha Hb Hc Hd.
        destruct before; discriminate Hd. }
    subst f.
    assert (summary = Fixture.report_A_again) as ->.
    { destruct Hholds as (Hfind & _). vm_compute in Hfind.
      injection Hfind as <-. reflexivity. }
    eexists _, before, after, rows, help, hdrs. eauto.
Defined.

(** ** What the parser returns *)

Section parser_result.
Context {metrics headers series : Type}.
Variable table_data_and_headers : pyval -> pyval -> result (metrics * headers).
Variable extract_plot_data : pyval -> result series.

Implicit Types self : module_state metrics headers series.

Local Abbreviation parse :=
  (parse_html_summary table_data_and_headers extract_plot_data).

(** The outcome of one alarm, and of the alarm loop, up to the warning
    headers that it started from. *)
Lemma alarm_step_history_free (acc1 acc2 : pydict * pydict) (alarm : pyval) :
  acc1.1 = acc2.1 →
  match alarm_step acc1 alarm, alarm_step acc2 alarm with
  | Ok a, Ok b => a.1 = b.1
  | Err e1, Err e2 => e1 = e2
  | _, _ => False
  end.
Proof.
  destruct acc1 as [w wh1], acc2 as [w2 wh2]. cbn [fst]. intros <-.
  unfold alarm_step. cbn [fst snd].
  destruct (Py.contains_str "id" alarm) as [[|]|e];
    rewrite ?bind_Ok_l; cbn [negb]; [| reflexivity | reflexivity].
  destruct (Py.getitem alarm (PStr "title")) as [title|e];
    [rewrite !bind_Ok_l | reflexivity].
  unfold Py.dict_setitem.
  destruct (Py.hashable title); [rewrite !bind_Ok_l | reflexivity].
  destruct (Py.getitem alarm (PStr "message")) as [message|e];
    [rewrite !bind_Ok_l | reflexivity].
  reflexivity.
Qed.

Lemma alarm_loop_history_free (items : list pyval) (acc1 acc2 : pydict * pydict) :
  acc1.1 = acc2.1 →
  match for_each alarm_step items acc1, for_each alarm_step items acc2 with
  | Ok a, Ok b => a.1 = b.1
  | Err e1, Err e2 => e1 = e2
  | _, _ => False
  end.
Proof.
  revert acc1 acc2. induction items as [|alarm items IH]; intros acc1 acc2 Hacc.
  - exact Hacc.
  - cbn [for_each].
    pose proof (alarm_step_history_free acc1 acc2 alarm Hacc) as Hstep.
    destruct (alarm_step acc1 alarm) as [a|e1],
             (alarm_step acc2 alarm) as [b|e2]; try contradiction.
    + rewrite !bind_Ok_l. apply IH, Hstep.
    + exact Hstep.
Qed.

(** X16. What the parser returns for a report (the metrics, the warnings
    and the four plot series, or the exception) is the same whatever
    module it is called on: the files read before have no part in it.
    Only the registries of the module differ afterwards.  Lines 131-182. *)
Theorem X16_parse_result_is_history_free self1 self2 (summary : pyval) :
  returned (parse self1 summary) = returned (parse self2 summary).
Proof.
  unfold parse_html_summary.
  destruct (data_rows_of summary) as [rows|e]; [rewrite !bind_Ok_l | reflexivity].
  destruct (help_text_of summary) as [help|e]; [rewrite !bind_Ok_l | reflexivity].
  destruct (table_data_and_headers rows help) as [[pd hdrs]|e];
    [rewrite !bind_Ok_l | reflexivity].
  destruct (Py.getitem summary (PStr "alarms")) as [alarms|e];
    [rewrite !bind_Ok_l | reflexivity].
  destruct (Py.get alarms (PStr "alarms") (PList [])) as [alarms_list|e];
    [rewrite !bind_Ok_l | reflexivity].
  destruct (Py.iter alarms_list) as [items|e]; [rewrite !bind_Ok_l | reflexivity].
  pose proof (alarm_loop_history_free items
                ([], warnings_headers (set_all_headers hdrs self1))
                ([], warnings_headers (set_all_headers hdrs self2))
                eq_refl) as Hloop.
  destruct (for_each alarm_step items
              ([], warnings_headers (set_all_headers hdrs self1)))
    as [[w1 wh1]|e1];
    destruct (for_each alarm_step items
                ([], warnings_headers (set_all_headers hdrs self2)))
      as [[w2 wh2]|e2]; try contradiction.
  - cbn [fst] in Hloop. subst w2. rewrite !bind_Ok_l.
    destruct (plot_of extract_plot_data summary "atac_tss_enrichment_plot")
      as [tss|e]; [rewrite !bind_Ok_l | reflexivity].
    destruct (plot_of extract_plot_data summary "atac_insert_size_plot")
      as [insert_size|e]; [rewrite !bind_Ok_l | reflexivity].
    destruct (plot_of extract_plot_data summary "gex_seq_saturation_plot")
      as [saturation|e]; [rewrite !bind_Ok_l | reflexivity].
    destruct (plot_of extract_plot_data summary "gex_genes_per_cell_plot")
      as [genes|e]; [rewrite !bind_Ok_l | reflexivity].
    reflexivity.
  - subst e2. reflexivity.
Qed.

(** The alarm loop stops at the first alarm with an identifier and a
    defect. *)
Lemma alarm_loop_defect (before after : list pyval) (alarm : pydict)
    (acc acc1 : pydict * pydict) (e : exn) :
  for_each alarm_step before acc = Ok acc1 →
  is_Some (od_get Py.key_eqb (PStr "id") alarm) →
  alarm_defect alarm = Some e →
  for_each alarm_step (before ++ PDict alarm :: after) acc = Err e.
Proof.
  intros Hbefore Hid Hdefect.
  rewrite (for_each_app_Ok _ _ _ _ _ Hbefore). cbn [for_each].
  assert (Hstep : alarm_step acc1 (PDict alarm) = Err e);
    [| rewrite Hstep; reflexivity].
  unfold alarm_step. cbn [Py.contains_str].
  rewrite bool_decide_eq_true_2 by exact Hid. rewrite bind_Ok_l. cbn [negb].
  unfold alarm_defect in Hdefect. cbn [Py.getitem]. unfold Py.dict_getitem.
  cbn [Py.hashable].
  destruct (od_get Py.key_eqb (PStr "title") alarm) as [title|];
    [| injection Hdefect as <-; reflexivity].
  rewrite bind_Ok_l. unfold Py.dict_setitem.
  destruct (Py.hashable title); [| injection Hdefect as <-; reflexivity].
  rewrite bind_Ok_l.
  destruct (od_get Py.key_eqb (PStr "message") alarm) as [message|];
    [discriminate Hdefect | injection Hdefect as <-; reflexivity].
Qed.

(** X15. An alarm that has an [id] must be complete.  When the alarms
    before it pass and it has no title, or its title is a list or an
    object, or it has no message, parsing the report ends with the
    exception of that defect ([KeyError] for the missing entry,
    [TypeError] for the title that cannot be a key): nothing is returned
    for the report, whatever alarms follow.  Lines 166-175. *)
Theorem X15_incomplete_alarm_is_fatal self (summary rows help : pyval)
    (parsed_data : metrics) (hdrs : headers) (alarms : pyval)
    (before after : list pyval) (alarm : pydict) (acc : pydict * pydict)
    (e : exn) :
  data_rows_of summary = Ok rows →
  help_text_of summary = Ok help →
  table_data_and_headers rows help = Ok (parsed_data, hdrs) →
  Py.getitem summary (PStr "alarms") = Ok alarms →
  Py.get alarms (PStr "alarms") (PList [])
    = Ok (PList (before ++ PDict alarm :: after)) →
  for_each alarm_step before ([], warnings_headers self) = Ok acc →
  is_Some (od_get Py.key_eqb (PStr "id") alarm) →
  alarm_defect alarm = Some e →
  parse self summary = Err e.
Proof.
  intros Hrows Hhelp Htables Halarms Hlist Hbefore Hid Hdefect.
  unfold parse_html_summary.
  rewrite Hrows, bind_Ok_l, Hhelp, bind_Ok_l, Htables, bind_Ok_l.
  rewrite Halarms, bind_Ok_l, Hlist, bind_Ok_l. cbn [Py.iter].
  rewrite bind_Ok_l.
  change (warnings_headers (set_all_headers hdrs self))
    with (warnings_headers self).
  rewrite (alarm_loop_defect before after alarm _ acc e Hbefore Hid Hdefect).
  reflexivity.
Qed.
End parser_result.

Lemma X15_incomplete_alarm_is_fatal_witness :
  Fixture.parse Fixture.start Fixture2.report_untitled = Err KeyError.
Proof.
  eapply (X15_incomplete_alarm_is_fatal Utils.table_data_and_headers
            Utils.extract_plot_data Fixture.start Fixture2.report_untitled
            _ _ _ _ _
            [Fixture.alarm "low_cells" "Low cell count" "Fewer cells than expected"]
            [Fixture.note "Information" "Nothing to report"]
            [(PStr "id", PStr "x"); (PStr "message", PStr "No title")]).
  - vm_compute. reflexivity.
  - vm_compute. reflexivity.
  - vm_compute. reflexivity.
  - vm_compute. reflexivity.
  - vm_compute. reflexivity.
  - vm_compute. reflexivity.
  - vm_compute. eexists. reflexivity.
  - vm_compute. reflexivity.
Defined.
